(** * Laptop auditor ([usb_files/audit.py]): fact collection and classification

    A shallow embedding of the probes, parsers, the decision tree and the
    ledger writer of [audit.py], and the properties of them that the
    specification states.

    Conventions of the embedding.
    - A Python [str] is a Rocq [string]; a character is the code point of
      the same number, so the texts covered are those over code points
      below 256.  The character classes ([str.strip], [str.splitlines],
      the regular-expression classes [\d] and [\s], [int()]) are the
      Unicode ones of CPython restricted to that range.
    - A Python value that can raise is a [result]: [Ok v] or [Raise e].
    - A [dict] with string keys is a [gmap string pyval].
    - A Python [float] is an IEEE 754 binary64 number, a [spec_float] of
      the standard library used at precision 53 and maximal exponent 1024.
    - External commands are a node [Spawn] of a probe tree; the file
      system is a finite map from paths to nodes, with the paths that the
      system refuses to open for writing, passed explicitly.
    - What the program prints on the terminal is not part of the model. *)

From Stdlib Require Import ZArith NArith Ascii String List Bool Lia.
From Stdlib Require Import Floats.SpecFloat.
From stdpp Require Import base gmap strings list pretty.

Local Open Scope string_scope.
Local Open Scope Z_scope.

(* stdpp blocks the unfolding of string concatenation; the proofs below
   compute with it. *)
Local Arguments String.append !_ _ : simpl nomatch.

(** ** Exceptions and results *)

(** The exception classes the modelled code can meet.  [KeyboardInterrupt]
    and [SystemExit] derive from [BaseException] only; all the others derive
    from [Exception]. *)
Inductive exn : Type :=
  | ValueError
  | TypeError
  | OverflowError
  | ZeroDivisionError
  | OSError
  | FileNotFoundError
  | NotADirectoryError
  | IsADirectoryError
  | PermissionError
  | TimeoutExpired
  | UnicodeDecodeError
  | MemoryError
  | KeyboardInterrupt
  | SystemExit.

Definition derives_from_Exception (e : exn) : bool :=
  match e with
  | KeyboardInterrupt | SystemExit => false
  | _ => true
  end.

Inductive result (A : Type) : Type :=
  | Ok (a : A)
  | Raise (e : exn).
Arguments Ok {A} a.
Arguments Raise {A} e.

Definition rbind {A B : Type} (r : result A) (k : A -> result B) : result B :=
  match r with
  | Ok a => k a
  | Raise e => Raise e
  end.

Notation "'let!' x ':=' c 'in' k" := (rbind c (fun x => k))
  (at level 10, x name, c at level 100, k at level 200).

(** ** Python strings *)

Definition empty_str : string := EmptyString.

Definition chr (n : nat) : ascii := ascii_of_nat n.
Definition ord (c : ascii) : Z := Z.of_N (N_of_ascii c).

(** [Py_UNICODE_ISSPACE] below code point 256: TAB..CR, FS..US, SPACE,
    NEL and NBSP.  It is the set of [str.strip()], of [\s] and of the
    padding [int()] accepts. *)
Definition py_isspace (c : ascii) : bool :=
  let n := ord c in
  ((9 <=? n) && (n <=? 13)) || ((28 <=? n) && (n <=? 31))
  || (n =? 32) || (n =? 133) || (n =? 160).

(** [\d] (and the digits of [int()]) below code point 256: 0 to 9. *)
Definition py_isdigit (c : ascii) : bool :=
  let n := ord c in (48 <=? n) && (n <=? 57).

Definition digit_value (c : ascii) : Z := ord c - 48.

(** The line boundaries of [str.splitlines()] below code point 256, CR LF
    counting as one. *)
Definition is_linebreak (c : ascii) : bool :=
  let n := ord c in
  ((10 <=? n) && (n <=? 13)) || ((28 <=? n) && (n <=? 30)) || (n =? 133).

(** What is left of [s] after its longest prefix of characters in [cls]. *)
Fixpoint drop_while (cls : ascii -> bool) (s : string) : string :=
  match s with
  | EmptyString => EmptyString
  | String c s' => if cls c then drop_while cls s' else s
  end.

Definition lstrip (s : string) : string := drop_while py_isspace s.

Fixpoint rstrip (s : string) : string :=
  match s with
  | EmptyString => EmptyString
  | String c s' =>
      match rstrip s' with
      | EmptyString => if py_isspace c then EmptyString else String c EmptyString
      | r => String c r
      end
  end.

(** [s.strip()] *)
Definition strip (s : string) : string := rstrip (lstrip s).

(** [s.startswith(p)] *)
Fixpoint startswith (p s : string) : bool :=
  match p, s with
  | EmptyString, _ => true
  | String a p', String b s' => Ascii.eqb a b && startswith p' s'
  | String _ _, EmptyString => false
  end.

(** [needle in s] *)
Fixpoint contains (needle s : string) : bool :=
  startswith needle s ||
  match s with
  | EmptyString => false
  | String _ s' => contains needle s'
  end.

(** [s.splitlines()] *)
Fixpoint splitlines (s : string) : list string :=
  match s with
  | EmptyString => []
  | String c s' =>
      if Ascii.eqb c (chr 13) then
        match s' with
        | String c2 s'' =>
            if Ascii.eqb c2 (chr 10) then EmptyString :: splitlines s''
            else EmptyString :: splitlines s'
        | EmptyString => [EmptyString]
        end
      else if is_linebreak c then EmptyString :: splitlines s'
      else
        match splitlines s' with
        | [] => [String c EmptyString]
        | l :: ls => String c l :: ls
        end
  end.

(** [str(n)] for an [int] *)
Definition str_of_int (n : Z) : string := pretty n.

(** *** [int(s)] for a string, base 10

    Surrounding white space is dropped, one sign is allowed, then come
    digits, with single underscores allowed between two digits.  [None]
    stands for [ValueError].  (The digit-count limit of recent interpreters,
    which also raises [ValueError], is an interpreter setting and is left
    out.) *)

(** The padding [int()] skips: the white space of C below code point 127,
    and NEL and NBSP, which the interpreter turns into spaces first.  The
    separators FS..US are white space for [strip] but not here. *)
Definition int_isspace (c : ascii) : bool :=
  let n := ord c in
  ((9 <=? n) && (n <=? 13)) || (n =? 32) || (n =? 133) || (n =? 160).

(** The digits after the first one: [acc] is the value read so far. *)
Fixpoint int_digits (acc : Z) (s : string) : option (Z * string) :=
  match s with
  | EmptyString => Some (acc, EmptyString)
  | String c s' =>
      if py_isdigit c then int_digits (acc * 10 + digit_value c) s'
      else if Ascii.eqb c "_"%char then
        match s' with
        | String d s'' =>
            if py_isdigit d then int_digits (acc * 10 + digit_value d) s''
            else None
        | EmptyString => None
        end
      else Some (acc, s)
  end.

Definition int_magnitude (s : string) : option Z :=
  match s with
  | String c s' =>
      if py_isdigit c then
        match int_digits (digit_value c) s' with
        | Some (n, rest) =>
            match drop_while int_isspace rest with
            | EmptyString => Some n
            | _ => None
            end
        | None => None
        end
      else None
  | EmptyString => None
  end.

Definition int_of_str (s : string) : option Z :=
  match drop_while int_isspace s with
  | String c s' =>
      if Ascii.eqb c "-"%char then Z.opp <$> int_magnitude s'
      else if Ascii.eqb c "+"%char then int_magnitude s'
      else int_magnitude (String c s')
  | EmptyString => None
  end.

(** ** Python values held by the audit dictionary *)

Inductive pyval : Type :=
  | VNone
  | VInt (n : Z)
  | VStr (s : string).

(** [data.get(key, default)] *)
Definition dict_get (data : gmap string pyval) (key : string) (default : pyval) : pyval :=
  match data !! key with
  | Some v => v
  | None => default
  end.

(** [v == s] for a string literal [s]: never raises. *)
Definition eq_str (v : pyval) (s : string) : bool :=
  match v with
  | VStr t => String.eqb t s
  | _ => false
  end.

(** [int(v)] *)
Definition py_int (v : pyval) : result Z :=
  match v with
  | VInt n => Ok n
  | VStr s => match int_of_str s with Some n => Ok n | None => Raise ValueError end
  | VNone => Raise TypeError
  end.

(** [v >= n] for an integer literal [n] *)
Definition ge_int (v : pyval) (n : Z) : result bool :=
  match v with
  | VInt m => Ok (n <=? m)
  | _ => Raise TypeError
  end.

(** ** Phase 3: value logic *)

Definition PARTS_REPAIR : string := "PARTS/REPAIR".
Definition HIGH_VALUE : string := "HIGH VALUE (Gaming/Creator)".
Definition STANDARD_RESALE : string := "Standard Resale".
Definition BAD_BATTERY_DISCOUNT : string := "Bad Battery (Discount)".

(** The [try: batt = int(...) except ValueError: batt = 0] block. *)
Definition battery_number (data : gmap string pyval) : result Z :=
  match py_int (dict_get data "battery_pct" (VStr "0")) with
  | Ok n => Ok n
  | Raise ValueError => Ok 0
  | Raise e => Raise e
  end.

Definition compute_recommendation (data : gmap string pyval) : result string :=
  let smart := dict_get data "smart_status" (VStr "N/A") in
  let screen := dict_get data "screen_grade" (VStr empty_str) in
  let chassis := dict_get data "chassis_grade" (VStr empty_str) in
  let gpu := dict_get data "gpu" (VStr "None") in
  let cpu_gen := dict_get data "_cpu_gen" (VInt 0) in
  let! batt := battery_number data in
  if eq_str smart "FAILED" || eq_str screen "C" || eq_str chassis "C" then
    Ok PARTS_REPAIR
  else if negb (eq_str gpu "None") then
    Ok HIGH_VALUE
  else
    let! modern := ge_int cpu_gen 8 in
    if modern && (65 <? batt) then Ok STANDARD_RESALE
    else if batt <? 60 then Ok BAD_BATTERY_DISCOUNT
    else Ok STANDARD_RESALE.

(** ** Regular expressions

    The patterns of [audit.py] are sequences of items, an item being a
    character class with a greedy bounded repetition, possibly a capturing
    group.  The matcher follows [re]: every item takes as many characters
    as it can and gives them back one at a time when the rest of the
    pattern fails; [re.search] tries the start positions from left to
    right. *)

Record item : Type := Item {
  item_class : ascii -> bool;
  item_min : nat;
  item_max : option nat;
  item_group : bool
}.

Definition may_take (hi : option nat) : bool :=
  match hi with
  | Some O => false
  | _ => true
  end.

Fixpoint rep_greedy {R : Type} (cls : ascii -> bool) (lo : nat) (hi : option nat)
    (s : string) (k : string -> string -> option R) : option R :=
  let stop := match lo with O => k EmptyString s | S _ => None end in
  match s with
  | String c s' =>
      if cls c && may_take hi then
        match rep_greedy cls (Nat.pred lo) (Nat.pred <$> hi) s'
                (fun m rest => k (String c m) rest) with
        | Some r => Some r
        | None => stop
        end
      else stop
  | EmptyString => stop
  end.

(** The groups captured by a match of [pat] that starts where [s] does. *)
Fixpoint match_here (pat : list item) (s : string) : option (list string) :=
  match pat with
  | [] => Some []
  | it :: pat' =>
      rep_greedy (item_class it) (item_min it) (item_max it) s
        (fun m rest =>
           match match_here pat' rest with
           | Some groups => Some (if item_group it then m :: groups else groups)
           | None => None
           end)
  end.

(** [re.search(pat, s)]: the groups of the leftmost match. *)
Fixpoint re_search (pat : list item) (s : string) : option (list string) :=
  match match_here pat s with
  | Some groups => Some groups
  | None =>
      match s with
      | String _ s' => re_search pat s'
      | EmptyString => None
      end
  end.

Definition one (cls : ascii -> bool) : item := Item cls 1 (Some 1%nat) false.
Definition lit (c : ascii) : item := one (Ascii.eqb c).
Definition literal (s : string) : list item := map lit (list_ascii_of_string s).
Definition one_of (s : string) (c : ascii) : bool :=
  existsb (Ascii.eqb c) (list_ascii_of_string s).

(** [i[3579]-(\d{2,5})] *)
Definition intel_re : list item :=
  [lit "i"; one (one_of "3579"); lit "-"; Item py_isdigit 2 (Some 5%nat) true].

(** [Ryzen\s+\d\s+(\d)] *)
Definition ryzen_re : list item :=
  literal "Ryzen" ++
  [Item py_isspace 1 None false; one py_isdigit;
   Item py_isspace 1 None false; Item py_isdigit 1 (Some 1%nat) true].

(** [[\d.]+], as one group *)
Definition number_re : list item :=
  [Item (fun c => py_isdigit c || Ascii.eqb c ".") 1 None true].

(** ** CPU generation *)

(** [int(t)] where the code applies it to a piece of a match. *)
Definition int_of (t : string) : result Z :=
  match int_of_str t with
  | Some n => Ok n
  | None => Raise ValueError
  end.

Definition ryzen_generation (cpu_model : string) : result Z :=
  match re_search ryzen_re cpu_model with
  | Some (g :: _) => int_of g
  | _ => Ok 0
  end.

Definition parse_cpu_generation (cpu_model : string) : result Z :=
  match re_search intel_re cpu_model with
  | Some (model_num :: _) =>
      if (String.length model_num =? 4)%nat then int_of (substring 0 1 model_num)
      else if (String.length model_num =? 5)%nat then int_of (substring 0 2 model_num)
      else ryzen_generation cpu_model
  | _ => ryzen_generation cpu_model
  end.

(** ** Floating point: binary64 *)

Definition prec : Z := 53.
Definition emax : Z := 1024.

Definition float_of_int (n : Z) : spec_float := binary_normalize prec emax n 0 false.

Definition fdiv : spec_float -> spec_float -> spec_float := SFdiv prec emax.
Definition fmul : spec_float -> spec_float -> spec_float := SFmul prec emax.

(** The correctly rounded quotient of two integers, [d] positive: the value
    of a decimal numeral with mantissa [n] over the power of ten [d]. *)
Definition float_of_ratio (n : Z) (d : positive) : spec_float :=
  fdiv (match n with
        | Z0 => S754_zero false
        | Zpos p => S754_finite false p 0
        | Zneg p => S754_finite true p 0
        end)
       (S754_finite false d 0).

(** [float(t)] for the texts the code passes: [t] is a match of [[\d.]+],
    digits and dots.  Such a text is a numeral when it has one dot at most
    and one digit at least; any other raises [ValueError].  [frac] counts
    the digits after the dot once [dot] is set. *)
Fixpoint numeral (t : string) (mant : Z) (frac : nat) (dot seen : bool)
    : option (Z * nat) :=
  match t with
  | EmptyString => if seen then Some (mant, frac) else None
  | String c t' =>
      if py_isdigit c then
        numeral t' (mant * 10 + digit_value c) (if dot then S frac else frac) dot true
      else if Ascii.eqb c "."%char then
        if dot then None else numeral t' mant frac true seen
      else None
  end.

Definition float_of_str (t : string) : result spec_float :=
  match numeral t 0 0 false false with
  | Some (mant, frac) => Ok (float_of_ratio mant (Z.to_pos (10 ^ Z.of_nat frac)))
  | None => Raise ValueError
  end.

(** [bool(x)] of a float: false for the two zeros only. *)
Definition float_truthy (x : spec_float) : bool :=
  match x with
  | S754_zero _ => false
  | _ => true
  end.

(** [x > 0] *)
Definition float_gt_zero (x : spec_float) : bool := SFltb (S754_zero false) x.

(** [x / y] on floats *)
Definition float_truediv (x y : spec_float) : result spec_float :=
  if float_truthy y then Ok (fdiv x y) else Raise ZeroDivisionError.

(** Nearest integer to [m / 2^k], ties to the even one. *)
Definition round_half_even_shift (m k : Z) : Z :=
  let q := Z.shiftr m k in
  let r := m - Z.shiftl q k in
  match Z.compare (2 * r) (Z.shiftl 1 k) with
  | Lt => q
  | Gt => q + 1
  | Eq => if Z.even q then q else q + 1
  end.

(** [round(x)] of a float, to an [int] *)
Definition py_round (x : spec_float) : result Z :=
  match x with
  | S754_zero _ => Ok 0
  | S754_infinity _ => Raise OverflowError
  | S754_nan => Raise ValueError
  | S754_finite s m e =>
      let a := if 0 <=? e then Z.shiftl (Zpos m) e
               else round_half_even_shift (Zpos m) (- e) in
      Ok (if s then - a else a)
  end.

(** [a / b] on integers: the correctly rounded quotient. *)
Definition int_truediv (a : Z) (b : positive) : result spec_float :=
  match float_of_ratio a b with
  | S754_infinity _ => Raise OverflowError
  | q => Ok q
  end.

(** ** Battery health *)

(** [nums = re.findall(r"[\d.]+", line_s)] followed by
    [if nums: x = float(nums[0])]: the new value of the variable, [old]
    when there is no number on the line. *)
Definition first_number (line_s : string) (old : option spec_float)
    : result (option spec_float) :=
  match re_search number_re line_s with
  | Some (t :: _) => let! x := float_of_str t in Ok (Some x)
  | _ => Ok old
  end.

(** One turn of the loop over the lines, on the pair ([full], [design]). *)
Definition battery_line (st : option spec_float * option spec_float) (line : string)
    : result (option spec_float * option spec_float) :=
  let '(full, design) := st in
  let line_s := strip line in
  let! full :=
    (if contains "energy-full:" line_s && negb (contains "design" line_s)
     then first_number line_s full else Ok full) in
  let! design :=
    (if contains "energy-full-design:" line_s
     then first_number line_s design else Ok design) in
  Ok (full, design).

Fixpoint battery_scan (st : option spec_float * option spec_float) (lines : list string)
    : result (option spec_float * option spec_float) :=
  match lines with
  | [] => Ok st
  | line :: rest => let! st' := battery_line st line in battery_scan st' rest
  end.

Definition NA : string := "N/A".

(** The part of [get_battery_health] after the probe: [out] is the text
    that [run] returned. *)
Definition battery_health_of (out : string) : result string :=
  let! st := battery_scan (None, None) (splitlines out) in
  match st with
  | (Some full, Some design) =>
      if float_truthy full && float_truthy design && float_gt_zero design then
        let! q := float_truediv full design in
        let! n := py_round (fmul q (float_of_int 100)) in
        Ok (str_of_int n)
      else Ok NA
  | _ => Ok NA
  end.

(** ** The command probe *)

(** What [subprocess.run(cmd, shell=True, capture_output=True, text=True,
    timeout=timeout)] does: it returns a completed process, whatever its
    exit status ([check] is not set), or it raises. *)
Inductive proc_outcome : Type :=
  | Completed (returncode : Z) (stdout stderr : string)
  | Failed (e : exn).

(** A computation that spawns commands: it returns, raises, or spawns a
    command and goes on with what came of it. *)
Inductive Probe (A : Type) : Type :=
  | Ret (a : A)
  | Throw (e : exn)
  | Spawn (cmd : string) (timeout : Z) (k : proc_outcome -> Probe A).
Arguments Ret {A} a.
Arguments Throw {A} e.
Arguments Spawn {A} cmd timeout k.

Fixpoint pbind {A B : Type} (p : Probe A) (f : A -> Probe B) : Probe B :=
  match p with
  | Ret a => f a
  | Throw e => Throw e
  | Spawn cmd t k => Spawn cmd t (fun o => pbind (k o) f)
  end.

Notation "'do!' x ':=' c 'in' k" := (pbind c (fun x => k))
  (at level 10, x name, c at level 100, k at level 200).

Definition lift {A : Type} (r : result A) : Probe A :=
  match r with
  | Ok a => Ret a
  | Raise e => Throw e
  end.

(** What [run] makes of the outcome: [except Exception] catches the
    exceptions that derive from [Exception] and lets the others through. *)
Definition run_result (o : proc_outcome) : result string :=
  match o with
  | Completed _ stdout _ => Ok (strip stdout)
  | Failed e => if derives_from_Exception e then Ok empty_str else Raise e
  end.

Definition run (cmd : string) (timeout : Z) : Probe string :=
  Spawn cmd timeout (fun o => lift (run_result o)).

(** The default of the [timeout] parameter of [run]. *)
Definition default_timeout : Z := 15.

(** Running a probe tree in a world: [spawn] gives the outcome of a
    command and the next world.  The result comes with the last world and
    the commands spawned, in order. *)
Section Exec.
Context {W : Type}.
Variable spawn : W -> string -> Z -> proc_outcome * W.

Fixpoint exec {A : Type} (p : Probe A) (w : W) : result A * W * list string :=
  match p with
  | Ret a => (Ok a, w, [])
  | Throw e => (Raise e, w, [])
  | Spawn cmd t k =>
      let '(o, w1) := spawn w cmd t in
      let '(r, w2, cmds) := exec (k o) w1 in
      (r, w2, cmd :: cmds)
  end.
End Exec.

(** ** Storage *)

(** [round(int(size_bytes) / 1_000_000_000)] under [except ValueError]. *)
Definition capacity_of (size_bytes : string) : result Z :=
  match (let! n := int_of size_bytes in
         let! q := int_truediv n 1000000000 in
         py_round q) with
  | Raise ValueError => Ok 0
  | r => r
  end.

(** The [if]/[elif]/[else] on the text of the self-test. *)
Definition smart_of (smart_out : string) : string :=
  if contains "PASSED" smart_out then "PASSED"
  else if contains "FAILED" smart_out then "FAILED"
  else NA.

Definition storage_type_of (disk : string) : string :=
  if contains "nvme" disk then "NVMe" else "SATA".

Definition get_storage_info (disk : string) : Probe (string * Z * string) :=
  match disk with
  | EmptyString => Ret (NA, 0, NA)
  | _ =>
      let stor_type := storage_type_of disk in
      do! size_bytes := run ("lsblk -bdn -o SIZE " ++ disk) default_timeout in
      do! capacity_gb := lift (capacity_of size_bytes) in
      do! smart_out := run ("smartctl -H " ++ disk) default_timeout in
      Ret (stor_type, capacity_gb, smart_of smart_out)
  end.

Definition upower_cmd : string :=
  "upower -i /org/freedesktop/UPower/devices/battery_BAT0".

Definition get_battery_health : Probe string :=
  do! out := run upower_cmd default_timeout in
  lift (battery_health_of out).

(** ** Phase 4: the ledger *)

Definition CSV_FILENAME : string := "audit_master.csv".

Definition CSV_HEADERS : list string :=
  ["timestamp"; "service_tag"; "model"; "cpu"; "cores";
   "ram_gb"; "ram_type"; "storage_type"; "storage_gb";
   "smart_status"; "battery_pct"; "gpu"; "resolution";
   "resolution_class"; "screen_grade"; "chassis_grade";
   "charger"; "recommendation"].

(** *** The file system *)

(** A path names a regular file, with its text, or a directory; the other
    kinds of node are left out. *)
Inductive node : Type :=
  | File (content : string)
  | Dir.

(** The file system: the nodes by path, and the paths that the system
    does not let the process open for writing, each with the error it
    answers (a medium mounted read-only, a missing permission).  A path
    is a key as the program writes it: the model has no links and no
    second spelling of a path, and the empty path stands for the current
    directory. *)
Record filesystem : Type := Filesystem {
  nodes : gmap string node;
  refused : gmap string exn
}.

Definition with_nodes (fs : filesystem) (n : gmap string node) : filesystem :=
  Filesystem n (refused fs).

(** [os.path.join(a, b)] on a POSIX system *)
Definition path_join (a b : string) : string :=
  if startswith "/" b then b
  else if String.eqb a EmptyString || String.eqb (substring (String.length a - 1) 1 a) "/"
  then a ++ b
  else a ++ "/" ++ b.

Definition is_slash (c : ascii) : bool := Ascii.eqb c "/".

Fixpoint all_slashes (s : string) : bool :=
  match s with
  | EmptyString => true
  | String c s' => is_slash c && all_slashes s'
  end.

(** [p[:p.rfind("/") + 1]]: [p] up to its last slash *)
Fixpoint head_of (p : string) : string :=
  match p with
  | EmptyString => EmptyString
  | String c p' =>
      match head_of p' with
      | EmptyString => if is_slash c then String c EmptyString else EmptyString
      | h => String c h
      end
  end.

(** [s.rstrip("/")] *)
Fixpoint rstrip_slashes (s : string) : string :=
  match s with
  | EmptyString => EmptyString
  | String c s' =>
      match rstrip_slashes s' with
      | EmptyString => if is_slash c then EmptyString else String c EmptyString
      | t => String c t
      end
  end.

(** [os.path.dirname(p)] on a POSIX system: the directory that holds
    [p]. *)
Definition dirname (p : string) : string :=
  let head := head_of p in
  if negb (String.eqb head EmptyString) && negb (all_slashes head)
  then rstrip_slashes head else head.

(** [os.path.isfile(p)] *)
Definition isfile (fs : filesystem) (p : string) : bool :=
  match nodes fs !! p with
  | Some (File _) => true
  | _ => false
  end.

(** [open(p, "a", newline="")].  The system may refuse; a directory
    cannot be opened; a file that exists is opened as it is; a file that
    is missing is created, which takes the directory that holds it:
    without it the call raises [FileNotFoundError], and
    [NotADirectoryError] when a file stands in its place. *)
Definition open_append (fs : filesystem) (p : string) : result filesystem :=
  match refused fs !! p with
  | Some e => Raise e
  | None =>
      match nodes fs !! p with
      | Some (File _) => Ok fs
      | Some Dir => Raise IsADirectoryError
      | None =>
          match nodes fs !! dirname p with
          | Some Dir => Ok (with_nodes fs (<[p := File EmptyString]> (nodes fs)))
          | Some (File _) => Raise NotADirectoryError
          | None => Raise FileNotFoundError
          end
      end
  end.

(** [f.write(text)] on a file opened for appending at [p]: the text
    comes after what the file holds.  The write is taken to succeed: a
    medium that fills up while the text is written is outside the
    model. *)
Definition write_append (fs : filesystem) (p text : string) : filesystem :=
  match nodes fs !! p with
  | Some (File c) => with_nodes fs (<[p := File (c ++ text)]> (nodes fs))
  | _ => fs
  end.

(** *** The [csv] module, excel dialect *)

Definition dquote : ascii := chr 34.

(** A field is quoted when it holds the delimiter, the quote character
    or a character of the line terminator. *)
Definition needs_quote (c : ascii) : bool :=
  Ascii.eqb c ","%char || Ascii.eqb c dquote || Ascii.eqb c (chr 13) || Ascii.eqb c (chr 10).

Fixpoint any_char (p : ascii -> bool) (s : string) : bool :=
  match s with
  | EmptyString => false
  | String c s' => p c || any_char p s'
  end.

(** Every quote character is written twice. *)
Fixpoint double_quotes (s : string) : string :=
  match s with
  | EmptyString => EmptyString
  | String c s' =>
      if Ascii.eqb c dquote then String c (String c (double_quotes s'))
      else String c (double_quotes s')
  end.

Definition csv_field (s : string) : string :=
  if any_char needs_quote s
  then String dquote (double_quotes s ++ String dquote EmptyString)
  else s.

Fixpoint join (sep : string) (l : list string) : string :=
  match l with
  | [] => EmptyString
  | [x] => x
  | x :: rest => x ++ sep ++ join sep rest
  end.

Definition LF : string := String (chr 10) EmptyString.
Definition CRLF : string := String (chr 13) (String (chr 10) EmptyString).

(** The line [writer.writerow(fields)] writes; a record of one empty field
    is written as a pair of quotes. *)
Definition csv_line (fields : list string) : string :=
  match fields with
  | [EmptyString] => String dquote (String dquote EmptyString) ++ CRLF
  | _ => join "," (map csv_field fields) ++ CRLF
  end.

(** The text of a value as the writer sees it: [None] is the empty
    field, a string is itself, anything else goes through [str()]. *)
Definition cell (v : pyval) : string :=
  match v with
  | VNone => EmptyString
  | VInt n => str_of_int n
  | VStr s => s
  end.

(** [rowdict.get(key)] on a dictionary written as a literal *)
Fixpoint row_get (row : list (string * pyval)) (key : string) : option pyval :=
  match row with
  | [] => None
  | (k, v) :: rest => if String.eqb k key then Some v else row_get rest key
  end.

(** [DictWriter._dict_to_list]: a key outside [fieldnames] raises
    [ValueError]; a missing key gives [restval], the empty string. *)
Definition dict_to_list (fieldnames : list string) (rowdict : list (string * pyval))
    : result (list pyval) :=
  let wrong_fields :=
    List.filter (fun k => negb (existsb (String.eqb k) fieldnames)) (map fst rowdict) in
  match wrong_fields with
  | [] => Ok (map (fun key => default (VStr EmptyString) (row_get rowdict key)) fieldnames)
  | _ => Raise ValueError
  end.

(** [DictWriter.writerow(rowdict)]: the text written *)
Definition dictwriter_row (fieldnames : list string) (rowdict : list (string * pyval))
    : result string :=
  let! values := dict_to_list fieldnames rowdict in
  Ok (csv_line (map cell values)).

(** [DictWriter.writeheader()] writes the row whose fields are their own names. *)
Definition dictwriter_header (fieldnames : list string) : result string :=
  dictwriter_row fieldnames (map (fun k => (k, VStr k)) fieldnames).

(** *** [export_to_csv] *)

(** The dictionary [row] of [export_to_csv]; [now] is the text of
    [datetime.now().strftime("%Y-%m-%d %H:%M:%S")]. *)
Definition ledger_row (now : string) (data : gmap string pyval) : list (string * pyval) :=
  [("timestamp", VStr now);
   ("service_tag", dict_get data "service_tag" (VStr NA));
   ("model", dict_get data "model" (VStr NA));
   ("cpu", dict_get data "cpu" (VStr NA));
   ("cores", dict_get data "cores" (VInt 0));
   ("ram_gb", dict_get data "ram_gb" (VInt 0));
   ("ram_type", dict_get data "ram_type" (VStr NA));
   ("storage_type", dict_get data "storage_type" (VStr NA));
   ("storage_gb", dict_get data "storage_gb" (VInt 0));
   ("smart_status", dict_get data "smart_status" (VStr NA));
   ("battery_pct", dict_get data "battery_pct" (VStr NA));
   ("gpu", dict_get data "gpu" (VStr "None"));
   ("resolution", dict_get data "resolution" (VStr NA));
   ("resolution_class", dict_get data "resolution_class" (VStr NA));
   ("screen_grade", dict_get data "screen_grade" (VStr EmptyString));
   ("chassis_grade", dict_get data "chassis_grade" (VStr EmptyString));
   ("charger", dict_get data "charger" (VStr EmptyString));
   ("recommendation", dict_get data "recommendation" (VStr EmptyString))].

(** The file system after [export_to_csv(data, save_dir)], with what the
    call returns.  The line printed on the terminal is left out. *)
Definition export_to_csv (now : string) (data : gmap string pyval) (save_dir : string)
    (fs : filesystem) : result unit * filesystem :=
  let csv_path := path_join save_dir CSV_FILENAME in
  let file_exists := isfile fs csv_path in
  let row := ledger_row now data in
  match open_append fs csv_path with
  | Raise e => (Raise e, fs)
  | Ok fs1 =>
      match (if negb file_exists
             then let! header := dictwriter_header CSV_HEADERS in
                  Ok (write_append fs1 csv_path header)
             else Ok fs1) with
      | Raise e => (Raise e, fs1)
      | Ok fs2 =>
          match dictwriter_row CSV_HEADERS row with
          | Raise e => (Raise e, fs2)
          | Ok line => (Ok tt, write_append fs2 csv_path line)
          end
      end
  end.

(** One call of [export_to_csv] per audited unit, in order; a unit is the
    clock reading and the dictionary of its audit. *)
Fixpoint export_all (units : list (string * gmap string pyval)) (save_dir : string)
    (fs : filesystem) : result unit * filesystem :=
  match units with
  | [] => (Ok tt, fs)
  | (now, data) :: rest =>
      match export_to_csv now data save_dir fs with
      | (Ok _, fs') => export_all rest save_dir fs'
      | (Raise e, fs') => (Raise e, fs')
      end
  end.

(** ** Notions used in the statements *)

(** [needle] occurs somewhere in [s]. *)
Definition occurs_in (needle s : string) : Prop :=
  exists pre post, s = pre ++ needle ++ post.

Fixpoint all_chars (p : ascii -> bool) (s : string) : bool :=
  match s with
  | EmptyString => true
  | String c s' => p c && all_chars p s'
  end.

Definition first_char (s : string) : option ascii :=
  match s with
  | EmptyString => None
  | String c _ => Some c
  end.

Fixpoint last_char (s : string) : option ascii :=
  match s with
  | EmptyString => None
  | String c EmptyString => Some c
  | String _ s' => last_char s'
  end.

(** [t] is [s] without its leading and trailing white space. *)
Definition trimmed_of (s t : string) : Prop :=
  exists l r,
    s = l ++ t ++ r /\
    all_chars py_isspace l = true /\ all_chars py_isspace r = true /\
    (forall c, first_char t = Some c -> py_isspace c = false) /\
    (forall c, last_char t = Some c -> py_isspace c = false).

(** The fields the decision tree reads, with the defaults of [data.get]. *)
Definition smart_status (data : gmap string pyval) : pyval :=
  dict_get data "smart_status" (VStr "N/A").
Definition screen_grade (data : gmap string pyval) : pyval :=
  dict_get data "screen_grade" (VStr empty_str).
Definition chassis_grade (data : gmap string pyval) : pyval :=
  dict_get data "chassis_grade" (VStr empty_str).
Definition gpu (data : gmap string pyval) : pyval :=
  dict_get data "gpu" (VStr "None").
Definition cpu_gen (data : gmap string pyval) : pyval :=
  dict_get data "_cpu_gen" (VInt 0).
Definition battery_pct (data : gmap string pyval) : pyval :=
  dict_get data "battery_pct" (VStr "0").

(** The types of the two fields the tree computes with.  The hardware
    scan stores the string that [get_battery_health] returns under
    [battery_pct] (an integer is as good for [int()]) and the integer that
    [parse_cpu_generation] returns under [_cpu_gen].  Either key may be
    missing. *)
Definition battery_is_str_or_int (data : gmap string pyval) : Prop :=
  (exists s, battery_pct data = VStr s) \/ (exists n, battery_pct data = VInt n).
Definition generation_is_int (data : gmap string pyval) : Prop :=
  exists g, cpu_gen data = VInt g.

(** The closed set of recommendations. *)
Definition recommendations : list string :=
  [PARTS_REPAIR; HIGH_VALUE; STANDARD_RESALE; BAD_BATTERY_DISCOUNT].

(** The defaults of the six keys [compute_recommendation] reads. *)
Definition defaults : list (string * pyval) :=
  [("smart_status", VStr "N/A"); ("screen_grade", VStr empty_str);
   ("chassis_grade", VStr empty_str); ("gpu", VStr "None");
   ("_cpu_gen", VInt 0); ("battery_pct", VStr "0")].

(** The text of the ledger: the header line, and the line of a unit. *)
Definition header_line : string := join "," CSV_HEADERS ++ CRLF.

Definition unit_line (u : string * gmap string pyval) : string :=
  csv_line (map cell (map snd (ledger_row (fst u) (snd u)))).

Fixpoint unit_lines (units : list (string * gmap string pyval)) : string :=
  match units with
  | [] => EmptyString
  | u :: rest => unit_line u ++ unit_lines rest
  end.

(** The ledger after the units: no file when there is none, else the
    header line and a line per unit. *)
Definition ledger_after (units : list (string * gmap string pyval)) : option node :=
  match units with
  | [] => None
  | _ => Some (File (header_line ++ unit_lines units))
  end.

(** *** The schema of the ledger

    The eighteen columns, in the order of the specification. *)
Definition schema : list string :=
  ["timestamp"; "service_tag"; "model"; "cpu"; "cores"; "ram_gb"; "ram_type";
   "storage_type"; "storage_gb"; "smart_status"; "battery_pct"; "gpu";
   "resolution"; "resolution_class"; "screen_grade"; "chassis_grade";
   "charger"; "recommendation"].

(** What a column holds for a unit without the key: 0 for the three
    numbers, "None" for the GPU, nothing for the grades, the charger and
    the recommendation, "N/A" for the others. *)
Definition missing (column : string) : pyval :=
  if existsb (String.eqb column) ["cores"; "ram_gb"; "storage_gb"] then VInt 0
  else if String.eqb column "gpu" then VStr "None"
  else if existsb (String.eqb column)
            ["screen_grade"; "chassis_grade"; "charger"; "recommendation"]
       then VStr EmptyString
  else VStr "N/A".

(** The field of a column for a unit, the clock reading and the
    dictionary of its audit: the clock reading under [timestamp], else
    the value of the key, a number in decimal and a string as it is. *)
Definition field_of (u : string * gmap string pyval) (column : string) : string :=
  if String.eqb column "timestamp" then fst u
  else
    match default (missing column) (snd u !! column) with
    | VNone => EmptyString
    | VInt n => pretty n
    | VStr t => t
    end.

(** The record of a unit: its fields in the order of the schema. *)
Definition record_of (u : string * gmap string pyval) : list string :=
  map (field_of u) schema.

(** *** Reading a ledger back

    The records of a CSV text, as a reader of the dialect the ledger is
    written in takes them: fields are separated by commas and records
    ended by a carriage return and a line feed; a field that starts with
    a quote runs to the first quote that is not doubled, a doubled quote
    standing for one quote, and may hold commas and line ends; a line
    without a character is a record without a field. *)
Inductive reading : Type :=
  | FieldStart
  | Unquoted
  | Quoted
  | QuoteSeen
  | LineEnd (record : list string).

(** [done] holds the records read, [row] the fields read of the current
    record and [cur] the characters read of the current field. *)
Fixpoint read_from (st : reading) (done : list (list string)) (row : list string)
    (cur : string) (s : string) : option (list (list string)) :=
  match s with
  | EmptyString =>
      match st, row with
      | FieldStart, [] => Some done
      | _, _ => None
      end
  | String c s' =>
      let put := cur ++ String c EmptyString in
      match st with
      | FieldStart =>
          if Ascii.eqb c dquote then read_from Quoted done row EmptyString s'
          else if Ascii.eqb c "," then read_from FieldStart done (row ++ [EmptyString]) EmptyString s'
          else if Ascii.eqb c (chr 13) then
            read_from (LineEnd (match row with [] => [] | _ => row ++ [EmptyString] end))
              done [] EmptyString s'
          else if Ascii.eqb c (chr 10) then None
          else read_from Unquoted done row put s'
      | Unquoted =>
          if Ascii.eqb c "," then read_from FieldStart done (row ++ [cur]) EmptyString s'
          else if Ascii.eqb c (chr 13) then read_from (LineEnd (row ++ [cur])) done [] EmptyString s'
          else if Ascii.eqb c dquote || Ascii.eqb c (chr 10) then None
          else read_from Unquoted done row put s'
      | Quoted =>
          if Ascii.eqb c dquote then read_from QuoteSeen done row cur s'
          else read_from Quoted done row put s'
      | QuoteSeen =>
          if Ascii.eqb c dquote then read_from Quoted done row put s'
          else if Ascii.eqb c "," then read_from FieldStart done (row ++ [cur]) EmptyString s'
          else if Ascii.eqb c (chr 13) then read_from (LineEnd (row ++ [cur])) done [] EmptyString s'
          else None
      | LineEnd record =>
          if Ascii.eqb c (chr 10) then read_from FieldStart (done ++ [record]) [] EmptyString s'
          else None
      end
  end.

Definition read_csv (text : string) : option (list (list string)) :=
  read_from FieldStart [] [] EmptyString text.

(** The ledger at [p] holds the header and these records, in this order. *)
Definition ledger_holds (fs : filesystem) (p : string) (records : list (list string))
    : Prop :=
  exists text, nodes fs !! p = Some (File text) /\ read_csv text = Some (schema :: records).

(** The characters of a number in the text of [upower]: [[\d.]]. *)
Definition numeric_char (c : ascii) : bool := py_isdigit c || Ascii.eqb c ".".

(** [t] is the first run of characters of the class [cls] in [s], whole:
    no character of the class comes before it, and none follows it
    directly. *)
Definition first_run (cls : ascii -> bool) (s t : string) : Prop :=
  exists pre post,
    s = pre ++ t ++ post /\
    any_char cls pre = false /\
    t <> EmptyString /\ all_chars cls t = true /\
    (forall c post', post = String c post' -> cls c = false).

(** The lines of [upower] that give the present capacity and the design
    capacity, and the number on a line. *)
Definition full_line (line : string) : Prop :=
  occurs_in "energy-full:" (strip line) /\ ~ occurs_in "design" (strip line).
Definition design_line (line : string) : Prop :=
  occurs_in "energy-full-design:" (strip line).
Definition number_on (line t : string) : Prop :=
  first_run numeric_char (strip line) t.

(** [t] is the number on the last line of its kind that holds one. *)
Definition last_number (kind : string -> Prop) (lines : list string) (t : string) : Prop :=
  exists before line after,
    lines = (before ++ line :: after)%list /\
    kind line /\ number_on line t /\
    forall l t', In l after -> kind l -> ~ number_on l t'.

(** No line of the kind holds a number. *)
Definition no_number (kind : string -> Prop) (lines : list string) : Prop :=
  forall l t, In l lines -> kind l -> ~ number_on l t.

(** Every number on a line of one of the two kinds is a numeral that
    [float] reads. *)
Definition numerals_valid (lines : list string) : Prop :=
  forall l t, In l lines -> full_line l \/ design_line l -> number_on l t ->
  exists x, float_of_str t = Ok x.

(** A float that is a number: not an infinity, not a NaN. *)
Definition is_finite (x : spec_float) : bool :=
  match x with
  | S754_zero _ | S754_finite _ _ _ => true
  | _ => false
  end.

(** [full / design * 100] *)
Definition percentage (full design : spec_float) : spec_float :=
  fmul (fdiv full design) (float_of_int 100).

(** ** Examples: units, worlds and ledgers *)

(** A world in which every command completes with the same text. *)
Definition constant_world (out : string) (w : unit) (cmd : string) (t : Z)
    : proc_outcome * unit :=
  (Completed 0 out EmptyString, tt).

(** A unit with a discrete GPU, a healthy battery and a failed drive. *)
Definition failed_drive_unit : gmap string pyval :=
  <["smart_status" := VStr "FAILED"]>
    (<["gpu" := VStr "NVIDIA GeForce RTX 3050"]>
       (<["battery_pct" := VStr "80"]>
          (<["_cpu_gen" := VInt 11]> ∅))).

(** Two sound units of the sixth generation, without a discrete GPU. *)
Definition unknown_battery_unit : gmap string pyval :=
  <["smart_status" := VStr "PASSED"]>
    (<["gpu" := VStr "None"]>
       (<["battery_pct" := VStr "N/A"]>
          (<["_cpu_gen" := VInt 6]>
             (<["screen_grade" := VStr "A"]> (<["chassis_grade" := VStr "A"]> ∅))))).

Definition worn_battery_unit : gmap string pyval :=
  <["battery_pct" := VStr "62"]> unknown_battery_unit.

(** The two dictionaries on which the tree raises. *)
Definition none_battery : gmap string pyval := {["battery_pct" := VNone]}.
Definition text_generation : gmap string pyval := {["_cpu_gen" := VStr "8"]}.

(** A dictionary with a battery text that is no number and nothing else. *)
Definition percent_battery : gmap string pyval := {["battery_pct" := VStr "85%"]}.

(** A world in which every command fails with the exception [e]. *)
Definition failing_world (e : exn) (w : unit) (cmd : string) (t : Z)
    : proc_outcome * unit :=
  (Failed e, tt).

(** A world with one disk of 512 GB whose self-test reports both words. *)
Definition both_words : string := "FAILED earlier, now PASSED".

Definition disk_world (w : unit) (cmd : string) (t : Z) : proc_outcome * unit :=
  (if String.eqb cmd "smartctl -H /dev/sda"
   then Completed 0 both_words EmptyString
   else Completed 0 "512110190592" EmptyString, tt).

(** The text of a battery whose present capacity reads zero. *)
Definition dead_battery : string :=
  "energy-full: 0 Wh" ++ LF ++ "energy-full-design: 50 Wh".

(** The text of a battery at 41 Wh of 50 Wh. *)
Definition worn_battery : string :=
  "  energy-full:         41.0 Wh" ++ LF ++ "  energy-full-design:  50.0 Wh".

(** The text of a battery whose present capacity is a number of 400
    digits: [float] reads it as infinity. *)
Definition huge_battery : string :=
  "energy-full: " ++ string_of_list_ascii (repeat "9"%char 400) ++ " Wh" ++ LF
  ++ "energy-full-design: 50 Wh".

(** Two units and the directory of the ledger. *)
Definition first_unit : string * gmap string pyval :=
  ("2024-05-01 10:00:00", failed_drive_unit).
Definition second_unit : string * gmap string pyval :=
  ("2024-05-01 10:20:00", worn_battery_unit).

(** A unit whose model name holds a comma and quotes. *)
Definition touch_unit : string * gmap string pyval :=
  ("2024-05-01 10:40:00",
   <["model" := VStr ("Latitude 7400, " ++ String dquote "Touch" ++ String dquote EmptyString)]>
     worn_battery_unit).

(** A stick with its directory and no ledger, the same with a ledger
    that holds its header line, a file system without the directory, and
    a stick that the system holds read-only. *)
Definition fresh_stick : filesystem :=
  Filesystem {["/mnt/usb_data" := Dir]} ∅.
Definition no_directory : filesystem := Filesystem ∅ ∅.
Definition read_only_stick : filesystem :=
  Filesystem {["/mnt/usb_data" := Dir]} {["/mnt/usb_data/audit_master.csv" := OSError]}.

(** * The rest of the program *)

(** ** More of Python's strings and lists *)

(** [s.split()]: the words between runs of white space. *)
Fixpoint split_ws (s : string) : list string :=
  match s with
  | EmptyString => []
  | String c s' =>
      if py_isspace c then split_ws s'
      else
        match s' with
        | EmptyString => [String c EmptyString]
        | String d _ =>
            if py_isspace d then String c EmptyString :: split_ws s'
            else
              match split_ws s' with
              | w :: ws => String c w :: ws
              | [] => [String c EmptyString]
              end
        end
  end.

(** [s[n:]] *)
Fixpoint skip (n : nat) (s : string) : string :=
  match n, s with
  | O, _ => s
  | S n', String _ s' => skip n' s'
  | S _, EmptyString => EmptyString
  end.

(** The text before and the text after the first occurrence of [sep],
    which is not empty. *)
Fixpoint cut (sep s : string) : option (string * string) :=
  if startswith sep s then Some (EmptyString, skip (String.length sep) s)
  else
    match s with
    | EmptyString => None
    | String c s' =>
        match cut sep s' with
        | Some (a, b) => Some (String c a, b)
        | None => None
        end
    end.

(** [s.split(sep, 1)] *)
Definition split1 (sep s : string) : list string :=
  match cut sep s with
  | Some (a, b) => [a; b]
  | None => [s]
  end.

(** [c.lower()] below code point 256: the letters A..Z and the accented
    capitals, the multiplication sign apart. *)
Definition lower_char (c : ascii) : ascii :=
  let n := ord c in
  if ((65 <=? n) && (n <=? 90)) || ((192 <=? n) && (n <=? 222) && negb (n =? 215))
  then ascii_of_N (Z.to_N (n + 32)) else c.

(** [s.lower()] *)
Fixpoint lower (s : string) : string :=
  match s with
  | EmptyString => EmptyString
  | String c s' => String (lower_char c) (lower s')
  end.

(** [c.upper()] as code points: the upper case of a character below 256
    may lie above 255 (micro sign, y with diaeresis) or have two letters
    (sharp s). *)
Definition upper_char (c : ascii) : list Z :=
  let n := ord c in
  if ((97 <=? n) && (n <=? 122)) || ((224 <=? n) && (n <=? 254) && negb (n =? 247))
  then [n - 32]
  else if n =? 181 then [924]
  else if n =? 223 then [83; 83]
  else if n =? 255 then [376]
  else [n].

(** [s.upper()], as code points *)
Fixpoint upper (s : string) : list Z :=
  match s with
  | EmptyString => []
  | String c s' => (upper_char c ++ upper s')%list
  end.

(** The code points of a string. *)
Fixpoint codes (s : string) : list Z :=
  match s with
  | EmptyString => []
  | String c s' => ord c :: codes s'
  end.

(** ** Exceptions of the rest of the program *)

Inductive error : Type :=
  | Builtin (e : exn)
  | IndexError
  | EOFError.

Inductive outcome (A : Type) : Type :=
  | Returns (a : A)
  | Raises (e : error).
Arguments Returns {A} a.
Arguments Raises {A} e.

Definition of_result {A : Type} (r : result A) : outcome A :=
  match r with
  | Ok a => Returns a
  | Raise e => Raises (Builtin e)
  end.

Definition obind {A B : Type} (o : outcome A) (k : A -> outcome B) : outcome B :=
  match o with
  | Returns a => k a
  | Raises e => Raises e
  end.

Notation "'try!' x ':=' c 'in' k" := (obind c (fun x => k))
  (at level 10, x name, c at level 100, k at level 200).

(** [l[i]] *)
Definition index {A : Type} (l : list A) (i : nat) : outcome A :=
  match nth_error l i with
  | Some a => Returns a
  | None => Raises IndexError
  end.

(** ** The operating system *)

(** The requests of the program to its environment, each with the type of
    the answer: [subprocess.run], [Path.read_text], [os.path.exists] and
    [Path.exists], [os.path.ismount], [os.system], [os.makedirs] with
    [exist_ok], [Path.glob] and [input] ([None] at the end of the input). *)
Inductive event : Type -> Type :=
  | SubprocessRun (cmd : string) (timeout : Z) : event proc_outcome
  | ReadText (path : string) : event (result string)
  | PathExists (path : string) : event bool
  | IsMount (path : string) : event bool
  | OsSystem (cmd : string) : event Z
  | Makedirs (path : string) : event (result unit)
  | Glob (dir pattern : string) : event (list string)
  | Input (prompt : string) : event (option string).

(** A computation in the operating system. *)
Inductive Sys (A : Type) : Type :=
  | Done (a : A)
  | Fail (e : error)
  | Vis {X : Type} (ev : event X) (k : X -> Sys A).
Arguments Done {A} a.
Arguments Fail {A} e.
Arguments Vis {A X} ev k.

Fixpoint sbind {A B : Type} (p : Sys A) (f : A -> Sys B) : Sys B :=
  match p with
  | Done a => f a
  | Fail e => Fail e
  | Vis ev k => Vis ev (fun x => sbind (k x) f)
  end.

Notation "'sys!' x ':=' c 'in' k" := (sbind c (fun x => k))
  (at level 10, x name, c at level 100, k at level 200).

Definition trigger {X : Type} (ev : event X) : Sys X := Vis ev Done.

Definition of_outcome {A : Type} (o : outcome A) : Sys A :=
  match o with
  | Returns a => Done a
  | Raises e => Fail e
  end.

Fixpoint of_probe {A : Type} (p : Probe A) : Sys A :=
  match p with
  | Ret a => Done a
  | Throw e => Fail (Builtin e)
  | Spawn cmd t k => Vis (SubprocessRun cmd t) (fun o => of_probe (k o))
  end.

(** A request made, for the trace of a run. *)
Inductive call : Type :=
  | Called {X : Type} (ev : event X).

(** Running a computation: [handle] answers a request in a world and
    gives the next world.  The run gives the outcome, the last world and
    the requests made, in order. *)
Section ExecSys.
Context {W : Type}.
Variable handle : forall X : Type, event X -> W -> X * W.

Fixpoint exec_sys {A : Type} (p : Sys A) (w : W) : outcome A * W * list call :=
  match p with
  | Done a => (Returns a, w, [])
  | Fail e => (Raises e, w, [])
  | Vis ev k =>
      let '(x, w1) := handle _ ev w in
      let '(r, w2, calls) := exec_sys (k x) w1 in
      (r, w2, Called ev :: calls)
  end.
End ExecSys.

(** The commands given to [os.system] in a trace. *)
Fixpoint system_commands (calls : list call) : list string :=
  match calls with
  | [] => []
  | Called ev :: rest =>
      match ev with
      | OsSystem cmd => cmd :: system_commands rest
      | _ => system_commands rest
      end
  end.

(** The commands given to [subprocess.run] in a trace. *)
Fixpoint spawned_commands (calls : list call) : list string :=
  match calls with
  | [] => []
  | Called ev :: rest =>
      match ev with
      | SubprocessRun cmd _ => cmd :: spawned_commands rest
      | _ => spawned_commands rest
      end
  end.

(** ** Utility helpers *)

Definition read_file (path : string) : Sys string :=
  sys! r := trigger (ReadText path) in
  match r with
  | Ok text => Done (strip text)
  | Raise e => if derives_from_Exception e then Done empty_str else Fail (Builtin e)
  end.

(** [run] in the operating system. *)
Definition run_sys (cmd : string) : Sys string := of_probe (run cmd default_timeout).

(** ** Phase 0: the boot medium *)

Definition live_mounts : list string :=
  ["/run/archiso/bootmnt"; "/run/initramfs/live"; "/cdrom"; "/live/image"].

(** The first loop of [find_boot_usb_partition], over the lines of
    [/proc/mounts]. *)
Fixpoint live_device (lines : list string) : option string :=
  match lines with
  | [] => None
  | line :: rest =>
      match split_ws line with
      | dev :: mnt :: _ =>
          if existsb (String.eqb mnt) live_mounts then Some dev else live_device rest
      | _ => live_device rest
      end
  end.

(** Its second loop, over the lines of [lsblk]. *)
Fixpoint first_column (lines : list string) : option string :=
  match lines with
  | [] => None
  | line :: rest =>
      match split_ws line with
      | col :: _ => Some col
      | [] => first_column rest
      end
  end.

Definition removable_parts_cmd : string := "lsblk -nrpo NAME,RM,TYPE | grep '1 part'".

Definition find_boot_usb_partition : Sys string :=
  sys! mounts := read_file "/proc/mounts" in
  match live_device (splitlines mounts) with
  | Some dev => Done dev
  | None =>
      sys! out := run_sys removable_parts_cmd in
      match first_column (splitlines out) with
      | Some col => Done col
      | None => Done empty_str
      end
  end.




(** ** Phase 1: the hardware scan *)

(** [t or "N/A"] *)
Definition or_NA (t : string) : string :=
  match t with
  | EmptyString => NA
  | _ => t
  end.

Definition get_service_tag : Sys string :=
  sys! t := run_sys "dmidecode -s system-serial-number" in Done (or_NA t).

Definition get_model_name : Sys string :=
  sys! t := run_sys "dmidecode -s system-product-name" in Done (or_NA t).

(** One turn of the loop of [get_cpu_info], on the pair ([model], [cores]). *)
Definition cpu_line (st : string * Z) (line : string) : outcome (string * Z) :=
  let '(model, cores) := st in
  try! model :=
    (if startswith "model name" line && String.eqb model NA
     then try! v := index (split1 ":" line) 1 in Returns (strip v)
     else Returns model) in
  Returns (model, if startswith "processor" line then cores + 1 else cores).

Fixpoint cpu_scan (st : string * Z) (lines : list string) : outcome (string * Z) :=
  match lines with
  | [] => Returns st
  | line :: rest => try! st' := cpu_line st line in cpu_scan st' rest
  end.

Definition get_cpu_info : Sys (string * Z) :=
  sys! cpuinfo := read_file "/proc/cpuinfo" in
  of_outcome (cpu_scan (NA, 0) (splitlines cpuinfo)).

(** [\d+], as one group *)
Definition digits_re : list item := [Item py_isdigit 1 None true].

(** [re.findall(pat, s)[0]] for a pattern of one group *)
Definition first_match (pat : list item) (s : string) : outcome string :=
  match re_search pat s with
  | Some (t :: _) => Returns t
  | _ => Raises IndexError
  end.

(** The loop of [get_ram_total_gb]: the first line that starts with
    [MemTotal] decides. *)
Fixpoint ram_scan (lines : list string) : outcome Z :=
  match lines with
  | [] => Returns 0
  | line :: rest =>
      if startswith "MemTotal" line then
        try! t := first_match digits_re line in
        try! kb := of_result (int_of t) in
        try! q := of_result (int_truediv kb 1048576) in
        of_result (py_round q)
      else ram_scan rest
  end.

Definition get_ram_total_gb : Sys Z :=
  sys! meminfo := read_file "/proc/meminfo" in
  of_outcome (ram_scan (splitlines meminfo)).

Fixpoint ram_type_scan (lines : list string) : outcome string :=
  match lines with
  | [] => Returns NA
  | line :: rest =>
      if contains "Type:" line && contains "DDR" line then
        try! v := index (split1 ":" line) 1 in Returns (strip v)
      else ram_type_scan rest
  end.

Definition get_ram_type : Sys string :=
  sys! out := run_sys "dmidecode -t memory" in
  of_outcome (ram_type_scan (splitlines out)).

(** *** The primary disk *)

(** The rest of [s] after a match of [pat] that starts where [s] does,
    given to [k]; the items give characters back as in [match_here]. *)
Fixpoint match_then {R : Type} (pat : list item) (s : string) (k : string -> option R)
    : option R :=
  match pat with
  | [] => k s
  | it :: pat' =>
      rep_greedy (item_class it) (item_min it) (item_max it) s
        (fun _ rest => match_then pat' rest k)
  end.

(** Where [$] matches: at the end, and before a line feed that ends the
    text. *)
Definition at_end (rest : string) : bool :=
  String.eqb rest EmptyString || String.eqb rest LF.

(** [p?\d+], the pattern before [$] *)
Definition partition_re : list item :=
  [Item (Ascii.eqb "p") 0 (Some 1%nat) false; Item py_isdigit 1 None false].

(** [re.sub(r"p?\d+$", "", s)]: the leftmost match is cut out.  What
    follows it, nothing or a line feed, holds no digit, so that no second
    match comes after it. *)
Fixpoint strip_partition (s : string) : string :=
  match match_then partition_re s (fun rest => if at_end rest then Some rest else None) with
  | Some rest => rest
  | None =>
      match s with
      | EmptyString => EmptyString
      | String c s' => String c (strip_partition s')
      end
  end.

(** The loop of [get_primary_disk] over the lines of [lsblk]. *)
Fixpoint disk_scan (boot_parent : string) (lines : list string) : option string :=
  match lines with
  | [] => None
  | line :: rest =>
      match split_ws line with
      | name :: type :: rm :: _ =>
          if String.eqb type "disk" && String.eqb rm "0"
             && negb (String.eqb name boot_parent)
          then Some name else disk_scan boot_parent rest
      | _ => disk_scan boot_parent rest
      end
  end.

Definition disks_cmd : string := "lsblk -dnpo NAME,TYPE,RM".

Definition get_primary_disk : Sys string :=
  sys! boot_usb := find_boot_usb_partition in
  let boot_parent :=
    match boot_usb with
    | EmptyString => EmptyString
    | _ => strip_partition boot_usb
    end in
  sys! out := run_sys disks_cmd in
  match disk_scan boot_parent (splitlines out) with
  | Some name => Done name
  | None =>
      sys! nvme := trigger (PathExists "/dev/nvme0n1") in
      if (nvme : bool) then Done "/dev/nvme0n1"
      else
        sys! sda := trigger (PathExists "/dev/sda") in
        if (sda : bool) then Done "/dev/sda" else Done empty_str
  end.

(** *** The discrete GPU *)

Definition is_gpu_line (line : string) : bool :=
  let lower := lower line in
  contains "nvidia" lower || (contains "amd" lower && contains "radeon" lower).

Fixpoint gpu_scan (lines : list string) : string :=
  match lines with
  | [] => "None"
  | line :: rest =>
      if is_gpu_line line then
        match split1 ": " line with
        | _ :: description :: _ => strip description
        | _ => "Discrete GPU"
        end
      else gpu_scan rest
  end.

Definition get_discrete_gpu : Sys string :=
  sys! out := run_sys "lspci" in Done (gpu_scan (splitlines out)).

(** *** The display *)

(** [(\d{3,5})x(\d{3,5})] *)
Definition resolution_re : list item :=
  [Item py_isdigit 3 (Some 5%nat) true; lit "x"; Item py_isdigit 3 (Some 5%nat) true].

(** One turn of the loops of [get_screen_resolution], on the pair
    ([max_w], [max_h]). *)
Definition mode_line (best : Z * Z) (line : string) : outcome (Z * Z) :=
  match re_search resolution_re line with
  | Some (g1 :: g2 :: _) =>
      try! w := of_result (int_of g1) in
      try! h := of_result (int_of g2) in
      Returns (if fst best * snd best <? w * h then (w, h) else best)
  | _ => Returns best
  end.

Fixpoint mode_scan (best : Z * Z) (lines : list string) : outcome (Z * Z) :=
  match lines with
  | [] => Returns best
  | line :: rest => try! best' := mode_line best line in mode_scan best' rest
  end.

(** The loop over the files that [glob] gave. *)
Fixpoint drm_scan (best : Z * Z) (files : list string) : Sys (Z * Z) :=
  match files with
  | [] => Done best
  | modes_file :: rest =>
      sys! content := read_file modes_file in
      sys! best' := of_outcome (mode_scan best (splitlines content)) in
      drm_scan best' rest
  end.

Definition resolution_of (best : Z * Z) : string * string :=
  if fst best =? 0 then (NA, NA)
  else (str_of_int (fst best) ++ "x" ++ str_of_int (snd best),
        if 2500 <? fst best then "4K/Retina Class" else "Standard").

Definition get_screen_resolution : Sys (string * string) :=
  sys! out := run_sys "xrandr 2>/dev/null" in
  sys! best := of_outcome (mode_scan (0, 0) (splitlines out)) in
  sys! best :=
    (if fst best =? 0 then
       sys! found := trigger (PathExists "/sys/class/drm") in
       if (found : bool) then
         sys! files := trigger (Glob "/sys/class/drm" "*/modes") in
         drm_scan best files
       else Done best
     else Done best) in
  Done (resolution_of best).

(** *** The scan *)

Definition run_hardware_scan : Sys (gmap string pyval) :=
  let data : gmap string pyval := ∅ in
  sys! service_tag := get_service_tag in
  let data := <["service_tag" := VStr service_tag]> data in
  sys! model := get_model_name in
  let data := <["model" := VStr model]> data in
  sys! cpu := get_cpu_info in
  let data := <["cores" := VInt (snd cpu)]> (<["cpu" := VStr (fst cpu)]> data) in
  sys! ram_gb := get_ram_total_gb in
  let data := <["ram_gb" := VInt ram_gb]> data in
  sys! ram_type := get_ram_type in
  let data := <["ram_type" := VStr ram_type]> data in
  sys! disk := get_primary_disk in
  sys! storage := of_probe (get_storage_info disk) in
  let '(storage_type, storage_gb, smart) := storage in
  let data :=
    <["_disk" := VStr disk]>
      (<["smart_status" := VStr smart]>
         (<["storage_gb" := VInt storage_gb]>
            (<["storage_type" := VStr storage_type]> data))) in
  sys! battery := of_probe get_battery_health in
  let data := <["battery_pct" := VStr battery]> data in
  sys! gpu_name := get_discrete_gpu in
  let data := <["gpu" := VStr gpu_name]> data in
  sys! resolution := get_screen_resolution in
  let data :=
    <["resolution_class" := VStr (snd resolution)]>
      (<["resolution" := VStr (fst resolution)]> data) in
  sys! generation := of_outcome (of_result (parse_cpu_generation (fst cpu))) in
  Done (<["_cpu_gen" := VInt generation]> data).

(** ** Phase 2: the prompts *)

(** [prompt_choice(question, options)] on the lines the operator types:
    the loop reads a line, strips it and puts it in upper case, until it
    is a key of [options]; [input] raises [EOFError] when the lines run
    out.  The result comes with the lines left. *)
Fixpoint prompt_choice (options : list (string * string)) (stdin : list string)
    : outcome string * list string :=
  match stdin with
  | [] => (Raises EOFError, [])
  | line :: rest =>
      let answer := upper (strip line) in
      match List.find (fun kv => bool_decide (codes (fst kv) = answer)) options with
      | Some (key, _) => (Returns key, rest)
      | None => prompt_choice options rest
      end
  end.

Definition screen_options : list (string * string) :=
  [("A", "Perfect"); ("B", "White Spots / Dead Pixel"); ("C", "Scratched")].
Definition chassis_options : list (string * string) :=
  [("A", "Mint"); ("B", "Minor Scuffs"); ("C", "Dents / Cracks")].
Definition charger_options : list (string * string) :=
  [("Y", "Yes"); ("N", "No")].

(** The three prompts of [run_interactive_grading], which follow its
    display test, and the dictionary it returns. *)
Definition grading_prompts (stdin : list string)
    : outcome (gmap string pyval) * list string :=
  match prompt_choice screen_options stdin with
  | (Raises e, rest) => (Raises e, rest)
  | (Returns screen, rest) =>
      match prompt_choice chassis_options rest with
      | (Raises e, rest) => (Raises e, rest)
      | (Returns chassis, rest) =>
          match prompt_choice charger_options rest with
          | (Raises e, rest) => (Raises e, rest)
          | (Returns charger, rest) =>
              (Returns (<["charger" := VStr charger]>
                          (<["chassis_grade" := VStr chassis]>
                             (<["screen_grade" := VStr screen]> ∅))), rest)
          end
      end
  end.

(** [data.update(grades)] *)
Definition dict_update (data grades : gmap string pyval) : gmap string pyval :=
  grades ∪ data.

(** ** Phase 4: the wipe *)

(** [bool(v)] *)
Definition truthy (v : pyval) : bool :=
  match v with
  | VNone => false
  | VInt n => negb (n =? 0)
  | VStr s => negb (String.eqb s EmptyString)
  end.

(** [str(v)], the text of [v] in an f-string *)
Definition str_of (v : pyval) : string :=
  match v with
  | VNone => "None"
  | VInt n => str_of_int n
  | VStr s => s
  end.

(** [needle in v] *)
Definition contains_in (needle : string) (v : pyval) : result bool :=
  match v with
  | VStr s => Ok (contains needle s)
  | _ => Raise TypeError
  end.

Definition wipe_prompt : string :=
  "  WIPE DRIVE NOW?  (Warning: Irreversible)  [Y/N] > ".
Definition confirm_prompt : string := "  Type CONFIRM to proceed > ".

(** [input(prompt).strip().upper()] *)
Definition ask (prompt : string) : Sys (list Z) :=
  sys! line := trigger (Input prompt) in
  match line with
  | Some text => Done (upper (strip text))
  | None => Fail EOFError
  end.

Definition offer_wipe (data : gmap string pyval) : Sys unit :=
  let disk := dict_get data "_disk" (VStr empty_str) in
  if negb (truthy disk) then Done tt
  else
    sys! answer1 := ask wipe_prompt in
    if negb (bool_decide (answer1 = codes "Y")) then Done tt
    else
      sys! answer2 := ask confirm_prompt in
      if negb (bool_decide (answer2 = codes "CONFIRM")) then Done tt
      else
        sys! nvme := of_outcome (of_result (contains_in "nvme" disk)) in
        sys! ret := trigger (OsSystem (if (nvme : bool)
                                       then "blkdiscard -f " ++ str_of disk
                                       else "nwipe --autonuke --method=zero " ++ str_of disk)) in
        Done tt.

(** ** Examples: a machine *)

(** A machine for the examples: the texts of its files, the output of its
    commands, the paths that exist, the mount points, the exit status of
    the shell commands (1 when not listed), the mode files of its graphics
    cards and the lines typed at the keyboard. *)
Record machine : Type := Machine {
  files : list (string * string);
  outputs : list (string * string);
  paths : list string;
  mounts : list string;
  statuses : list (string * Z);
  mode_files : list string;
  stdin : list string
}.

Fixpoint assoc {A : Type} (key : string) (l : list (string * A)) : option A :=
  match l with
  | [] => None
  | (k, v) :: rest => if String.eqb k key then Some v else assoc key rest
  end.

Definition handle_machine (X : Type) (ev : event X) (m : machine) : X * machine :=
  match ev in event T return T * machine with
  | SubprocessRun cmd _ =>
      (match assoc cmd (outputs m) with
       | Some out => Completed 0 out EmptyString
       | None => Failed TimeoutExpired
       end, m)
  | ReadText path =>
      (match assoc path (files m) with
       | Some text => Ok text
       | None => Raise OSError
       end, m)
  | PathExists path => (existsb (String.eqb path) (paths m), m)
  | IsMount path => (existsb (String.eqb path) (mounts m), m)
  | OsSystem cmd => (default 1 (assoc cmd (statuses m)), m)
  | Makedirs _ => (Ok tt, m)
  | Glob _ _ => (mode_files m, m)
  | Input _ =>
      match stdin m with
      | [] => (None, m)
      | line :: rest =>
          (Some line,
           Machine (files m) (outputs m) (paths m) (mounts m) (statuses m)
                   (mode_files m) rest)
      end
  end.

(** A laptop booted from the stick [/dev/sdb], with one NVMe disk. *)
Definition laptop : machine := {|
  files :=
    [("/proc/mounts",
      "proc /proc proc rw 0 0" ++ LF ++ "/dev/sdb1 /run/archiso/bootmnt vfat ro 0 0");
     ("/proc/cpuinfo",
      "processor	: 0" ++ LF ++ "model name	: Intel(R) Core(TM) i7-8565U CPU @ 1.80GHz"
      ++ LF ++ "processor	: 1" ++ LF
      ++ "model name	: Intel(R) Core(TM) i7-8565U CPU @ 1.80GHz");
     ("/proc/meminfo", "MemTotal:       16303428 kB" ++ LF ++ "MemFree:  100 kB")];
  outputs :=
    [("dmidecode -s system-serial-number", "ABC1234");
     ("dmidecode -s system-product-name", "Latitude 7400");
     ("dmidecode -t memory", "	Type: DDR4" ++ LF ++ "	Type Detail: Synchronous");
     ("lsblk -dnpo NAME,TYPE,RM",
      "/dev/sdb disk 0" ++ LF ++ "/dev/nvme0n1 disk 0");
     ("lsblk -bdn -o SIZE /dev/nvme0n1", "512110190592");
     ("smartctl -H /dev/nvme0n1", "SMART overall-health self-assessment test result: PASSED");
     ("upower -i /org/freedesktop/UPower/devices/battery_BAT0", worn_battery);
     ("lspci", "00:02.0 VGA compatible controller: Intel Corporation UHD Graphics 620");
     ("xrandr 2>/dev/null", "   1920x1080     60.00*+" ++ LF ++ "   1280x720      60.00")];
  paths := ["/dev/nvme0n1"];
  mounts := ["/run/archiso/bootmnt"];
  statuses := [("mount -o remount,rw /run/archiso/bootmnt 2>/dev/null", 0);
               ("blkdiscard -f /dev/nvme0n1", 0)];
  mode_files := [];
  stdin := [" y "; "confirm"]
|}.

(** A unit with a discrete GPU and a generation that is a text. *)
Definition gaming_unit : gmap string pyval :=
  <["gpu" := VStr "NVIDIA GeForce RTX 3050"]>
    (<["_cpu_gen" := VStr "11"]> unknown_battery_unit).

(** A machine whose [/proc/cpuinfo] is cut short. *)
Definition cut_cpuinfo : machine :=
  Machine [("/proc/cpuinfo", "processor : 0" ++ LF ++ "model name")] [] [] [] [] [] [].

(** A machine without a disk in its listing, booted from [/dev/sda1]. *)
Definition bare_machine : machine :=
  Machine [("/proc/mounts", "/dev/sda1 /run/archiso/bootmnt vfat ro 0 0")]
          [("lsblk -dnpo NAME,TYPE,RM", "/dev/sda disk 0")]
          ["/dev/sda"] [] [] [] [].

(** Two dictionaries that hold a disk only. *)
Definition nvme_only : gmap string pyval := {["_disk" := VStr "/dev/nvme0n1"]}.
Definition sata_only : gmap string pyval := {["_disk" := VStr "/dev/sda"]}.

(** A machine whose [/proc/mounts] names two live media. *)
Definition two_sticks : machine :=
  Machine [("/proc/mounts",
            "proc /proc proc rw 0 0" ++ LF
            ++ "/dev/sdb1 /run/archiso/bootmnt vfat ro 0 0" ++ LF
            ++ "/dev/sdc1 /cdrom iso9660 ro 0 0")]
          [] [] [] [] [] [].

(** ** Notions used in the statements about the rest of the program *)

(** A process outcome that [except Exception] handles: a completed
    process, or a failure that derives from [Exception]. *)
Definition ordinary (o : proc_outcome) : Prop :=
  match o with
  | Completed _ _ _ => True
  | Failed e => derives_from_Exception e = true
  end.

(** [s] without a final letter p. *)
Fixpoint chop_p (s : string) : string :=
  match s with
  | EmptyString => EmptyString
  | String c EmptyString => if Ascii.eqb c "p" then EmptyString else s
  | String c s' => String c (chop_p s')
  end.

(** A float that is not below zero; not-a-number passes. *)
Definition not_negative (x : spec_float) : Prop :=
  match x with
  | S754_zero s | S754_infinity s | S754_finite s _ _ => s = false
  | S754_nan => True
  end.

(** A computation that only looks: it may spawn probes, read files, test
    and list paths, and does nothing else. *)
Inductive looks_only {A : Type} : Sys A -> Prop :=
  | looks_done (a : A) : looks_only (Done a)
  | looks_fail (e : error) : looks_only (Fail e)
  | looks_run (cmd : string) (t : Z) (k : proc_outcome -> Sys A) :
      (forall o, looks_only (k o)) -> looks_only (Vis (SubprocessRun cmd t) k)
  | looks_read (path : string) (k : result string -> Sys A) :
      (forall r, looks_only (k r)) -> looks_only (Vis (ReadText path) k)
  | looks_exists (path : string) (k : bool -> Sys A) :
      (forall b, looks_only (k b)) -> looks_only (Vis (PathExists path) k)
  | looks_glob (dir pattern : string) (k : list string -> Sys A) :
      (forall l, looks_only (k l)) -> looks_only (Vis (Glob dir pattern) k).

(** The requests of a trace that are not looks: shell commands through
    [os.system], directories made, lines read from the keyboard, mount
    tests. *)
Fixpoint acts (calls : list call) : list call :=
  match calls with
  | [] => []
  | Called ev :: rest =>
      match ev with
      | SubprocessRun _ _ | ReadText _ | PathExists _ | Glob _ _ => acts rest
      | _ => Called ev :: acts rest
      end
  end.

(** The keys that [run_hardware_scan] sets. *)
Definition scan_keys : list string :=
  ["service_tag"; "model"; "cpu"; "cores"; "ram_gb"; "ram_type";
   "storage_type"; "storage_gb"; "smart_status"; "_disk"; "battery_pct";
   "gpu"; "resolution"; "resolution_class"; "_cpu_gen"].

(** The tree of [compute_recommendation] without its third rule. *)
Definition three_rules (data : gmap string pyval) (batt : Z) : string :=
  if eq_str (smart_status data) "FAILED" || eq_str (screen_grade data) "C"
     || eq_str (chassis_grade data) "C" then PARTS_REPAIR
  else if negb (eq_str (gpu data) "None") then HIGH_VALUE
  else if batt <? 60 then BAD_BATTERY_DISCOUNT
  else STANDARD_RESALE.

(** The command that [offer_wipe] gives to the shell for a disk. *)
Definition wipe_command (disk : string) : string :=
  if contains "nvme" disk then "blkdiscard -f " ++ disk
  else "nwipe --autonuke --method=zero " ++ disk.

(** A line of text is a valid answer to a prompt with these options. *)
Definition valid_answer (options : list (string * string)) (line : string) : Prop :=
  exists key, In key (map fst options) /\ upper (strip line) = codes key.

(** The words that make a line of [lspci] the line of a discrete GPU. *)
Definition gpu_words (line : string) : Prop :=
  occurs_in "nvidia" (lower line) \/
  (occurs_in "amd" (lower line) /\ occurs_in "radeon" (lower line)).

(** The area of a mode, and the pairs the loops of
    [get_screen_resolution] can hold: nothing yet, or a mode of positive
    width and height. *)
Definition area (best : Z * Z) : Z := fst best * snd best.

Definition no_mode_or_positive (best : Z * Z) : Prop :=
  best = (0, 0) \/ (0 < fst best /\ 0 < snd best).

(** The mode that the pattern finds on a line. *)
Definition mode_of (line : string) (w h : Z) : Prop :=
  exists g1 g2,
    re_search resolution_re line = Some [g1; g2] /\
    int_of g1 = Ok w /\ int_of g2 = Ok h.

(** A world in which probes and reads end as [run] and [read_file]
    expect: no interrupt, no exit. *)
Definition tame {W : Type} (handle : forall X : Type, event X -> W -> X * W) : Prop :=
  (forall cmd t w, ordinary (fst (handle _ (SubprocessRun cmd t) w))) /\
  (forall path w e, fst (handle _ (ReadText path) w) = Raise e ->
     derives_from_Exception e = true).

(** The length of the longest prefix of [s] made of characters in [cls]. *)
Fixpoint run_length (cls : ascii -> bool) (s : string) : nat :=
  match s with
  | EmptyString => O
  | String c s' => if cls c then S (run_length cls s') else O
  end.

(** What [$] asks of the rest of the text, as the last step of a match. *)
Definition to_end (rest : string) : option string :=
  if at_end rest then Some rest else None.

(** The pair that the loop of [get_battery_health] holds: each value is
    missing or a number that is not negative. *)
Definition readings_not_negative (st : option spec_float * option spec_float) : Prop :=
  (forall x, fst st = Some x -> not_negative x) /\
  (forall x, snd st = Some x -> not_negative x).

(** The keys of the dictionary that [run_interactive_grading] returns. *)
Definition grade_keys : list string := ["screen_grade"; "chassis_grade"; "charger"].

(** * Properties *)

(** ** Strings *)

Lemma append_empty_r (s : string) : s ++ EmptyString = s.
Proof. induction s as [|c s IH]; simpl; [reflexivity | now rewrite IH]. Qed.

Lemma append_assoc (a b c : string) : (a ++ b) ++ c = a ++ (b ++ c).
Proof. induction a as [|x a IH]; simpl; [reflexivity | now rewrite IH]. Qed.

Lemma startswith_spec (p s : string) :
  startswith p s = true <-> exists post, s = p ++ post.
Proof.
  revert s. induction p as [|a p IH]; intros s; simpl.
  - split; [intros _; now exists s | reflexivity].
  - destruct s as [|b s].
    + split; [discriminate | intros [post H]; discriminate].
    + rewrite andb_true_iff, Ascii.eqb_eq, IH. split.
      * intros [-> [post ->]]. now exists post.
      * intros [post H]. injection H as -> ->. split; [reflexivity | now exists post].
Qed.

Lemma contains_spec (needle s : string) :
  contains needle s = true <-> occurs_in needle s.
Proof.
  unfold occurs_in. induction s as [|c s IH].
  - simpl. rewrite orb_false_r, startswith_spec. split.
    + intros [post H]. exists EmptyString, post. exact H.
    + intros [pre [post H]]. destruct pre; [|discriminate]. now exists post.
  - cbn [contains]. rewrite orb_true_iff, startswith_spec, IH. split.
    + intros [[post H] | [pre [post H]]].
      * exists EmptyString, post. exact H.
      * exists (String c pre), post. simpl. now rewrite H.
    + intros [pre [post H]]. destruct pre as [|c' pre].
      * left. now exists post.
      * right. simpl in H. injection H as _ H. now exists pre, post.
Qed.

Lemma contains_false (needle s : string) :
  contains needle s = false <-> ~ occurs_in needle s.
Proof.
  rewrite <- contains_spec. destruct (contains needle s); split; congruence.
Qed.

Lemma lstrip_spec (s : string) :
  exists l, s = l ++ lstrip s /\ all_chars py_isspace l = true /\
            (forall c, first_char (lstrip s) = Some c -> py_isspace c = false).
Proof.
  unfold lstrip. induction s as [|c s IH]; simpl.
  - exists EmptyString. repeat split. discriminate.
  - destruct (py_isspace c) eqn:Hc.
    + destruct IH as (l & Hs & Hl & Hf).
      exists (String c l). simpl. rewrite Hc, Hl. repeat split; [|exact Hf].
      now rewrite <- Hs.
    + exists EmptyString. simpl. repeat split. intros c' [= <-]. exact Hc.
Qed.

Lemma rstrip_spec (s : string) :
  exists r, s = rstrip s ++ r /\ all_chars py_isspace r = true /\
            (forall c, last_char (rstrip s) = Some c -> py_isspace c = false).
Proof.
  induction s as [|c s IH]; simpl.
  - exists EmptyString. repeat split. discriminate.
  - destruct IH as (r & Hs & Hr & Hl).
    destruct (rstrip s) as [|d t] eqn:Hrs.
    + simpl in Hs. subst r. destruct (py_isspace c) eqn:Hc.
      * exists (String c s). simpl. rewrite Hc, Hr. repeat split. discriminate.
      * exists s. simpl. repeat split; [exact Hr|]. intros c' [= <-]. exact Hc.
    + exists r. simpl. repeat split; [now rewrite Hs | exact Hr | exact Hl].
Qed.

Lemma rstrip_first (s : string) (c : ascii) :
  first_char s = Some c -> py_isspace c = false -> first_char (rstrip s) = Some c.
Proof.
  destruct s as [|d s]; simpl; [discriminate|]. intros [= ->] Hc.
  destruct (rstrip s); [now rewrite Hc | reflexivity].
Qed.

Lemma rstrip_first_inv (s : string) (c : ascii) :
  first_char (rstrip s) = Some c -> first_char s = Some c.
Proof.
  destruct s as [|d s]; simpl; [discriminate|].
  destruct (rstrip s); [destruct (py_isspace d)|]; simpl; congruence.
Qed.

Lemma strip_spec (s : string) : trimmed_of s (strip s).
Proof.
  unfold trimmed_of, strip.
  destruct (lstrip_spec s) as (l & Hs & Hl & Hf).
  destruct (rstrip_spec (lstrip s)) as (r & Hs' & Hr & Hlast).
  exists l, r. repeat split; try assumption.
  - now rewrite <- Hs'.
  - intros c Hc. apply Hf. now apply rstrip_first_inv.
Qed.

(** ** The decision tree *)

Lemma eq_str_true (v : pyval) (s : string) : eq_str v s = true <-> v = VStr s.
Proof.
  destruct v as [|n|t]; simpl; try (split; [discriminate | congruence]).
  rewrite String.eqb_eq. split; congruence.
Qed.

Lemma eq_str_false (v : pyval) (s : string) : eq_str v s = false <-> v <> VStr s.
Proof.
  rewrite <- eq_str_true. destruct (eq_str v s); split; congruence.
Qed.

Lemma battery_number_str (data : gmap string pyval) (s : string) :
  battery_pct data = VStr s -> battery_number data = Ok (default 0 (int_of_str s)).
Proof.
  unfold battery_number, battery_pct. intros ->. simpl.
  destruct (int_of_str s); reflexivity.
Qed.

Lemma battery_number_total (data : gmap string pyval) :
  battery_is_str_or_int data -> exists batt, battery_number data = Ok batt.
Proof.
  intros [[s Hs] | [n Hn]].
  - eexists. apply battery_number_str. exact Hs.
  - exists n. unfold battery_number. fold (battery_pct data). now rewrite Hn.
Qed.

(** The tree once the battery number is known and [_cpu_gen] is an integer. *)
Lemma compute_recommendation_typed (data : gmap string pyval) (batt g : Z) :
  battery_number data = Ok batt -> cpu_gen data = VInt g ->
  compute_recommendation data =
    Ok (if eq_str (smart_status data) "FAILED" || eq_str (screen_grade data) "C"
           || eq_str (chassis_grade data) "C" then PARTS_REPAIR
        else if negb (eq_str (gpu data) "None") then HIGH_VALUE
        else if (8 <=? g) && (65 <? batt) then STANDARD_RESALE
        else if batt <? 60 then BAD_BATTERY_DISCOUNT
        else STANDARD_RESALE).
Proof.
  intros Hb Hg. unfold compute_recommendation.
  fold (smart_status data) (screen_grade data) (chassis_grade data) (gpu data) (cpu_gen data).
  rewrite Hb, Hg. simpl.
  repeat match goal with |- context [if ?b then _ else _] => destruct b end; reflexivity.
Qed.

(** C1: when the SMART status is "FAILED", or the screen grade is "C", or
    the chassis grade is "C", [compute_recommendation] returns
    "PARTS/REPAIR" whatever the other fields hold, a discrete GPU included:
    the result is never the high-value label.  The battery field is that
    of a hardware record, a string or an integer. *)
Theorem rule_one_forces_parts_repair (data : gmap string pyval) :
  battery_is_str_or_int data ->
  smart_status data = VStr "FAILED" \/ screen_grade data = VStr "C"
    \/ chassis_grade data = VStr "C" ->
  compute_recommendation data = Ok PARTS_REPAIR /\
  compute_recommendation data <> Ok HIGH_VALUE.
Proof.
  intros Hbatt Hrule. destruct (battery_number_total data Hbatt) as [batt Hb].
  assert (Hc : compute_recommendation data = Ok PARTS_REPAIR).
  { unfold compute_recommendation.
    fold (smart_status data) (screen_grade data) (chassis_grade data).
    rewrite Hb. simpl.
    destruct Hrule as [-> | [-> | ->]]; simpl; rewrite ?orb_true_r; reflexivity. }
  split; [exact Hc | rewrite Hc; discriminate].
Qed.

Lemma rule_one_forces_parts_repair_witness :
  compute_recommendation failed_drive_unit = Ok PARTS_REPAIR /\
  compute_recommendation failed_drive_unit <> Ok HIGH_VALUE.
Proof.
  apply rule_one_forces_parts_repair.
  - left. exists "80". reflexivity.
  - left. reflexivity.
Defined.

(** C2: with no condition of rule 1 and no discrete GPU, a battery field
    "N/A" counts as 0 and gives the bad-battery label; a battery field that
    parses to a number from 60 to 65 with a generation below 8 fails rules
    3 and 4 and gives the default, standard resale. *)
Theorem battery_boundaries (data : gmap string pyval) (g : Z) :
  smart_status data <> VStr "FAILED" ->
  screen_grade data <> VStr "C" ->
  chassis_grade data <> VStr "C" ->
  gpu data = VStr "None" ->
  cpu_gen data = VInt g ->
  (battery_pct data = VStr "N/A" ->
     battery_number data = Ok 0 /\
     compute_recommendation data = Ok BAD_BATTERY_DISCOUNT) /\
  (forall s b, battery_pct data = VStr s -> int_of_str s = Some b ->
     60 <= b <= 65 -> g < 8 ->
     ((8 <=? g) && (65 <? b) = false /\ (b <? 60) = false) /\
     compute_recommendation data = Ok STANDARD_RESALE).
Proof.
  intros Hsmart Hscreen Hchassis Hgpu Hgen.
  apply eq_str_false in Hsmart, Hscreen, Hchassis.
  assert (Hg : eq_str (gpu data) "None" = true) by (now apply eq_str_true).
  split.
  - intros Hb. pose proof (battery_number_str _ _ Hb) as Hn. simpl in Hn.
    split; [exact Hn|].
    rewrite (compute_recommendation_typed _ _ _ Hn Hgen), Hsmart, Hscreen, Hchassis, Hg.
    simpl. now rewrite andb_false_r.
  - intros s b Hb Hs Hrange Hold.
    pose proof (battery_number_str _ _ Hb) as Hn. rewrite Hs in Hn. simpl in Hn.
    assert (H3 : (8 <=? g) && (65 <? b) = false).
    { apply andb_false_iff. left. apply Z.leb_gt. lia. }
    assert (H4 : (b <? 60) = false) by (apply Z.ltb_ge; lia).
    split; [now split|].
    rewrite (compute_recommendation_typed _ _ _ Hn Hgen), Hsmart, Hscreen, Hchassis, Hg.
    simpl. now rewrite H3, H4.
Qed.

Lemma battery_boundaries_witness :
  (battery_number unknown_battery_unit = Ok 0 /\
   compute_recommendation unknown_battery_unit = Ok BAD_BATTERY_DISCOUNT) /\
  compute_recommendation worn_battery_unit = Ok STANDARD_RESALE.
Proof.
  split.
  - apply (proj1 (battery_boundaries unknown_battery_unit 6
             ltac:(discriminate) ltac:(discriminate) ltac:(discriminate)
             eq_refl eq_refl)).
    reflexivity.
  - apply (proj2 (battery_boundaries worn_battery_unit 6
             ltac:(discriminate) ltac:(discriminate) ltac:(discriminate)
             eq_refl eq_refl) "62" 62); [reflexivity | reflexivity | lia | lia].
Defined.

Lemma dict_get_insert_default (data : gmap string pyval) (k k' : string) (v d : pyval) :
  data !! k = None -> (k' = k -> d = v) ->
  dict_get (<[k := v]> data) k' d = dict_get data k' d.
Proof.
  intros Hnone Hd. unfold dict_get.
  destruct (decide (k' = k)) as [-> | Hne].
  - rewrite lookup_insert_eq, Hnone. symmetry. now apply Hd.
  - now rewrite lookup_insert_ne by congruence.
Qed.

(** A missing key reads as its default. *)
Lemma compute_recommendation_default (data : gmap string pyval) (k : string) (v : pyval) :
  In (k, v) defaults -> data !! k = None ->
  compute_recommendation (<[k := v]> data) = compute_recommendation data.
Proof.
  intros Hin Hnone. unfold compute_recommendation, battery_number.
  assert (Hget : forall k' d, In (k', d) defaults ->
            dict_get (<[k := v]> data) k' d = dict_get data k' d).
  { intros k' d Hin'. apply dict_get_insert_default; [exact Hnone|].
    intros ->. simpl in Hin, Hin'.
    repeat (destruct Hin as [Hin | Hin]; [|]); try contradiction;
      repeat (destruct Hin' as [Hin' | Hin']; [|]); try contradiction;
      congruence. }
  rewrite !Hget by (simpl; tauto). reflexivity.
Qed.

(** C9, as stated, fails: a dictionary may hold a battery field that is
    not a string or a generation that is not a number, and
    [compute_recommendation] then raises [TypeError], which its [except
    ValueError] does not catch. *)
Lemma compute_recommendation_raises :
  compute_recommendation none_battery = Raise TypeError /\
  compute_recommendation text_generation = Raise TypeError.
Proof. split; reflexivity. Qed.

(** C9, amended: on every dictionary whose battery field, when present,
    is a string or an integer and whose generation, when present, is an
    integer,
    [compute_recommendation] returns one of the four labels; a battery
    string that does not parse as an integer (the empty string, "85%",
    "N/A") counts as 0; and a missing key reads as its default. *)
Theorem compute_recommendation_total (data : gmap string pyval) :
  battery_is_str_or_int data -> generation_is_int data ->
  (exists label, compute_recommendation data = Ok label /\ In label recommendations) /\
  (forall s, battery_pct data = VStr s -> int_of_str s = None ->
     battery_number data = Ok 0) /\
  (int_of_str EmptyString = None /\ int_of_str "85%" = None /\ int_of_str "N/A" = None) /\
  (forall k v, In (k, v) defaults -> data !! k = None ->
     compute_recommendation (<[k := v]> data) = compute_recommendation data).
Proof.
  intros Hbatt [g Hg]. destruct (battery_number_total data Hbatt) as [batt Hb].
  repeat split.
  - rewrite (compute_recommendation_typed _ _ _ Hb Hg).
    unfold recommendations.
    repeat match goal with |- context [if ?b then _ else _] => destruct b end;
      eexists; (split; [reflexivity | simpl; tauto]).
  - intros s' Hs' Hnone. rewrite (battery_number_str _ _ Hs'), Hnone. reflexivity.
  - intros k v. apply compute_recommendation_default.
Qed.

Lemma compute_recommendation_total_witness :
  (exists label, compute_recommendation percent_battery = Ok label /\
                 In label recommendations) /\
  battery_number percent_battery = Ok 0 /\
  compute_recommendation (<["gpu" := VStr "None"]> percent_battery)
    = compute_recommendation percent_battery.
Proof.
  pose proof (compute_recommendation_total percent_battery
                (or_introl (ex_intro _ "85%" eq_refl)) (ex_intro _ 0 eq_refl))
    as (H1 & H2 & _ & H4).
  split; [exact H1|]. split.
  - apply (H2 "85%"); reflexivity.
  - apply H4; [simpl; tauto | reflexivity].
Defined.

(** ** CPU generation *)

(** C3 at its third example: the run of digits of "i7-1185G7" stops at
    the letter, has four digits, and the generation returned is 1, where
    the documentation of the function says 11. *)
Theorem parse_cpu_generation_1185G7 :
  re_search intel_re "i7-1185G7" = Some ["1185"] /\
  parse_cpu_generation "i7-1185G7" = Ok 1.
Proof. split; reflexivity. Qed.

(** The other examples of the documentation. *)
Lemma parse_cpu_generation_examples :
  parse_cpu_generation "i7-8565U" = Ok 8 /\
  parse_cpu_generation "i5-13500H" = Ok 13 /\
  parse_cpu_generation "i7-14700H" = Ok 14 /\
  parse_cpu_generation "Ryzen 7 5800H" = Ok 5 /\
  parse_cpu_generation "Celeron N4000" = Ok 0.
Proof. repeat split; reflexivity. Qed.

(** The branches of the function, by the length of the captured run. *)
Lemma parse_cpu_generation_by_length (cpu_model run : string) (others : list string) :
  re_search intel_re cpu_model = Some (run :: others) ->
  (String.length run = 4%nat ->
     parse_cpu_generation cpu_model = int_of (substring 0 1 run)) /\
  (String.length run = 5%nat ->
     parse_cpu_generation cpu_model = int_of (substring 0 2 run)).
Proof.
  intros H. unfold parse_cpu_generation. rewrite H.
  split; intros ->; reflexivity.
Qed.

Lemma parse_cpu_generation_no_match (cpu_model : string) :
  re_search intel_re cpu_model = None -> re_search ryzen_re cpu_model = None ->
  parse_cpu_generation cpu_model = Ok 0.
Proof.
  intros Hi Hr. unfold parse_cpu_generation, ryzen_generation. now rewrite Hi, Hr.
Qed.

(** *** What a match captures *)

Lemma rep_greedy_sound {R : Type} (cls : ascii -> bool) (s : string) :
  forall (lo : nat) (hi : option nat) (k : string -> string -> option R) (r : R),
  rep_greedy cls lo hi s k = Some r ->
  exists m rest,
    s = m ++ rest /\ all_chars cls m = true /\ (lo <= String.length m)%nat /\
    (forall h, hi = Some h -> (String.length m <= h)%nat) /\
    k m rest = Some r.
Proof.
  induction s as [|c s IH]; intros lo hi k r H.
  - simpl in H. destruct lo; [|discriminate].
    exists EmptyString, EmptyString. simpl. repeat split; auto with arith.
  - assert (Hstop : match lo with O => k EmptyString (String c s) | S _ => None end = Some r ->
              exists m rest, String c s = m ++ rest /\ all_chars cls m = true /\
                (lo <= String.length m)%nat /\
                (forall h, hi = Some h -> (String.length m <= h)%nat) /\
                k m rest = Some r).
    { destruct lo; [|discriminate]. intros Hk.
      exists EmptyString, (String c s). simpl. repeat split; auto with arith. }
    cbn [rep_greedy] in H.
    destruct (cls c && may_take hi) eqn:Hc; [|now apply Hstop].
    apply andb_true_iff in Hc as [Hc Hhi].
    destruct (rep_greedy cls (Nat.pred lo) (Nat.pred <$> hi) s
                (fun m rest => k (String c m) rest)) as [r'|] eqn:Hrec;
      [|now apply Hstop].
    injection H as ->.
    apply IH in Hrec as (m & rest & Hs & Hall & Hlo & Hmax & Hk).
    exists (String c m), rest. simpl. rewrite Hc, Hall, Hs.
    repeat split; [lia | | exact Hk].
    intros h ->. destruct h as [|h]; [discriminate|].
    specialize (Hmax h eq_refl). lia.
Qed.

Lemma match_here_cons (it : item) (pat : list item) (s : string) (gs : list string) :
  match_here (it :: pat) s = Some gs ->
  exists m rest gs',
    s = m ++ rest /\ all_chars (item_class it) m = true /\
    (item_min it <= String.length m)%nat /\
    (forall h, item_max it = Some h -> (String.length m <= h)%nat) /\
    match_here pat rest = Some gs' /\
    gs = if item_group it then m :: gs' else gs'.
Proof.
  cbn [match_here]. intros H.
  apply rep_greedy_sound in H as (m & rest & Hs & Hall & Hlo & Hhi & Hk).
  destruct (match_here pat rest) as [gs'|] eqn:Hm; [|discriminate].
  injection Hk as <-. exists m, rest, gs'. repeat split; assumption.
Qed.

Lemma re_search_sound (pat : list item) (s : string) (gs : list string) :
  re_search pat s = Some gs ->
  exists pre suf, s = pre ++ suf /\ match_here pat suf = Some gs.
Proof.
  induction s as [|c s IH]; cbn [re_search].
  - destruct (match_here pat EmptyString) eqn:H; [|discriminate].
    intros [= <-]. now exists EmptyString, EmptyString.
  - destruct (match_here pat (String c s)) eqn:H.
    + intros [= <-]. now exists EmptyString, (String c s).
    + intros Hs. apply IH in Hs as (pre & suf & -> & Hm).
      now exists (String c pre), suf.
Qed.

(** *** The first run of a class *)

Lemma any_char_app (p : ascii -> bool) (a b : string) :
  any_char p (a ++ b) = any_char p a || any_char p b.
Proof.
  induction a as [|c a IH]; cbn [String.append any_char]; [reflexivity|].
  now rewrite IH, orb_assoc.
Qed.

Lemma rep_greedy_run {R : Type} (cls : ascii -> bool) (post : string) (t : string) :
  (forall c post', post = String c post' -> cls c = false) ->
  forall (lo : nat) (k : string -> string -> option R) (r : R),
  all_chars cls t = true -> (lo <= String.length t)%nat ->
  k t post = Some r ->
  rep_greedy cls lo None (t ++ post) k = Some r.
Proof.
  intros Hpost. induction t as [|c t IH]; intros lo k r Hall Hlo Hk.
  - cbn [String.length] in Hlo. assert (lo = O) as -> by lia. cbn [String.append].
    destruct post as [|c post']; cbn [rep_greedy]; [exact Hk|].
    now rewrite (Hpost c post' eq_refl).
  - cbn [all_chars] in Hall. apply andb_true_iff in Hall as [Hc Hall].
    cbn [String.append rep_greedy]. rewrite Hc. cbn [andb may_take].
    change (Nat.pred <$> None) with (@None nat).
    rewrite (IH (Nat.pred lo) (fun m rest => k (String c m) rest) r Hall); [reflexivity | | exact Hk].
    cbn [String.length] in Hlo. lia.
Qed.

(** A search for [cls+] finds the first run of the class, whole. *)
Lemma search_first_run (cls : ascii -> bool) (s t : string) :
  first_run cls s t -> re_search [Item cls 1 None true] s = Some [t].
Proof.
  intros (pre & post & -> & Hpre & Hne & Hall & Hpost).
  assert (Hhere : match_here [Item cls 1 None true] (t ++ post) = Some [t]).
  { cbn [match_here item_class item_min item_max item_group].
    apply rep_greedy_run; [exact Hpost | exact Hall | | reflexivity].
    destruct t; [congruence | cbn [String.length]; lia]. }
  induction pre as [|c pre IH]; cbn [String.append].
  - destruct t as [|c t]; [congruence|]. cbn [String.append] in *.
    cbn [re_search]. now rewrite Hhere.
  - cbn [any_char] in Hpre. apply orb_false_iff in Hpre as [Hc Hpre].
    cbn [re_search].
    cbn [match_here item_class item_min item_max item_group rep_greedy].
    rewrite Hc. cbn [andb]. apply IH, Hpre.
Qed.

Lemma run_split (cls : ascii -> bool) (s : string) :
  exists t post, s = t ++ post /\ all_chars cls t = true /\
                 (forall c post', post = String c post' -> cls c = false).
Proof.
  induction s as [|c s (t & post & -> & Hall & Hpost)].
  - exists EmptyString, EmptyString. repeat split. intros c post'. discriminate.
  - destruct (cls c) eqn:Hc.
    + exists (String c t), post. cbn [String.append all_chars]. rewrite Hc, Hall.
      repeat split. exact Hpost.
    + exists EmptyString, (String c (t ++ post)). repeat split.
      intros c' post' [= <- _]. exact Hc.
Qed.

Lemma first_run_exists (cls : ascii -> bool) (s : string) :
  any_char cls s = true -> exists t, first_run cls s t.
Proof.
  induction s as [|c s IH]; cbn [any_char]; [discriminate|].
  destruct (cls c) eqn:Hc; cbn [orb].
  - intros _. destruct (run_split cls s) as (t & post & -> & Hall & Hpost).
    exists (String c t), EmptyString, post. cbn [String.append all_chars].
    rewrite Hc, Hall. repeat split; [discriminate | exact Hpost].
  - intros H. destruct (IH H) as (t & pre & post & -> & Hpre & Hne & Hall & Hpost).
    exists t, (String c pre), post. cbn [String.append any_char]. rewrite Hc, Hpre.
    repeat split; assumption.
Qed.

Lemma first_run_any (cls : ascii -> bool) (s t : string) :
  first_run cls s t -> any_char cls s = true.
Proof.
  intros (pre & post & -> & _ & Hne & Hall & _).
  destruct t as [|c t]; [congruence|]. cbn [all_chars] in Hall.
  apply andb_true_iff in Hall as [Hc _].
  rewrite any_char_app. cbn [String.append any_char]. rewrite Hc. apply orb_true_r.
Qed.

Lemma search_no_run (cls : ascii -> bool) (s : string) :
  (forall t, ~ first_run cls s t) -> re_search [Item cls 1 None true] s = None.
Proof.
  intros Hno.
  assert (Hany : any_char cls s = false).
  { destruct (any_char cls s) eqn:H; [|reflexivity].
    destruct (first_run_exists cls s H) as [t Ht]. now destruct (Hno t). }
  clear Hno. induction s as [|c s IH]; [reflexivity|].
  cbn [any_char] in Hany. apply orb_false_iff in Hany as [Hc Hany].
  cbn [re_search match_here item_class item_min item_max item_group rep_greedy].
  rewrite Hc. cbn [andb]. apply IH, Hany.
Qed.

(** Drops the items of a pattern that do not capture. *)
Ltac skip_item H :=
  let m := fresh "m" in
  let rest := fresh "rest" in
  let gs := fresh "gs" in
  apply match_here_cons in H as (m & rest & gs & _ & _ & _ & _ & H & ->);
  cbn [item_group one lit] in *.

Lemma intel_group (s : string) (gs : list string) :
  re_search intel_re s = Some gs ->
  exists run, gs = [run] /\ all_chars py_isdigit run = true /\
              (2 <= String.length run <= 5)%nat.
Proof.
  intros H. apply re_search_sound in H as (pre & suf & _ & H).
  unfold intel_re in H. do 3 skip_item H.
  apply match_here_cons in H as (run & tail & gs' & _ & Hall & Hlo & Hhi & H & ->).
  cbn in H. injection H as <-. cbn in *.
  exists run. specialize (Hhi 5%nat eq_refl). repeat split; auto.
Qed.

Lemma ryzen_group (s : string) (gs : list string) :
  re_search ryzen_re s = Some gs ->
  exists c, gs = [String c EmptyString] /\ py_isdigit c = true.
Proof.
  intros H. apply re_search_sound in H as (pre & suf & _ & H).
  unfold ryzen_re, literal in H. cbn [list_ascii_of_string map app] in H.
  do 8 skip_item H.
  apply match_here_cons in H as (run & tail & gs' & _ & Hall & Hlo & Hhi & H & ->).
  cbn in H. injection H as <-. cbn in *.
  specialize (Hhi 1%nat eq_refl).
  destruct run as [|c [|d run]]; cbn in *; try lia.
  exists c. split; [reflexivity|]. now rewrite andb_true_r in Hall.
Qed.

(** *** [int()] on a run of digits *)

Lemma substring_none (s : string) : substring 0 0 s = EmptyString.
Proof. destruct s; reflexivity. Qed.

Lemma digit_facts (c : ascii) :
  py_isdigit c = true ->
  int_isspace c = false /\ Ascii.eqb c "-" = false /\ Ascii.eqb c "+" = false /\
  0 <= digit_value c.
Proof.
  destruct c as [[] [] [] [] [] [] [] []]; intros H;
    solve [discriminate H | repeat split; (reflexivity || (cbv; discriminate))].
Qed.

Lemma int_digits_all (t : string) :
  forall acc, all_chars py_isdigit t = true -> 0 <= acc ->
  exists n, int_digits acc t = Some (n, EmptyString) /\ 0 <= n.
Proof.
  induction t as [|c t IH]; intros acc Hall Hacc; simpl in *.
  - now exists acc.
  - apply andb_true_iff in Hall as [Hc Hall]. rewrite Hc.
    apply IH; [exact Hall|]. destruct (digit_facts c Hc) as (_ & _ & _ & Hd). lia.
Qed.

Lemma int_of_digits (t : string) :
  t <> EmptyString -> all_chars py_isdigit t = true ->
  exists n, int_of t = Ok n /\ 0 <= n.
Proof.
  destruct t as [|c t]; [congruence|]. intros _ Hall. simpl in Hall.
  apply andb_true_iff in Hall as [Hc Hall].
  destruct (digit_facts c Hc) as (Hsp & Hminus & Hplus & Hd).
  destruct (int_digits_all t (digit_value c) Hall Hd) as (n & Hn & Hpos).
  exists n. split; [|exact Hpos].
  unfold int_of, int_of_str. cbn [drop_while]. rewrite Hsp, Hminus, Hplus.
  unfold int_magnitude. now rewrite Hc, Hn.
Qed.

Lemma ryzen_generation_nonneg (s : string) :
  exists n, ryzen_generation s = Ok n /\ 0 <= n.
Proof.
  unfold ryzen_generation. destruct (re_search ryzen_re s) as [gs|] eqn:H.
  - apply ryzen_group in H as (c & -> & Hc).
    apply int_of_digits; [discriminate | simpl; now rewrite Hc].
  - now exists 0.
Qed.

(** C10: when the run of digits that the Intel pattern captures has two
    or three digits, as in "i7-920", the Intel branch returns nothing and
    the result is that of the Ryzen pattern, 0 when it does not match; and
    on every string the function returns an integer that is not negative. *)
Theorem short_intel_run_falls_through (cpu_model : string) :
  (forall run others,
     re_search intel_re cpu_model = Some (run :: others) ->
     String.length run = 2%nat \/ String.length run = 3%nat ->
     parse_cpu_generation cpu_model =
       match re_search ryzen_re cpu_model with
       | Some (g :: _) => int_of g
       | _ => Ok 0
       end) /\
  (exists n, parse_cpu_generation cpu_model = Ok n /\ 0 <= n).
Proof.
  split.
  - intros run others H Hlen. unfold parse_cpu_generation. rewrite H.
    destruct Hlen as [-> | ->]; reflexivity.
  - unfold parse_cpu_generation.
    destruct (re_search intel_re cpu_model) as [gs|] eqn:H;
      [|apply ryzen_generation_nonneg].
    apply intel_group in H as (run & -> & Hall & Hlen).
    destruct (String.length run =? 4)%nat eqn:H4.
    + destruct run as [|a run]; [discriminate|]. cbn [substring].
      rewrite substring_none.
      simpl in Hall. apply andb_true_iff in Hall as [Ha _].
      apply int_of_digits; [discriminate | simpl; now rewrite Ha].
    + destruct (String.length run =? 5)%nat eqn:H5; [|apply ryzen_generation_nonneg].
      destruct run as [|a [|b run]]; try discriminate. cbn [substring].
      rewrite substring_none.
      simpl in Hall. apply andb_true_iff in Hall as [Ha Hall].
      apply andb_true_iff in Hall as [Hb _].
      apply int_of_digits; [discriminate | simpl; now rewrite Ha, Hb].
Qed.

Lemma short_intel_run_falls_through_witness :
  parse_cpu_generation "i7-920" = Ok 0.
Proof.
  apply (proj1 (short_intel_run_falls_through "i7-920") "920" []);
    [reflexivity | right; reflexivity].
Defined.

(** ** The command probe *)

Section ProbeFacts.
Context {W : Type}.
Variable spawn : W -> string -> Z -> proc_outcome * W.

Lemma exec_lift {A : Type} (r : result A) (w : W) :
  exec spawn (lift r) w = (r, w, []).
Proof. destruct r; reflexivity. Qed.

Lemma exec_run (cmd : string) (t : Z) (w w' : W) (o : proc_outcome) :
  spawn w cmd t = (o, w') ->
  exec spawn (run cmd t) w = (run_result o, w', [cmd]).
Proof. intros H. unfold run. cbn [exec]. now rewrite H, exec_lift. Qed.

Lemma exec_bind {A B : Type} (p : Probe A) (f : A -> Probe B) :
  forall w,
  exec spawn (pbind p f) w =
    match exec spawn p w with
    | (Ok a, w1, cmds1) =>
        let '(r, w2, cmds2) := exec spawn (f a) w1 in (r, w2, (cmds1 ++ cmds2)%list)
    | (Raise e, w1, cmds1) => (Raise e, w1, cmds1)
    end.
Proof.
  induction p as [a | e | cmd t k IH]; intros w; cbn [pbind exec].
  - now destruct (exec spawn (f a) w) as [[r w2] cmds2].
  - reflexivity.
  - destruct (spawn w cmd t) as [o w1]. rewrite IH.
    destruct (exec spawn (k o) w1) as [[[a | e] w2] cmds1]; [|reflexivity].
    now destruct (exec spawn (f a) w2) as [[r w3] cmds2].
Qed.

(** C6: [run] returns the captured standard output without its leading
    and trailing white space, whatever the exit status; and when running
    the command fails with an error, a time-out included, it returns the
    empty string and raises nothing. *)
Theorem run_contract (cmd : string) (timeout : Z) (w w' : W) (o : proc_outcome) :
  spawn w cmd timeout = (o, w') ->
  (forall rc out err, o = Completed rc out err ->
     exec spawn (run cmd timeout) w = (Ok (strip out), w', [cmd]) /\
     trimmed_of out (strip out)) /\
  (forall e, o = Failed e -> derives_from_Exception e = true ->
     exec spawn (run cmd timeout) w = (Ok empty_str, w', [cmd])).
Proof.
  intros H. rewrite (exec_run _ _ _ _ _ H). split.
  - intros rc out err ->. split; [reflexivity | apply strip_spec].
  - intros e -> He. simpl. now rewrite He.
Qed.

(** ** Storage *)

(** C7: with an empty device identifier [get_storage_info] returns the
    three sentinels and spawns no command: the computation is a plain
    return, and in every world the list of commands run is empty and the
    world is unchanged. *)
Theorem storage_of_no_disk (w : W) :
  get_storage_info EmptyString = Ret (NA, 0, NA) /\
  exec spawn (get_storage_info EmptyString) w = (Ok ("N/A", 0, "N/A"), w, []).
Proof. split; reflexivity. Qed.

Lemma smart_of_spec (smart_out : string) :
  (occurs_in "PASSED" smart_out -> smart_of smart_out = "PASSED") /\
  (~ occurs_in "PASSED" smart_out -> occurs_in "FAILED" smart_out ->
     smart_of smart_out = "FAILED") /\
  (~ occurs_in "PASSED" smart_out -> ~ occurs_in "FAILED" smart_out ->
     smart_of smart_out = "N/A").
Proof.
  unfold smart_of. repeat split.
  - intros H. apply contains_spec in H. now rewrite H.
  - intros Hp Hf. apply contains_false in Hp. apply contains_spec in Hf.
    now rewrite Hp, Hf.
  - intros Hp Hf. apply contains_false in Hp, Hf. now rewrite Hp, Hf.
Qed.

Lemma exec_get_storage_info (disk size_bytes smart_out : string) (capacity : Z)
    (w w1 w2 : W) (o1 o2 : proc_outcome) :
  disk <> EmptyString ->
  spawn w ("lsblk -bdn -o SIZE " ++ disk) default_timeout = (o1, w1) ->
  run_result o1 = Ok size_bytes ->
  capacity_of size_bytes = Ok capacity ->
  spawn w1 ("smartctl -H " ++ disk) default_timeout = (o2, w2) ->
  run_result o2 = Ok smart_out ->
  exec spawn (get_storage_info disk) w =
    (Ok (storage_type_of disk, capacity, smart_of smart_out), w2,
     ["lsblk -bdn -o SIZE " ++ disk; "smartctl -H " ++ disk]).
Proof.
  intros Hdisk H1 Hsize Hcap H2 Hsmart.
  destruct disk as [|c disk]; [congruence|]. cbn [get_storage_info].
  rewrite exec_bind, (exec_run _ _ _ _ _ H1), Hsize.
  rewrite exec_bind, exec_lift, Hcap.
  rewrite exec_bind, (exec_run _ _ _ _ _ H2), Hsmart.
  reflexivity.
Qed.

(** C4: the SMART status that [get_storage_info] returns is "PASSED"
    when the text of the self-test holds "PASSED", otherwise "FAILED"
    when it holds "FAILED", otherwise "N/A"; a text that holds both gives
    "PASSED". *)
Theorem smart_status_classification (disk size_bytes smart_out : string)
    (capacity : Z) (w w1 w2 : W) (o1 o2 : proc_outcome) :
  disk <> EmptyString ->
  spawn w ("lsblk -bdn -o SIZE " ++ disk) default_timeout = (o1, w1) ->
  run_result o1 = Ok size_bytes ->
  capacity_of size_bytes = Ok capacity ->
  spawn w1 ("smartctl -H " ++ disk) default_timeout = (o2, w2) ->
  run_result o2 = Ok smart_out ->
  exists stor_type smart cmds,
    exec spawn (get_storage_info disk) w = (Ok (stor_type, capacity, smart), w2, cmds) /\
    (occurs_in "PASSED" smart_out -> smart = "PASSED") /\
    (~ occurs_in "PASSED" smart_out -> occurs_in "FAILED" smart_out ->
       smart = "FAILED") /\
    (~ occurs_in "PASSED" smart_out -> ~ occurs_in "FAILED" smart_out ->
       smart = "N/A").
Proof.
  intros Hdisk H1 Hsize Hcap H2 Hsmart.
  eexists _, (smart_of smart_out), _. split.
  - now apply (exec_get_storage_info disk size_bytes smart_out capacity w w1 w2 o1 o2).
  - apply smart_of_spec.
Qed.
End ProbeFacts.

Lemma run_contract_witness :
  exec (constant_world "  PASSED  ") (run "smartctl -H /dev/sda" 15) tt
    = (Ok "PASSED", tt, ["smartctl -H /dev/sda"]) /\
  exec (failing_world TimeoutExpired) (run "smartctl -H /dev/sda" 15) tt
    = (Ok empty_str, tt, ["smartctl -H /dev/sda"]).
Proof.
  split.
  - apply (proj1 (run_contract (constant_world "  PASSED  ") "smartctl -H /dev/sda" 15
                    tt tt _ eq_refl) 0 "  PASSED  " EmptyString eq_refl).
  - apply (proj2 (run_contract (failing_world TimeoutExpired) "smartctl -H /dev/sda" 15
                    tt tt _ eq_refl) TimeoutExpired eq_refl eq_refl).
Defined.

Lemma smart_status_classification_witness :
  exists stor_type smart cmds,
    exec disk_world (get_storage_info "/dev/sda") tt
      = (Ok (stor_type, 512, smart), tt, cmds) /\
    smart = "PASSED".
Proof.
  destruct (smart_status_classification disk_world "/dev/sda" "512110190592"
              both_words 512 tt tt tt _ _
              ltac:(discriminate) eq_refl eq_refl eq_refl eq_refl eq_refl)
    as (stor_type & smart & cmds & Hexec & Hpassed & _).
  exists stor_type, smart, cmds. split; [exact Hexec|].
  apply Hpassed. exists "FAILED earlier, now ", EmptyString. reflexivity.
Defined.

(** ** Battery health *)

Lemma exec_get_battery_health {W : Type} (spawn : W -> string -> Z -> proc_outcome * W)
    (w w' : W) (o : proc_outcome) (out : string) :
  spawn w upower_cmd default_timeout = (o, w') ->
  run_result o = Ok out ->
  exec spawn get_battery_health w = (battery_health_of out, w', [upower_cmd]).
Proof.
  intros H Hout. unfold get_battery_health.
  rewrite exec_bind, (exec_run _ _ _ _ _ _ H), Hout, exec_lift. reflexivity.
Qed.

Lemma float_gt_zero_truthy (x : spec_float) :
  float_gt_zero x = true -> float_truthy x = true.
Proof. destruct x as [s | s | | s m e]; try reflexivity. discriminate. Qed.

(** C5, as stated, fails: with both values present and a design capacity
    above zero, a present capacity of zero gives "N/A", where the rounded
    percentage is 0. *)
Lemma zero_energy_full_gives_NA :
  battery_scan (None, None) (splitlines dead_battery)
    = Ok (Some (S754_zero false), Some (float_of_int 50)) /\
  float_gt_zero (float_of_int 50) = true /\
  py_round (fmul (fdiv (S754_zero false) (float_of_int 50)) (float_of_int 100)) = Ok 0 /\
  exec (constant_world dead_battery) get_battery_health tt
    = (Ok "N/A", tt, [upower_cmd]) /\
  str_of_int 0 <> "N/A".
Proof. repeat split; try reflexivity. discriminate. Qed.

(** A number with two dots passes the pattern and stops [float()]: the
    exception leaves the function. *)
Lemma malformed_number_raises :
  battery_health_of "energy-full: 1.2.3 Wh" = Raise ValueError.
Proof. reflexivity. Qed.

(** A present capacity of 400 digits reads as infinity, the percentage
    is infinite and [round] raises: the exception leaves the function. *)
Lemma huge_number_raises :
  exec (constant_world huge_battery) get_battery_health tt
    = (Raise OverflowError, tt, [upower_cmd]).
Proof. vm_compute. reflexivity. Qed.

(** *** The scan of the battery text *)

Lemma first_number_found (line_s t : string) (old : option spec_float) :
  first_run numeric_char line_s t ->
  first_number line_s old = let! x := float_of_str t in Ok (Some x).
Proof.
  intros H. unfold first_number.
  change number_re with [Item numeric_char 1 None true].
  now rewrite (search_first_run _ _ _ H).
Qed.

Lemma first_number_none (line_s : string) (old : option spec_float) :
  (forall t, ~ first_run numeric_char line_s t) -> first_number line_s old = Ok old.
Proof.
  intros H. unfold first_number.
  change number_re with [Item numeric_char 1 None true].
  now rewrite (search_no_run _ _ H).
Qed.

Lemma full_line_test (line : string) :
  contains "energy-full:" (strip line) && negb (contains "design" (strip line)) = true
  <-> full_line line.
Proof.
  unfold full_line. rewrite andb_true_iff, negb_true_iff, contains_spec.
  split; intros [H1 H2]; (split; [exact H1|]).
  - intros H. apply contains_spec in H. congruence.
  - destruct (contains "design" (strip line)) eqn:H; [|reflexivity].
    apply contains_spec in H. contradiction.
Qed.

Lemma design_line_test (line : string) :
  contains "energy-full-design:" (strip line) = true <-> design_line line.
Proof. apply contains_spec. Qed.

Lemma number_decided (line : string) :
  (exists t, number_on line t) \/ (forall t, ~ number_on line t).
Proof.
  unfold number_on. destruct (any_char numeric_char (strip line)) eqn:H.
  - left. now apply first_run_exists.
  - right. intros t Ht. apply first_run_any in Ht. congruence.
Qed.

Lemma value_step (kind : Prop) (cond : bool) (line_s : string)
    (old new : option spec_float) :
  (cond = true <-> kind) ->
  (if cond then first_number line_s old else Ok old) = Ok new ->
  (kind -> forall t, first_run numeric_char line_s t ->
     exists x, float_of_str t = Ok x /\ new = Some x) /\
  ((kind -> forall t, ~ first_run numeric_char line_s t) -> new = old).
Proof.
  intros Hk H. destruct cond.
  - assert (Hkind : kind) by now apply Hk. split.
    + intros _ t Ht. rewrite (first_number_found _ _ _ Ht) in H.
      destruct (float_of_str t) as [x|e]; [|discriminate H].
      cbn [rbind] in H. injection H as <-. now exists x.
    + intros Hno. rewrite (first_number_none _ _ (Hno Hkind)) in H. now injection H.
  - assert (Hkind : ~ kind) by (intros Hkind; apply Hk in Hkind; discriminate).
    split; [intros Hkind'; contradiction|]. intros _. now injection H.
Qed.

Lemma value_step_total (kind : Prop) (cond : bool) (line_s : string)
    (old : option spec_float) :
  (cond = true <-> kind) ->
  (kind -> forall t, first_run numeric_char line_s t -> exists x, float_of_str t = Ok x) ->
  exists new, (if cond then first_number line_s old else Ok old) = Ok new.
Proof.
  intros Hk Hvalid. destruct cond; [|now exists old].
  assert (Hkind : kind) by now apply Hk.
  destruct (any_char numeric_char line_s) eqn:Hany.
  - destruct (first_run_exists _ _ Hany) as [t Ht].
    destruct (Hvalid Hkind t Ht) as [x Hx].
    rewrite (first_number_found _ _ _ Ht), Hx. now exists (Some x).
  - exists old. apply first_number_none. intros t Ht.
    apply first_run_any in Ht. congruence.
Qed.

(** One turn of the loop: a line of a kind that holds a number sets the
    value of its kind, and any other line leaves it. *)
Lemma battery_line_spec (st st' : option spec_float * option spec_float) (line : string) :
  battery_line st line = Ok st' ->
  ((full_line line -> forall t, number_on line t ->
      exists x, float_of_str t = Ok x /\ fst st' = Some x) /\
   ((full_line line -> forall t, ~ number_on line t) -> fst st' = fst st)) /\
  ((design_line line -> forall t, number_on line t ->
      exists x, float_of_str t = Ok x /\ snd st' = Some x) /\
   ((design_line line -> forall t, ~ number_on line t) -> snd st' = snd st)).
Proof.
  destruct st as [full design]. unfold battery_line, number_on.
  destruct (if contains "energy-full:" (strip line) && negb (contains "design" (strip line))
            then first_number (strip line) full else Ok full) as [full'|e] eqn:H1;
    [|discriminate].
  cbn [rbind].
  destruct (if contains "energy-full-design:" (strip line)
            then first_number (strip line) design else Ok design) as [design'|e] eqn:H2;
    [|discriminate].
  cbn [rbind]. intros [= <-]. cbn [fst snd]. split.
  - exact (value_step _ _ _ _ _ (full_line_test line) H1).
  - exact (value_step _ _ _ _ _ (design_line_test line) H2).
Qed.

Lemma battery_line_total (st : option spec_float * option spec_float) (line : string) :
  (forall t, full_line line \/ design_line line -> number_on line t ->
     exists x, float_of_str t = Ok x) ->
  exists st', battery_line st line = Ok st'.
Proof.
  intros Hvalid. destruct st as [full design]. unfold battery_line.
  destruct (value_step_total _ _ (strip line) full (full_line_test line)) as [full' ->].
  { intros Hk t Ht. apply (Hvalid t); [now left | exact Ht]. }
  cbn [rbind].
  destruct (value_step_total _ _ (strip line) design (design_line_test line)) as [design' ->].
  { intros Hk t Ht. apply (Hvalid t); [now right | exact Ht]. }
  cbn [rbind]. now eexists.
Qed.

Lemma battery_scan_app (l1 l2 : list string) :
  forall st, battery_scan st (l1 ++ l2) = let! st1 := battery_scan st l1 in battery_scan st1 l2.
Proof.
  induction l1 as [|l l1 IH]; intros st; cbn [app battery_scan rbind]; [reflexivity|].
  destruct (battery_line st l) as [st1|e]; cbn [rbind]; [apply IH | reflexivity].
Qed.

Lemma battery_scan_total (lines : list string) :
  numerals_valid lines -> forall st, exists st', battery_scan st lines = Ok st'.
Proof.
  induction lines as [|line rest IH]; intros Hvalid st; cbn [battery_scan].
  - now exists st.
  - destruct (battery_line_total st line) as [st1 ->].
    { intros t Hk. apply Hvalid; [now left | exact Hk]. }
    cbn [rbind]. apply IH. intros l t Hin. apply Hvalid. now right.
Qed.

(** The lines that hold no number of a kind leave its value. *)
Lemma battery_scan_keeps (lines : list string) :
  forall st st', battery_scan st lines = Ok st' ->
  (no_number full_line lines -> fst st' = fst st) /\
  (no_number design_line lines -> snd st' = snd st).
Proof.
  induction lines as [|line rest IH]; intros st st'; cbn [battery_scan].
  - now intros [= <-].
  - destruct (battery_line st line) as [st1|e] eqn:H1; [|discriminate]. cbn [rbind].
    intros H. destruct (IH _ _ H) as [IHf IHd].
    destruct (battery_line_spec _ _ _ H1) as [[_ Hf] [_ Hd]].
    split; intros Hno.
    + rewrite IHf, Hf; [reflexivity | |].
      * intros Hk t. apply Hno; [now left | exact Hk].
      * intros l t Hin. apply Hno. now right.
    + rewrite IHd, Hd; [reflexivity | |].
      * intros Hk t. apply Hno; [now left | exact Hk].
      * intros l t Hin. apply Hno. now right.
Qed.

(** The last line of a kind that holds a number gives the value. *)
Lemma battery_scan_last (lines : list string)
    (st st' : option spec_float * option spec_float) :
  battery_scan st lines = Ok st' ->
  (forall t, last_number full_line lines t ->
     exists x, float_of_str t = Ok x /\ fst st' = Some x) /\
  (forall t, last_number design_line lines t ->
     exists x, float_of_str t = Ok x /\ snd st' = Some x).
Proof.
  intros H. split; intros t (before & line & after & -> & Hk & Ht & Hafter).
  all: rewrite battery_scan_app in H;
    destruct (battery_scan st before) as [st1|e]; [|discriminate H];
    cbn [rbind battery_scan] in H;
    destruct (battery_line st1 line) as [st2|e] eqn:H2; [|discriminate H];
    cbn [rbind] in H;
    destruct (battery_line_spec _ _ _ H2) as [[Hf _] [Hd _]];
    destruct (battery_scan_keeps _ _ _ H) as [Kf Kd].
  - destruct (Hf Hk t Ht) as (x & Hx & Hs). exists x. split; [exact Hx|].
    rewrite Kf; [exact Hs|]. intros l t' Hin Hl. now apply Hafter.
  - destruct (Hd Hk t Ht) as (x & Hx & Hs). exists x. split; [exact Hx|].
    rewrite Kd; [exact Hs|]. intros l t' Hin Hl. now apply Hafter.
Qed.

(** Either no line of a kind holds a number, or a last one does. *)
Lemma last_number_or_none (kind : string -> Prop) (lines : list string) :
  (forall l, kind l \/ ~ kind l) ->
  no_number kind lines \/ exists t, last_number kind lines t.
Proof.
  intros Hdec. induction lines as [|line rest IH].
  - left. intros l t [].
  - destruct IH as [Hno | (t & before & l & after & -> & Hk & Ht & Hafter)].
    + destruct (Hdec line) as [Hk | Hk];
        [destruct (number_decided line) as [[t Ht] | Hnone]|].
      * right. exists t, [], line, rest. repeat split; assumption.
      * left. intros l t [<- | Hin] Hl; [apply Hnone | now apply Hno].
      * left. intros l t [<- | Hin] Hl; [contradiction | now apply Hno].
    + right. exists t, (line :: before), l, after. repeat split; assumption.
Qed.

Lemma kinds_decided (line : string) :
  (full_line line \/ ~ full_line line) /\ (design_line line \/ ~ design_line line).
Proof.
  split.
  - destruct (contains "energy-full:" (strip line) && negb (contains "design" (strip line)))
      eqn:H.
    + left. now apply full_line_test.
    + right. intros Hk. apply full_line_test in Hk. congruence.
  - destruct (contains "energy-full-design:" (strip line)) eqn:H.
    + left. now apply design_line_test.
    + right. intros Hk. apply design_line_test in Hk. congruence.
Qed.

(** C5, amended: for every text of [upower] in which each number on an
    energy line is a numeral that [float] reads: when a line that gives
    the present capacity (it holds "energy-full:" and not "design") and
    a line that gives the design capacity (it holds
    "energy-full-design:") each hold a number, the last of each kind
    counting, the present capacity is not zero, the design capacity is
    above zero and the percentage full / design * 100 is finite,
    [get_battery_health] returns the decimal text of the rounding of
    that percentage; when no line gives a present capacity, or none a
    design capacity, or the present capacity is zero, or the design
    capacity is not above zero, it returns "N/A".  Each kind has no
    number or a last one, so that the cases leave out nothing but a
    percentage that is not finite. *)
Theorem battery_health_value {W : Type} (spawn : W -> string -> Z -> proc_outcome * W)
    (w w' : W) (o : proc_outcome) (out : string) :
  spawn w upower_cmd default_timeout = (o, w') ->
  run_result o = Ok out ->
  numerals_valid (splitlines out) ->
  (forall tf td f d,
     last_number full_line (splitlines out) tf -> float_of_str tf = Ok f ->
     last_number design_line (splitlines out) td -> float_of_str td = Ok d ->
     float_truthy f = true -> float_gt_zero d = true ->
     is_finite (percentage f d) = true ->
     exists n, py_round (percentage f d) = Ok n /\
               exec spawn get_battery_health w = (Ok (str_of_int n), w', [upower_cmd])) /\
  (no_number full_line (splitlines out) \/ no_number design_line (splitlines out) \/
   (exists tf f, last_number full_line (splitlines out) tf /\
                 float_of_str tf = Ok f /\ float_truthy f = false) \/
   (exists td d, last_number design_line (splitlines out) td /\
                 float_of_str td = Ok d /\ float_gt_zero d = false) ->
   exec spawn get_battery_health w = (Ok "N/A", w', [upower_cmd])) /\
  (no_number full_line (splitlines out) \/
   exists tf, last_number full_line (splitlines out) tf) /\
  (no_number design_line (splitlines out) \/
   exists td, last_number design_line (splitlines out) td).
Proof.
  intros H Hout Hvalid.
  rewrite (exec_get_battery_health spawn w w' o out H Hout).
  unfold battery_health_of.
  destruct (battery_scan_total _ Hvalid (None, None)) as [[full design] Hscan].
  rewrite Hscan. cbn [rbind].
  destruct (battery_scan_last _ _ _ Hscan) as [Lf Ld].
  destruct (battery_scan_keeps _ _ _ Hscan) as [Kf Kd]. cbn [fst snd] in *.
  split; [|split; [|split]].
  - intros tf td f d Htf Hf Htd Hd Hnz Hpos Hfin.
    destruct (Lf tf Htf) as (f' & Hf' & ->). destruct (Ld td Htd) as (d' & Hd' & ->).
    assert (f' = f) as -> by congruence. assert (d' = d) as -> by congruence.
    rewrite Hnz, Hpos, (float_gt_zero_truthy _ Hpos). cbn [andb].
    unfold float_truediv. rewrite (float_gt_zero_truthy _ Hpos). cbn [rbind].
    fold (percentage f d).
    destruct (percentage f d) as [s | s | | s m e] eqn:Hp; try discriminate Hfin.
    + exists 0. split; reflexivity.
    + cbn [py_round rbind]. eexists. split; reflexivity.
  - intros [Hno | [Hno | [(tf & f & Htf & Hf & Hz) | (td & d & Htd & Hd & Hz)]]].
    + now rewrite (Kf Hno).
    + rewrite (Kd Hno). now destruct full.
    + destruct (Lf tf Htf) as (f' & Hf' & ->). assert (f' = f) as -> by congruence.
      destruct design; [|reflexivity]. now rewrite Hz.
    + destruct (Ld td Htd) as (d' & Hd' & ->). assert (d' = d) as -> by congruence.
      destruct full; [|reflexivity]. now rewrite Hz, andb_false_r.
  - apply last_number_or_none. intros l. apply kinds_decided.
  - apply last_number_or_none. intros l. apply kinds_decided.
Qed.

Lemma battery_health_value_witness :
  exec (constant_world worn_battery) get_battery_health tt
    = (Ok "82", tt, [upower_cmd]) /\
  exec (constant_world EmptyString) get_battery_health tt
    = (Ok "N/A", tt, [upower_cmd]).
Proof.
  assert (Hfull : last_number full_line (splitlines (strip worn_battery)) "41.0").
  { exists [], "energy-full:         41.0 Wh", ["  energy-full-design:  50.0 Wh"].
    split; [reflexivity|]. split; [|split].
    - split; [apply contains_spec; reflexivity|].
      intros H. apply contains_spec in H. discriminate H.
    - exists "energy-full:         ", " Wh". repeat split; try discriminate.
      intros c post' [= <- _]. reflexivity.
    - intros l t' [<- | []] [_ Hk]. exfalso. apply Hk. apply contains_spec. reflexivity. }
  assert (Hdesign : last_number design_line (splitlines (strip worn_battery)) "50.0").
  { exists ["energy-full:         41.0 Wh"], "  energy-full-design:  50.0 Wh", [].
    split; [reflexivity|]. split; [|split].
    - apply contains_spec. reflexivity.
    - exists "energy-full-design:  ", " Wh". repeat split; try discriminate.
      intros c post' [= <- _]. reflexivity.
    - intros l t' []. }
  assert (Hvalid : numerals_valid (splitlines (strip worn_battery))).
  { intros l t [<- | [<- | []]] _ Ht; apply search_first_run in Ht;
      vm_compute in Ht; injection Ht as <-; eexists; vm_compute; reflexivity. }
  split.
  - destruct (proj1 (battery_health_value (constant_world worn_battery) tt tt _
                       (strip worn_battery) eq_refl eq_refl Hvalid)
                "41.0" "50.0" _ _ Hfull eq_refl Hdesign eq_refl eq_refl eq_refl eq_refl)
      as (n & Hn & Hexec).
    vm_compute in Hn. injection Hn as <-. exact Hexec.
  - apply (proj1 (proj2 (battery_health_value (constant_world EmptyString) tt tt _
                           EmptyString eq_refl eq_refl ltac:(intros l t []))));
    left; intros l t [].
Defined.

(** ** The ledger *)

Lemma dictwriter_header_line : dictwriter_header CSV_HEADERS = Ok header_line.
Proof. reflexivity. Qed.

Lemma ledger_row_keys (now : string) (data : gmap string pyval) :
  map fst (ledger_row now data) = CSV_HEADERS.
Proof. reflexivity. Qed.

Lemma dictwriter_row_line (now : string) (data : gmap string pyval) :
  dictwriter_row CSV_HEADERS (ledger_row now data) = Ok (unit_line (now, data)).
Proof. reflexivity. Qed.

Lemma unit_lines_app (a b : list (string * gmap string pyval)) :
  unit_lines (a ++ b) = unit_lines a ++ unit_lines b.
Proof.
  induction a as [|u a IH]; simpl; [reflexivity|].
  now rewrite IH, append_assoc.
Qed.

(** *** Reading back what was written *)

Lemma append_one (a : string) (c : ascii) (b : string) :
  (a ++ String c EmptyString) ++ b = a ++ String c b.
Proof. now rewrite append_assoc. Qed.

(** A field without a comma, a quote or a line end, read to its end. *)
Lemma read_plain (f : string) :
  any_char needs_quote f = false ->
  forall done row cur rest,
  read_from Unquoted done row cur (f ++ rest) = read_from Unquoted done row (cur ++ f) rest.
Proof.
  induction f as [|c f IH]; intros Hf done row cur rest.
  - now rewrite append_empty_r.
  - cbn [any_char] in Hf. apply orb_false_iff in Hf as [Hc Hf].
    unfold needs_quote in Hc.
    apply orb_false_iff in Hc as [Hc Hlf]. apply orb_false_iff in Hc as [Hc Hcr].
    apply orb_false_iff in Hc as [Hcomma Hq].
    cbn [String.append read_from]. rewrite Hcomma, Hcr, Hq, Hlf. cbn [orb].
    rewrite (IH Hf). now rewrite append_one.
Qed.

(** The inside of a quoted field, read to the closing quote. *)
Lemma read_quoted (f : string) :
  forall done row cur rest,
  read_from Quoted done row cur (double_quotes f ++ String dquote rest)
    = read_from QuoteSeen done row (cur ++ f) rest.
Proof.
  induction f as [|c f IH]; intros done row cur rest.
  - cbn [double_quotes String.append read_from]. rewrite Ascii.eqb_refl.
    now rewrite append_empty_r.
  - cbn [double_quotes]. destruct (Ascii.eqb c dquote) eqn:Hc.
    + cbn [String.append read_from]. rewrite !Hc.
      rewrite IH. now rewrite append_one.
    + cbn [String.append read_from]. rewrite Hc. rewrite IH. now rewrite append_one.
Qed.

(** A written field followed by a comma is read as the field. *)
Lemma read_field_comma (f rest : string) (done : list (list string)) (row : list string) :
  read_from FieldStart done row EmptyString (csv_field f ++ String "," rest)
    = read_from FieldStart done (row ++ [f])%list EmptyString rest.
Proof.
  unfold csv_field. destruct (any_char needs_quote f) eqn:Hf.
  - cbn [String.append read_from]. rewrite Ascii.eqb_refl.
    rewrite append_assoc. cbn [String.append]. rewrite read_quoted.
    cbn [read_from String.append]. reflexivity.
  - destruct f as [|c f].
    + cbn [String.append read_from]. reflexivity.
    + pose proof Hf as Hf'. cbn [any_char] in Hf. apply orb_false_iff in Hf as [Hc Hf].
      unfold needs_quote in Hc.
      apply orb_false_iff in Hc as [Hc Hlf]. apply orb_false_iff in Hc as [Hc Hcr].
      apply orb_false_iff in Hc as [Hcomma Hq].
      cbn [String.append read_from]. rewrite Hq, Hcomma, Hcr, Hlf.
      rewrite (read_plain f Hf). cbn [String.append read_from]. reflexivity.
Qed.

(** A written field followed by the line end closes the record, unless
    it is an empty field alone on its line. *)
Lemma read_field_end (f rest : string) (done : list (list string)) (row : list string) :
  row <> [] \/ f <> EmptyString ->
  read_from FieldStart done row EmptyString (csv_field f ++ CRLF ++ rest)
    = read_from FieldStart (done ++ [(row ++ [f])%list])%list [] EmptyString rest.
Proof.
  intros Hne. unfold csv_field, CRLF. destruct (any_char needs_quote f) eqn:Hf.
  - cbn [String.append read_from]. rewrite Ascii.eqb_refl.
    rewrite append_assoc. cbn [String.append]. rewrite read_quoted.
    cbn [read_from String.append]. reflexivity.
  - destruct f as [|c f].
    + cbn [String.append read_from].
      destruct row as [|r row]; [destruct Hne; congruence|]. reflexivity.
    + cbn [any_char] in Hf. apply orb_false_iff in Hf as [Hc Hf].
      unfold needs_quote in Hc.
      apply orb_false_iff in Hc as [Hc Hlf]. apply orb_false_iff in Hc as [Hc Hcr].
      apply orb_false_iff in Hc as [Hcomma Hq].
      cbn [String.append read_from]. rewrite Hq, Hcomma, Hcr, Hlf.
      rewrite (read_plain f Hf). cbn [String.append read_from]. reflexivity.
Qed.

Lemma read_fields (fields : list string) :
  forall (done : list (list string)) (row : list string) (rest : string),
  fields <> [] -> (row <> [] \/ fields <> [EmptyString]) ->
  read_from FieldStart done row EmptyString (join "," (map csv_field fields) ++ CRLF ++ rest)
    = read_from FieldStart (done ++ [(row ++ fields)%list])%list [] EmptyString rest.
Proof.
  induction fields as [|f fields IH]; intros done row rest Hne Hrow; [congruence|].
  destruct fields as [|g fields].
  - cbn [map join]. apply read_field_end.
    destruct Hrow as [H | H]; [now left | right; congruence].
  - change (join "," (map csv_field (f :: g :: fields)))
      with (csv_field f ++ "," ++ join "," (map csv_field (g :: fields))).
    rewrite !append_assoc. cbn [String.append].
    rewrite read_field_comma.
    rewrite IH; [|discriminate|left; now destruct row].
    now rewrite <- app_assoc.
Qed.

(** Round trip: a line that [writerow] wrote is read back as its fields,
    and the reading goes on after it. *)
Lemma read_csv_line (fields : list string) (done : list (list string)) (rest : string) :
  read_from FieldStart done [] EmptyString (csv_line fields ++ rest)
    = read_from FieldStart (done ++ [fields])%list [] EmptyString rest.
Proof.
  destruct fields as [|f fields].
  - reflexivity.
  - destruct f as [|c f]; [destruct fields as [|g fields]|].
    + reflexivity.
    + unfold csv_line. rewrite append_assoc.
      apply (read_fields _ done [] rest); [discriminate | right; discriminate].
    + unfold csv_line. rewrite append_assoc.
      apply (read_fields _ done [] rest); [discriminate | right; discriminate].
Qed.

(** The header line is the line of the schema. *)
Lemma header_fields : header_line = csv_line schema.
Proof. reflexivity. Qed.

(** The values that [export_to_csv] hands to the writer for a unit are
    the fields of its record. *)
Lemma unit_fields (u : string * gmap string pyval) :
  map cell (map snd (ledger_row (fst u) (snd u))) = record_of u.
Proof.
  destruct u as [now data]. unfold record_of, schema, ledger_row, dict_get.
  cbn [map fst snd cell]. unfold field_of. cbn [fst snd].
  repeat (f_equal; [destruct (data !! _) as [[|n|t]|]; reflexivity|]).
  reflexivity.
Qed.

Lemma read_unit_lines (units : list (string * gmap string pyval)) :
  forall (done : list (list string)) (rest : string),
  read_from FieldStart done [] EmptyString (unit_lines units ++ rest)
    = read_from FieldStart (done ++ map record_of units)%list [] EmptyString rest.
Proof.
  induction units as [|u units IH]; intros done rest; cbn [unit_lines map].
  - now rewrite app_nil_r.
  - unfold unit_line. rewrite append_assoc, read_csv_line, IH, unit_fields.
    now rewrite <- app_assoc.
Qed.

(** Round trip: the header line and the lines of the units read back as
    the schema and the records of the units, in order. *)
Lemma read_ledger (units : list (string * gmap string pyval)) :
  read_csv (header_line ++ unit_lines units) = Some (schema :: map record_of units).
Proof.
  unfold read_csv. rewrite header_fields, read_csv_line.
  rewrite <- (append_empty_r (unit_lines units)), read_unit_lines.
  reflexivity.
Qed.

Lemma read_unit_line (u : string * gmap string pyval) :
  read_csv (unit_line u) = Some [record_of u].
Proof.
  unfold read_csv, unit_line.
  rewrite <- (append_empty_r (csv_line _)), read_csv_line, unit_fields.
  reflexivity.
Qed.

Lemma with_nodes_twice (fs : filesystem) (n1 n2 : gmap string node) :
  with_nodes (with_nodes fs n1) n2 = with_nodes fs n2.
Proof. reflexivity. Qed.

Lemma with_nodes_same (fs : filesystem) : with_nodes fs (nodes fs) = fs.
Proof. now destruct fs. Qed.

(** *** The directory of the ledger *)

Lemma head_of_no_slash (name : string) :
  any_char is_slash name = false -> head_of name = EmptyString.
Proof.
  induction name as [|c name IH]; [reflexivity|]. cbn [any_char head_of].
  intros H. apply orb_false_iff in H as [Hc H]. now rewrite (IH H), Hc.
Qed.

Lemma head_of_join (d name : string) :
  any_char is_slash name = false -> head_of (d ++ "/" ++ name) = d ++ "/".
Proof.
  intros H. induction d as [|c d IH]; cbn [String.append head_of].
  - now rewrite (head_of_no_slash name H).
  - cbn [String.append] in IH. rewrite IH. now destruct d.
Qed.

Lemma rstrip_slashes_join (d : string) (c : ascii) :
  last_char d = Some c -> is_slash c = false ->
  rstrip_slashes (d ++ "/") = d /\ all_slashes (d ++ "/") = false.
Proof.
  intros Hl Hc. induction d as [|a d IH]; [discriminate|].
  cbn [String.append rstrip_slashes all_slashes].
  destruct d as [|b d].
  - cbn [last_char] in Hl. injection Hl as ->.
    cbn [String.append rstrip_slashes all_slashes]. now rewrite Hc.
  - destruct (IH Hl) as [-> ->]. split; [reflexivity | apply andb_false_r].
Qed.

Lemma last_piece (d : string) (c : ascii) :
  last_char d = Some c ->
  substring (String.length d - 1) 1 d = String c EmptyString.
Proof.
  induction d as [|a d IH]; [discriminate|]. intros Hl.
  cbn [String.length]. rewrite Nat.sub_succ, Nat.sub_0_r.
  destruct d as [|b d].
  - cbn [last_char] in Hl. injection Hl as ->. reflexivity.
  - cbn [String.length substring]. specialize (IH Hl).
    cbn [String.length] in IH. rewrite Nat.sub_succ, Nat.sub_0_r in IH. exact IH.
Qed.

(** The directory of the ledger is the directory it was asked in, when
    that is written without a final slash. *)
Lemma dirname_of_ledger (d : string) (c : ascii) :
  last_char d = Some c -> is_slash c = false ->
  dirname (path_join d CSV_FILENAME) = d.
Proof.
  intros Hl Hc.
  assert (Hj : path_join d CSV_FILENAME = d ++ "/" ++ CSV_FILENAME).
  { unfold path_join. change (startswith "/" CSV_FILENAME) with false. cbv iota.
    rewrite (last_piece d c Hl).
    assert (Hne : String.eqb d EmptyString = false)
      by (destruct d; [discriminate | reflexivity]).
    rewrite Hne. cbn [orb String.eqb]. unfold is_slash in Hc. rewrite Hc. reflexivity. }
  rewrite Hj. unfold dirname. rewrite head_of_join by reflexivity.
  destruct (rstrip_slashes_join d c Hl Hc) as [-> ->].
  destruct d; [discriminate | reflexivity].
Qed.

Section Ledger.
Variable save_dir : string.
Let csv_path : string := path_join save_dir CSV_FILENAME.

Lemma export_fresh (now : string) (data : gmap string pyval) (fs : filesystem) :
  refused fs !! csv_path = None ->
  nodes fs !! csv_path = None ->
  nodes fs !! dirname csv_path = Some Dir ->
  export_to_csv now data save_dir fs =
    (Ok tt, with_nodes fs (<[csv_path := File (header_line ++ unit_line (now, data))]>
                             (nodes fs))).
Proof.
  intros Hr H Hd. unfold export_to_csv, isfile, open_append. fold csv_path.
  rewrite Hr, H, Hd. cbn [negb]. rewrite dictwriter_header_line, dictwriter_row_line.
  cbn [rbind]. unfold write_append. cbn [nodes with_nodes].
  rewrite lookup_insert_eq. cbn [nodes with_nodes refused].
  rewrite insert_insert_eq, lookup_insert_eq. unfold with_nodes. cbn [nodes refused].
  now rewrite insert_insert_eq.
Qed.

Lemma export_existing (now : string) (data : gmap string pyval) (fs : filesystem)
    (c : string) :
  refused fs !! csv_path = None ->
  nodes fs !! csv_path = Some (File c) ->
  export_to_csv now data save_dir fs =
    (Ok tt, with_nodes fs (<[csv_path := File (c ++ unit_line (now, data))]> (nodes fs))).
Proof.
  intros Hr H. unfold export_to_csv, isfile, open_append. fold csv_path.
  rewrite Hr, H. cbn [negb]. rewrite dictwriter_row_line.
  unfold write_append. now rewrite H.
Qed.





Lemma export_all_existing (units : list (string * gmap string pyval)) :
  forall (fs : filesystem) (c : string),
  refused fs !! csv_path = None ->
  nodes fs !! csv_path = Some (File c) ->
  export_all units save_dir fs =
    (Ok tt, with_nodes fs (<[csv_path := File (c ++ unit_lines units)]> (nodes fs))).
Proof.
  induction units as [|[now data] units IH]; intros fs c Hr H; cbn [export_all unit_lines].
  - rewrite append_empty_r. rewrite insert_id by exact H. now rewrite with_nodes_same.
  - rewrite (export_existing now data fs c Hr H).
    rewrite (IH _ (c ++ unit_line (now, data))); [|exact Hr|apply lookup_insert_eq].
    cbn [nodes with_nodes]. rewrite with_nodes_twice.
    now rewrite insert_insert_eq, append_assoc.
Qed.

Lemma export_all_fresh (units : list (string * gmap string pyval)) (fs : filesystem) :
  refused fs !! csv_path = None ->
  nodes fs !! csv_path = None ->
  nodes fs !! dirname csv_path = Some Dir ->
  exists fs', export_all units save_dir fs = (Ok tt, fs') /\
              refused fs' = refused fs /\
              nodes fs' !! csv_path = ledger_after units.
Proof.
  intros Hr H Hd. destruct units as [|[now data] units]; cbn [export_all].
  - now exists fs.
  - rewrite (export_fresh now data fs Hr H Hd).
    rewrite (export_all_existing units _ (header_line ++ unit_line (now, data)));
      [|exact Hr|apply lookup_insert_eq].
    eexists. split; [reflexivity|]. split; [reflexivity|].
    cbn [nodes with_nodes]. rewrite lookup_insert_eq. unfold ledger_after.
    cbn [unit_lines]. now rewrite append_assoc.
Qed.

(** C8: when the ledger can be opened (the system does not refuse, and
    the file exists or its directory does, which is [save_dir] itself
    when that is written without a final slash), [export_to_csv] writes the
    header exactly when the file did not exist, and always appends one
    line; the header reads back as the eighteen columns of the schema
    and the line as one record, the eighteen fields of the unit in the
    order of the columns.  So [first] units written to a fresh path give
    a ledger that reads back as the header and one record per unit, and
    [more] units appended later give one that reads back as the same
    single header and the records of all the units, in order. *)
Theorem ledger_round_trip (fs : filesystem) :
  refused fs !! csv_path = None ->
  (forall now data,
     (nodes fs !! csv_path = None -> nodes fs !! dirname csv_path = Some Dir ->
        exists line,
          export_to_csv now data save_dir fs =
            (Ok tt, with_nodes fs (<[csv_path := File (header_line ++ line)]> (nodes fs))) /\
          read_csv line = Some [record_of (now, data)]) /\
     (forall c, nodes fs !! csv_path = Some (File c) ->
        exists line,
          export_to_csv now data save_dir fs =
            (Ok tt, with_nodes fs (<[csv_path := File (c ++ line)]> (nodes fs))) /\
          read_csv line = Some [record_of (now, data)]) /\
     read_csv header_line = Some [schema] /\
     length schema = 18%nat /\ length (record_of (now, data)) = 18%nat) /\
  (forall first more,
     nodes fs !! csv_path = None -> nodes fs !! dirname csv_path = Some Dir ->
     exists fs1 fs2,
       export_all first save_dir fs = (Ok tt, fs1) /\
       (first = [] -> nodes fs1 !! csv_path = None) /\
       (first <> [] -> ledger_holds fs1 csv_path (map record_of first)) /\
       export_all more save_dir fs1 = (Ok tt, fs2) /\
       ((first ++ more)%list <> [] ->
        ledger_holds fs2 csv_path (map record_of (first ++ more)))).
Proof.
  intros Hr. split.
  - intros now data. split; [|split; [|split; [|split]]].
    + intros H Hd. exists (unit_line (now, data)).
      split; [now apply export_fresh | apply read_unit_line].
    + intros c H. exists (unit_line (now, data)).
      split; [now apply export_existing | apply read_unit_line].
    + rewrite <- (append_empty_r header_line). apply (read_ledger []).
    + reflexivity.
    + reflexivity.
  - intros first more H Hd.
    destruct (export_all_fresh first fs Hr H Hd) as (fs1 & H1 & Hr1 & Hl1).
    assert (Hholds : forall units fs',
              units <> [] -> nodes fs' !! csv_path = ledger_after units ->
              ledger_holds fs' csv_path (map record_of units)).
    { intros units fs' Hne Hl. exists (header_line ++ unit_lines units).
      split; [|apply read_ledger]. rewrite Hl. now destruct units. }
    destruct first as [|u first].
    + cbn [export_all] in H1. injection H1 as <-.
      destruct (export_all_fresh more fs Hr H Hd) as (fs2 & H2 & Hr2 & Hl2).
      exists fs, fs2. split; [reflexivity|]. split; [intros _; exact H|].
      split; [congruence|]. split; [exact H2|].
      cbn [app]. intros Hne. now apply Hholds.
    + unfold ledger_after in Hl1.
      exists fs1, (with_nodes fs1 (<[csv_path := File ((header_line ++ unit_lines (u :: first))
                                                         ++ unit_lines more)]> (nodes fs1))).
      split; [exact H1|]. split; [discriminate|].
      split; [intros _; now apply Hholds|].
      split; [apply export_all_existing; [now rewrite Hr1 | exact Hl1]|].
      intros _. exists (header_line ++ unit_lines ((u :: first) ++ more)).
      split; [|apply read_ledger].
      cbn [nodes with_nodes]. rewrite lookup_insert_eq, unit_lines_app.
      now rewrite append_assoc.
Qed.
End Ledger.

Lemma ledger_round_trip_witness :
  (exists line,
     export_to_csv (fst first_unit) (snd first_unit) "/mnt/usb_data" fresh_stick
       = (Ok tt, with_nodes fresh_stick
                   (<["/mnt/usb_data/audit_master.csv" := File (header_line ++ line)]>
                      (nodes fresh_stick))) /\
     read_csv line =
       Some [["2024-05-01 10:00:00"; "N/A"; "N/A"; "N/A"; "0"; "0"; "N/A"; "N/A"; "0";
              "FAILED"; "80"; "NVIDIA GeForce RTX 3050"; "N/A"; "N/A"; ""; ""; ""; ""]]) /\
  exists fs1 fs2,
    export_all [first_unit] "/mnt/usb_data" fresh_stick = (Ok tt, fs1) /\
    ledger_holds fs1 "/mnt/usb_data/audit_master.csv" [record_of first_unit] /\
    export_all [second_unit; touch_unit] "/mnt/usb_data" fs1 = (Ok tt, fs2) /\
    ledger_holds fs2 "/mnt/usb_data/audit_master.csv"
      [["2024-05-01 10:00:00"; "N/A"; "N/A"; "N/A"; "0"; "0"; "N/A"; "N/A"; "0";
        "FAILED"; "80"; "NVIDIA GeForce RTX 3050"; "N/A"; "N/A"; ""; ""; ""; ""];
       ["2024-05-01 10:20:00"; "N/A"; "N/A"; "N/A"; "0"; "0"; "N/A"; "N/A"; "0";
        "PASSED"; "62"; "None"; "N/A"; "N/A"; "A"; "A"; ""; ""];
       ["2024-05-01 10:40:00"; "N/A";
        "Latitude 7400, " ++ String dquote "Touch" ++ String dquote EmptyString;
        "N/A"; "0"; "0"; "N/A"; "N/A"; "0"; "PASSED"; "62"; "None"; "N/A"; "N/A";
        "A"; "A"; ""; ""]].
Proof.
  split.
  - apply (proj1 (proj1 (ledger_round_trip "/mnt/usb_data" fresh_stick eq_refl)
                    (fst first_unit) (snd first_unit)));
      reflexivity.
  - destruct (proj2 (ledger_round_trip "/mnt/usb_data" fresh_stick eq_refl)
                [first_unit] [second_unit; touch_unit] eq_refl eq_refl)
      as (fs1 & fs2 & H1 & _ & Hl1 & H2 & Hl2).
    exists fs1, fs2. split; [exact H1|]. split; [apply Hl1; discriminate|].
    split; [exact H2 | apply Hl2; discriminate].
Defined.

(** What the ledger of the two units reads back as, written out. *)
Lemma ledger_of_two_units :
  header_line =
    "timestamp,service_tag,model,cpu,cores,ram_gb,ram_type,storage_type,storage_gb,"
    ++ "smart_status,battery_pct,gpu,resolution,resolution_class,screen_grade,"
    ++ "chassis_grade,charger,recommendation" ++ CRLF /\
  read_csv (header_line ++ unit_line first_unit ++ unit_line second_unit) =
    Some [schema;
          ["2024-05-01 10:00:00"; "N/A"; "N/A"; "N/A"; "0"; "0"; "N/A"; "N/A"; "0";
           "FAILED"; "80"; "NVIDIA GeForce RTX 3050"; "N/A"; "N/A"; ""; ""; ""; ""];
          ["2024-05-01 10:20:00"; "N/A"; "N/A"; "N/A"; "0"; "0"; "N/A"; "N/A"; "0";
           "PASSED"; "62"; "None"; "N/A"; "N/A"; "A"; "A"; ""; ""]].
Proof. split; vm_compute; reflexivity. Qed.

(** A field with a comma and quotes is written between quotes, its
    quotes doubled, and read back as it was. *)
Lemma line_of_touch_unit :
  unit_line touch_unit =
    "2024-05-01 10:40:00,N/A,"
    ++ String dquote "Latitude 7400, " ++ String dquote (String dquote "Touch")
    ++ String dquote (String dquote (String dquote EmptyString))
    ++ ",N/A,0,0,N/A,N/A,0,PASSED,62,None,N/A,N/A,A,A,," ++ CRLF /\
  read_csv (unit_line touch_unit) =
    Some [["2024-05-01 10:40:00"; "N/A";
           "Latitude 7400, " ++ String dquote "Touch" ++ String dquote EmptyString;
           "N/A"; "0"; "0"; "N/A"; "N/A"; "0"; "PASSED"; "62"; "None"; "N/A"; "N/A";
           "A"; "A"; ""; ""]].
Proof. split; vm_compute; reflexivity. Qed.

(** Without its directory the ledger cannot be made: the call raises
    and writes nothing; so does a call that the system refuses. *)
Lemma export_without_directory :
  export_to_csv (fst first_unit) (snd first_unit) "/mnt/usb_data" no_directory
    = (Raise FileNotFoundError, no_directory) /\
  export_to_csv (fst first_unit) (snd first_unit) "/mnt/usb_data" read_only_stick
    = (Raise OSError, read_only_stick).
Proof. split; reflexivity. Qed.

(** * Properties of the rest of the program *)

(** ** More on the decision tree *)

Lemma dict_get_insert_other (data : gmap string pyval) (k k' : string) (v d : pyval) :
  k' <> k -> dict_get (<[k := v]> data) k' d = dict_get data k' d.
Proof. intros H. unfold dict_get. now rewrite lookup_insert_ne by congruence. Qed.

(** X1: [compute_recommendation] reads six keys only: setting any other
    key, the charger answer for one, to any value leaves its result as it
    was. *)
Theorem recommendation_ignores_other_keys (data : gmap string pyval) (k : string) (v : pyval) :
  ~ In k (map fst defaults) ->
  compute_recommendation (<[k := v]> data) = compute_recommendation data.
Proof.
  intros Hk. unfold compute_recommendation, battery_number.
  assert (Hget : forall k' d, In k' (map fst defaults) ->
            dict_get (<[k := v]> data) k' d = dict_get data k' d).
  { intros k' d Hin. apply dict_get_insert_other. intros ->. contradiction. }
  rewrite !Hget by (simpl; tauto). reflexivity.
Qed.

Lemma recommendation_ignores_other_keys_witness :
  compute_recommendation (<["charger" := VStr "N"]> worn_battery_unit)
    = compute_recommendation worn_battery_unit.
Proof.
  apply recommendation_ignores_other_keys. simpl. intros H.
  repeat (destruct H as [H | H]; [discriminate H|]). exact H.
Defined.

(** X2: the GPU rule comes before the battery and generation rules: with
    no condition of rule 1 and a GPU field other than "None", the result
    is the high-value label whatever the battery number is, and whatever
    [_cpu_gen] holds, since the tree returns before it compares it. *)
Theorem gpu_rule_fires_first (data : gmap string pyval) :
  battery_is_str_or_int data ->
  smart_status data <> VStr "FAILED" ->
  screen_grade data <> VStr "C" ->
  chassis_grade data <> VStr "C" ->
  gpu data <> VStr "None" ->
  compute_recommendation data = Ok HIGH_VALUE.
Proof.
  intros Hbatt Hsmart Hscreen Hchassis Hgpu.
  destruct (battery_number_total data Hbatt) as [batt Hb].
  apply eq_str_false in Hsmart, Hscreen, Hchassis, Hgpu.
  unfold compute_recommendation.
  fold (smart_status data) (screen_grade data) (chassis_grade data) (gpu data).
  now rewrite Hb, Hsmart, Hscreen, Hchassis, Hgpu.
Qed.

Lemma gpu_rule_fires_first_witness :
  compute_recommendation gaming_unit = Ok HIGH_VALUE.
Proof.
  apply gpu_rule_fires_first; try discriminate.
  left. exists "N/A". reflexivity.
Defined.

(** X3: the third rule changes nothing.  When the battery number is
    [batt] and [_cpu_gen] is an integer, the result is that of the tree
    without the rule: parts for a condition of rule 1, else high value
    for a GPU, else bad battery below 60 and standard resale from 60 on;
    so the generation never changes the recommendation. *)
Theorem generation_never_matters (data : gmap string pyval) (batt g : Z) :
  battery_number data = Ok batt ->
  cpu_gen data = VInt g ->
  compute_recommendation data = Ok (three_rules data batt) /\
  forall g', compute_recommendation (<["_cpu_gen" := VInt g']> data)
             = compute_recommendation data.
Proof.
  intros Hb Hg.
  assert (Hthree : forall d b g0, battery_number d = Ok b -> cpu_gen d = VInt g0 ->
            compute_recommendation d = Ok (three_rules d b)).
  { intros d b g0 Hb' Hg'. rewrite (compute_recommendation_typed d b g0 Hb' Hg').
    unfold three_rules.
    destruct (eq_str (smart_status d) "FAILED" || eq_str (screen_grade d) "C"
              || eq_str (chassis_grade d) "C"); [reflexivity|].
    destruct (negb (eq_str (gpu d) "None")); [reflexivity|].
    destruct (Z.ltb_spec batt 60), (Z.ltb_spec 65 b), (Z.ltb_spec b 60),
      (8 <=? g0); simpl; try reflexivity; lia. }
  split; [now apply (Hthree data batt g)|].
  intros g'. rewrite (Hthree data batt g Hb Hg).
  rewrite (Hthree (<["_cpu_gen" := VInt g']> data) batt g').
  - unfold three_rules, smart_status, screen_grade, chassis_grade, gpu.
    now rewrite !dict_get_insert_other by discriminate.
  - unfold battery_number in *.
    now rewrite dict_get_insert_other by discriminate.
  - unfold cpu_gen, dict_get. now rewrite lookup_insert_eq.
Qed.

Lemma generation_never_matters_witness :
  compute_recommendation worn_battery_unit = Ok STANDARD_RESALE /\
  compute_recommendation (<["_cpu_gen" := VInt 12]> worn_battery_unit)
    = compute_recommendation worn_battery_unit.
Proof.
  destruct (generation_never_matters worn_battery_unit 62 6 eq_refl eq_refl) as [H1 H2].
  split; [exact H1 | apply H2].
Defined.

(** ** More on the CPU generation *)

Lemma digit_value_upper (c : ascii) : py_isdigit c = true -> digit_value c <= 9.
Proof.
  destruct c as [[] [] [] [] [] [] [] []]; intros H;
    solve [discriminate H | cbv; discriminate].
Qed.

Lemma int_of_one_digit (a : ascii) :
  py_isdigit a = true -> int_of (String a EmptyString) = Ok (digit_value a).
Proof.
  intros Ha. destruct (digit_facts a Ha) as (Hsp & Hminus & Hplus & _).
  unfold int_of, int_of_str. cbn [drop_while]. rewrite Hsp, Hminus, Hplus.
  unfold int_magnitude. now rewrite Ha.
Qed.

Lemma int_of_two_digits (a b : ascii) :
  py_isdigit a = true -> py_isdigit b = true ->
  int_of (String a (String b EmptyString)) = Ok (digit_value a * 10 + digit_value b).
Proof.
  intros Ha Hb. destruct (digit_facts a Ha) as (Hsp & Hminus & Hplus & _).
  unfold int_of, int_of_str. cbn [drop_while]. rewrite Hsp, Hminus, Hplus.
  unfold int_magnitude. rewrite Ha. cbn [int_digits]. now rewrite Hb.
Qed.

(** X4: the generation is at most 99 on every string, and it is 10 or
    more only when the Intel pattern captured a run of five digits: a
    model number of four digits never gives a generation above 9. *)
Theorem generation_bounds (cpu_model : string) :
  exists n, parse_cpu_generation cpu_model = Ok n /\ 0 <= n <= 99 /\
    (10 <= n ->
     exists run others,
       re_search intel_re cpu_model = Some (run :: others) /\
       String.length run = 5%nat).
Proof.
  assert (Hryzen : exists n, ryzen_generation cpu_model = Ok n /\ 0 <= n <= 9).
  { unfold ryzen_generation. destruct (re_search ryzen_re cpu_model) as [gs|] eqn:H.
    - apply ryzen_group in H as (c & -> & Hc). exists (digit_value c).
      rewrite (int_of_one_digit c Hc).
      destruct (digit_facts c Hc) as (_ & _ & _ & H0).
      pose proof (digit_value_upper c Hc). repeat split; lia.
    - exists 0. repeat split; lia. }
  unfold parse_cpu_generation.
  destruct (re_search intel_re cpu_model) as [gs|] eqn:H.
  - apply intel_group in H as (run & -> & Hall & Hlen).
    destruct (String.length run =? 4)%nat eqn:H4.
    + destruct run as [|a run]; [discriminate|]. cbn [substring].
      rewrite substring_none. simpl in Hall. apply andb_true_iff in Hall as [Ha _].
      exists (digit_value a). rewrite (int_of_one_digit a Ha).
      destruct (digit_facts a Ha) as (_ & _ & _ & H0).
      pose proof (digit_value_upper a Ha). repeat split; lia.
    + destruct (String.length run =? 5)%nat eqn:H5.
      * apply Nat.eqb_eq in H5.
        destruct run as [|a [|b run]]; try discriminate. cbn [substring].
        rewrite substring_none. simpl in Hall.
        apply andb_true_iff in Hall as [Ha Hall].
        apply andb_true_iff in Hall as [Hb _].
        exists (digit_value a * 10 + digit_value b). rewrite (int_of_two_digits a b Ha Hb).
        destruct (digit_facts a Ha) as (_ & _ & _ & H0a).
        destruct (digit_facts b Hb) as (_ & _ & _ & H0b).
        pose proof (digit_value_upper a Ha). pose proof (digit_value_upper b Hb).
        repeat split; try lia. intros _. eexists _, _. split; [reflexivity | exact H5].
      * destruct Hryzen as (n & Hn & Hr). exists n. repeat split; try lia. exact Hn.
  - destruct Hryzen as (n & Hn & Hr). exists n. repeat split; try lia. exact Hn.
Qed.

(** ** Running computations *)

Section SysFacts.
Context {W : Type}.
Variable handle : forall X : Type, event X -> W -> X * W.

Lemma exec_sys_bind {A B : Type} (p : Sys A) (f : A -> Sys B) :
  forall w,
  exec_sys handle (sbind p f) w =
    match exec_sys handle p w with
    | (Returns a, w1, calls1) =>
        let '(r, w2, calls2) := exec_sys handle (f a) w1 in
        (r, w2, (calls1 ++ calls2)%list)
    | (Raises e, w1, calls1) => (Raises e, w1, calls1)
    end.
Proof.
  induction p as [a | e | X ev k IH]; intros w; cbn [sbind exec_sys].
  - now destruct (exec_sys handle (f a) w) as [[r w2] calls2].
  - reflexivity.
  - destruct (handle X ev w) as [x w1]. rewrite IH.
    destruct (exec_sys handle (k x) w1) as [[[a | e] w2] calls1]; [|reflexivity].
    now destruct (exec_sys handle (f a) w2) as [[r w3] calls2].
Qed.

(** What a bind that returns is made of. *)
Lemma exec_sys_bind_returns {A B : Type} (p : Sys A) (f : A -> Sys B)
    (w w2 : W) (b : B) (calls : list call) :
  exec_sys handle (sbind p f) w = (Returns b, w2, calls) ->
  exists a w1 calls1 calls2,
    exec_sys handle p w = (Returns a, w1, calls1) /\
    exec_sys handle (f a) w1 = (Returns b, w2, calls2) /\
    calls = (calls1 ++ calls2)%list.
Proof.
  rewrite exec_sys_bind.
  destruct (exec_sys handle p w) as [[[a | e] w1] calls1]; [|discriminate].
  destruct (exec_sys handle (f a) w1) as [[r w3] calls2] eqn:Hf.
  intros [= -> -> <-]. now exists a, w1, calls1, calls2.
Qed.

Lemma exec_sys_of_outcome {A : Type} (o : outcome A) (w : W) :
  exec_sys handle (of_outcome o) w = (o, w, []).
Proof. destruct o; reflexivity. Qed.

Lemma exec_sys_run (cmd : string) (w w1 : W) (o : proc_outcome) :
  handle _ (SubprocessRun cmd default_timeout) w = (o, w1) ->
  exec_sys handle (run_sys cmd) w =
    (of_result (run_result o), w1, [Called (SubprocessRun cmd default_timeout)]).
Proof.
  intros H. unfold run_sys, run. cbn [of_probe exec_sys]. rewrite H.
  destruct (run_result o); reflexivity.
Qed.

Lemma exec_sys_read_file (path : string) (w w1 : W) (r : result string) :
  handle _ (ReadText path) w = (r, w1) ->
  exec_sys handle (read_file path) w =
    (match r with
     | Ok text => Returns (strip text)
     | Raise e => if derives_from_Exception e then Returns empty_str
                  else Raises (Builtin e)
     end, w1, [Called (ReadText path)]).
Proof.
  intros H. unfold read_file, trigger. cbn [sbind exec_sys]. rewrite H.
  destruct r as [text | e]; [reflexivity|].
  destruct (derives_from_Exception e); reflexivity.
Qed.

Lemma run_result_ordinary (o : proc_outcome) :
  ordinary o -> exists out, run_result o = Ok out.
Proof.
  destruct o as [rc out err | e]; simpl.
  - intros _. now exists (strip out).
  - intros ->. now exists empty_str.
Qed.

(** ** Identity *)

Lemma or_NA_not_empty (t : string) : or_NA t <> EmptyString.
Proof. destruct t; discriminate. Qed.

(** X5: [get_service_tag] and [get_model_name] never return the empty
    string.  Each spawns its own [dmidecode] command once and nothing
    else; when [run] gives a text, the result is that text, or "N/A" when
    the text is empty (the probe failed or printed nothing but white
    space); an exception that [run] lets through leaves the function. *)
Theorem identity_never_empty (w w1 w2 : W) (o1 o2 : proc_outcome) :
  handle _ (SubprocessRun "dmidecode -s system-serial-number" default_timeout) w = (o1, w1) ->
  handle _ (SubprocessRun "dmidecode -s system-product-name" default_timeout) w = (o2, w2) ->
  (forall out, run_result o1 = Ok out ->
     exec_sys handle get_service_tag w =
       (Returns (if String.eqb out EmptyString then "N/A" else out), w1,
        [Called (SubprocessRun "dmidecode -s system-serial-number" default_timeout)])) /\
  (forall out, run_result o2 = Ok out ->
     exec_sys handle get_model_name w =
       (Returns (if String.eqb out EmptyString then "N/A" else out), w2,
        [Called (SubprocessRun "dmidecode -s system-product-name" default_timeout)])) /\
  (forall e, run_result o1 = Raise e ->
     exec_sys handle get_service_tag w =
       (Raises (Builtin e), w1,
        [Called (SubprocessRun "dmidecode -s system-serial-number" default_timeout)])) /\
  (forall e, run_result o2 = Raise e ->
     exec_sys handle get_model_name w =
       (Raises (Builtin e), w2,
        [Called (SubprocessRun "dmidecode -s system-product-name" default_timeout)])) /\
  (forall tag w' calls,
     exec_sys handle get_service_tag w = (Returns tag, w', calls) -> tag <> EmptyString) /\
  (forall name w' calls,
     exec_sys handle get_model_name w = (Returns name, w', calls) -> name <> EmptyString).
Proof.
  intros H1 H2.
  assert (Hrun : forall cmd w0 o, handle _ (SubprocessRun cmd default_timeout) w = (o, w0) ->
            (forall out, run_result o = Ok out ->
               exec_sys handle (sys! t := run_sys cmd in Done (or_NA t)) w =
                 (Returns (if String.eqb out EmptyString then "N/A" else out), w0,
                  [Called (SubprocessRun cmd default_timeout)])) /\
            (forall e, run_result o = Raise e ->
               exec_sys handle (sys! t := run_sys cmd in Done (or_NA t)) w =
                 (Raises (Builtin e), w0, [Called (SubprocessRun cmd default_timeout)])) /\
            (forall t w' calls,
               exec_sys handle (sys! t := run_sys cmd in Done (or_NA t)) w
                 = (Returns t, w', calls) -> t <> EmptyString)).
  { intros cmd w0 o H. split; [|split].
    - intros out Hout. rewrite exec_sys_bind, (exec_sys_run _ _ _ _ H), Hout. cbn.
      now destruct out.
    - intros e He. now rewrite exec_sys_bind, (exec_sys_run _ _ _ _ H), He.
    - intros t w' calls Hex.
      apply exec_sys_bind_returns in Hex as (t0 & w3 & c1 & c2 & _ & Hd & _).
      cbn in Hd. injection Hd as <- _ _. apply or_NA_not_empty. }
  destruct (Hrun _ _ _ H1) as (Ha & Hb & Hc). destruct (Hrun _ _ _ H2) as (Ha' & Hb' & Hc').
  repeat split; assumption.
Qed.

(** ** Memory type *)

Lemma cut_complete (sep s : string) :
  occurs_in sep s -> exists a b, cut sep s = Some (a, b).
Proof.
  intros (pre & post & ->). induction pre as [|c pre IH].
  - cbn [String.append]. destruct (sep ++ post) eqn:E; cbn [cut].
    + assert (Hs : startswith sep EmptyString = true)
        by (apply startswith_spec; exists post; now rewrite E).
      rewrite Hs. eauto.
    + assert (Hs : startswith sep (String a s) = true)
        by (apply startswith_spec; exists post; now rewrite E).
      rewrite Hs. eauto.
  - simpl. destruct IH as (a & b & IH).
    destruct (startswith sep (String c (pre ++ sep ++ post))); [eauto|].
    rewrite IH. eauto.
Qed.

Lemma occurs_in_suffix (a b s : string) : occurs_in (a ++ b) s -> occurs_in b s.
Proof.
  intros (pre & post & ->). exists (pre ++ a), post.
  now rewrite !append_assoc.
Qed.

Lemma ram_type_scan_total (lines : list string) :
  exists v, ram_type_scan lines = Returns v.
Proof.
  induction lines as [|line rest IH]; cbn [ram_type_scan]; [now exists NA|].
  destruct (contains "Type:" line && contains "DDR" line) eqn:Hc; [|exact IH].
  apply andb_true_iff in Hc as [Ht _]. apply contains_spec in Ht.
  apply (occurs_in_suffix "Type" ":") in Ht.
  destruct (cut_complete ":" line Ht) as (a & b & Hcut).
  unfold split1. rewrite Hcut. cbn. eauto.
Qed.

Lemma ram_type_scan_none (lines : list string) :
  (forall line, In line lines ->
     ~ (occurs_in "Type:" line /\ occurs_in "DDR" line)) ->
  ram_type_scan lines = Returns NA.
Proof.
  induction lines as [|line rest IH]; intros H; cbn [ram_type_scan]; [reflexivity|].
  destruct (contains "Type:" line && contains "DDR" line) eqn:Hc.
  - apply andb_true_iff in Hc as [Ht Hd]. apply contains_spec in Ht, Hd.
    exfalso. apply (H line); [now left | now split].
  - apply IH. intros l Hl. apply H. now right.
Qed.

(** X6: [get_ram_type] never raises out of its parsing: a line that
    holds "Type:" holds a colon, so that the index 1 after the split is
    always there.  In every world where the probe ends as [run] expects,
    it returns a value, and the value is "N/A" when no line of the output
    holds both "Type:" and "DDR". *)
Theorem ram_type_never_raises (w w1 : W) (o : proc_outcome) :
  handle _ (SubprocessRun "dmidecode -t memory" default_timeout) w = (o, w1) ->
  ordinary o ->
  exists out ram_type,
    run_result o = Ok out /\
    exec_sys handle get_ram_type w =
      (Returns ram_type, w1,
       [Called (SubprocessRun "dmidecode -t memory" default_timeout)]) /\
    ((forall line, In line (splitlines out) ->
        ~ (occurs_in "Type:" line /\ occurs_in "DDR" line)) ->
     ram_type = "N/A").
Proof.
  intros H Ho. destruct (run_result_ordinary o Ho) as [out Hout].
  destruct (ram_type_scan_total (splitlines out)) as [v Hv].
  exists out, v. split; [exact Hout|]. split.
  - unfold get_ram_type. rewrite exec_sys_bind, (exec_sys_run _ _ _ _ H), Hout.
    cbn [of_result]. rewrite exec_sys_of_outcome, Hv. reflexivity.
  - intros Hnone. rewrite (ram_type_scan_none _ Hnone) in Hv. now injection Hv as <-.
Qed.
End SysFacts.

Lemma identity_never_empty_witness :
  exec_sys handle_machine get_service_tag laptop
    = (Returns "ABC1234", laptop,
       [Called (SubprocessRun "dmidecode -s system-serial-number" default_timeout)]) /\
  exec_sys handle_machine get_model_name laptop
    = (Returns "Latitude 7400", laptop,
       [Called (SubprocessRun "dmidecode -s system-product-name" default_timeout)]).
Proof.
  destruct (identity_never_empty handle_machine laptop laptop laptop _ _ eq_refl eq_refl)
    as (Htag & Hname & _).
  split; [apply (Htag "ABC1234" eq_refl) | apply (Hname "Latitude 7400" eq_refl)].
Defined.

Lemma ram_type_never_raises_witness :
  exists out ram_type,
    exec_sys handle_machine get_ram_type laptop
      = (Returns ram_type, laptop,
         [Called (SubprocessRun "dmidecode -t memory" default_timeout)]) /\
    out <> EmptyString.
Proof.
  destruct (ram_type_never_raises handle_machine laptop laptop _ eq_refl I)
    as (out & ram_type & Hout & Hexec & _).
  exists out, ram_type. split; [exact Hexec|].
  injection Hout as <-. discriminate.
Defined.

(** ** The discrete GPU *)

Lemma is_gpu_line_spec (line : string) : is_gpu_line line = true <-> gpu_words line.
Proof.
  unfold is_gpu_line, gpu_words.
  rewrite orb_true_iff, andb_true_iff, !contains_spec. reflexivity.
Qed.

Lemma skip_append (a b : string) : skip (String.length a) (a ++ b) = b.
Proof. induction a as [|c a IH]; simpl; [reflexivity | exact IH]. Qed.

Lemma startswith_skip (sep s : string) :
  startswith sep s = true -> s = sep ++ skip (String.length sep) s.
Proof.
  intros H. apply startswith_spec in H as [post ->]. now rewrite skip_append.
Qed.

Lemma cut_sound (sep s a b : string) : cut sep s = Some (a, b) -> s = a ++ sep ++ b.
Proof.
  revert a b. induction s as [|c s IH]; intros a b; cbn [cut].
  - destruct (startswith sep EmptyString) eqn:Hs; [|discriminate].
    intros [= <- <-]. now apply startswith_skip.
  - destruct (startswith sep (String c s)) eqn:Hs.
    + intros [= <- <-]. now apply startswith_skip.
    + destruct (cut sep s) as [[a' b']|]; [|discriminate].
      intros [= <- <-]. simpl. now rewrite <- (IH a' b' eq_refl).
Qed.

(** [cut] finds the first occurrence. *)
Lemma cut_first (sep a b : string) :
  (forall pre post, a ++ sep ++ b = pre ++ sep ++ post ->
     (String.length a <= String.length pre)%nat) ->
  cut sep (a ++ sep ++ b) = Some (a, b).
Proof.
  induction a as [|c a IH]; intros Hfirst.
  - cbn [String.append].
    assert (Hs : startswith sep (sep ++ b) = true)
      by (apply startswith_spec; now exists b).
    destruct (sep ++ b) eqn:E; cbn [cut]; rewrite Hs, <- E, skip_append; reflexivity.
  - cbn [String.append cut].
    destruct (startswith sep (String c (a ++ sep ++ b))) eqn:Hs.
    + exfalso. apply startswith_spec in Hs as [post Hs].
      specialize (Hfirst EmptyString post Hs). simpl in Hfirst. lia.
    + rewrite IH; [reflexivity|].
      intros pre post H. specialize (Hfirst (String c pre) post).
      simpl in Hfirst. rewrite H in Hfirst. specialize (Hfirst eq_refl). lia.
Qed.

Lemma cut_none (sep s : string) : ~ occurs_in sep s -> cut sep s = None.
Proof.
  intros H. destruct (cut sep s) as [[a b]|] eqn:Hc; [|reflexivity].
  exfalso. apply H. exists a, b. now apply cut_sound.
Qed.

Lemma gpu_scan_none (lines : list string) :
  (forall l, In l lines -> ~ gpu_words l) -> gpu_scan lines = "None".
Proof.
  induction lines as [|line rest IH]; intros H; cbn [gpu_scan]; [reflexivity|].
  destruct (is_gpu_line line) eqn:Hg.
  - exfalso. apply (H line); [now left | now apply is_gpu_line_spec].
  - apply IH. intros l Hl. apply H. now right.
Qed.

Lemma gpu_scan_first (before after : list string) (line : string) :
  (forall l, In l before -> ~ gpu_words l) -> gpu_words line ->
  gpu_scan (before ++ line :: after) =
    match cut ": " line with
    | Some (_, description) => strip description
    | None => "Discrete GPU"
    end.
Proof.
  intros Hb Hl. induction before as [|l before IH]; cbn [app gpu_scan].
  - apply is_gpu_line_spec in Hl. rewrite Hl. unfold split1.
    now destruct (cut ": " line) as [[a d]|].
  - destruct (is_gpu_line l) eqn:Hg.
    + exfalso. apply (Hb l); [now left | now apply is_gpu_line_spec].
    + apply IH. intros l' Hl'. apply Hb. now right.
Qed.

(** X7: [get_discrete_gpu] returns "None" when no line of [lspci] holds
    "nvidia", or "amd" and "radeon", in any case of letters, and also when
    the probe fails; otherwise the first such line decides alone: the
    result is the trimmed text after its first ": ", or "Discrete GPU"
    when it has none. *)
Theorem gpu_first_line_decides {W : Type} (handle : forall X : Type, event X -> W -> X * W)
    (w w1 : W) (o : proc_outcome) (out : string) :
  handle _ (SubprocessRun "lspci" default_timeout) w = (o, w1) ->
  run_result o = Ok out ->
  exists name,
    exec_sys handle get_discrete_gpu w =
      (Returns name, w1, [Called (SubprocessRun "lspci" default_timeout)]) /\
    ((forall l, In l (splitlines out) -> ~ gpu_words l) -> name = "None") /\
    (forall before line after,
       splitlines out = (before ++ line :: after)%list ->
       (forall l, In l before -> ~ gpu_words l) -> gpu_words line ->
       (forall a description, line = a ++ ": " ++ description ->
          (forall pre post, line = pre ++ ": " ++ post ->
             (String.length a <= String.length pre)%nat) ->
          name = strip description) /\
       (~ occurs_in ": " line -> name = "Discrete GPU")).
Proof.
  intros H Hout. exists (gpu_scan (splitlines out)). split; [|split].
  - unfold get_discrete_gpu. rewrite exec_sys_bind, (exec_sys_run _ _ _ _ _ H), Hout.
    reflexivity.
  - apply gpu_scan_none.
  - intros before line after -> Hb Hl. rewrite (gpu_scan_first _ _ _ Hb Hl). split.
    + intros a description -> Hfirst. now rewrite cut_first.
    + intros Hno. now rewrite (cut_none _ _ Hno).
Qed.

Lemma gpu_first_line_decides_witness :
  exists name,
    exec_sys handle_machine get_discrete_gpu laptop =
      (Returns name, laptop, [Called (SubprocessRun "lspci" default_timeout)]) /\
    name = "None".
Proof.
  destruct (gpu_first_line_decides handle_machine laptop laptop _ _ eq_refl eq_refl)
    as (name & Hexec & Hnone & _).
  exists name. split; [exact Hexec|]. apply Hnone.
  intros l [<- | []]. intros [H | [H _]]; apply contains_spec in H; discriminate H.
Defined.

(** ** CPU name and thread count *)

Lemma cpu_line_cores (model : string) (cores : Z) (line : string) (st' : string * Z) :
  cpu_line (model, cores) line = Returns st' ->
  snd st' = if startswith "processor" line then cores + 1 else cores.
Proof.
  unfold cpu_line.
  destruct (startswith "model name" line && String.eqb model NA).
  - destruct (index (split1 ":" line) 1); [|discriminate]. cbn. now intros [= <-].
  - cbn. now intros [= <-].
Qed.

Lemma cpu_scan_cores (lines : list string) :
  forall model cores st,
  cpu_scan (model, cores) lines = Returns st ->
  snd st = cores + Z.of_nat (length (List.filter (startswith "processor") lines)).
Proof.
  induction lines as [|line rest IH]; intros model cores st; cbn [cpu_scan List.filter].
  - intros [= <-]. simpl. lia.
  - destruct (cpu_line (model, cores) line) as [[m c]|] eqn:Hl; [|discriminate].
    cbn [obind]. intros H. apply IH in H. apply cpu_line_cores in Hl. cbn [snd] in Hl.
    rewrite H, Hl. destruct (startswith "processor" line); cbn [length]; lia.
Qed.

Lemma cpu_scan_total (lines : list string) :
  (forall l, In l lines -> startswith "model name" l = true -> occurs_in ":" l) ->
  forall st, exists st', cpu_scan st lines = Returns st'.
Proof.
  induction lines as [|line rest IH]; intros Hcolon [model cores]; cbn [cpu_scan].
  - eauto.
  - assert (Hline : exists st1, cpu_line (model, cores) line = Returns st1).
    { unfold cpu_line.
      destruct (startswith "model name" line) eqn:Hm; cbn [andb]; [|cbn; eauto].
      destruct (String.eqb model NA); [|cbn; eauto].
      destruct (cut_complete ":" line (Hcolon line (or_introl eq_refl) Hm)) as (a & b & Hc).
      unfold split1. rewrite Hc. cbn. eauto. }
    destruct Hline as [st1 ->]. cbn [obind].
    apply IH. intros l Hl. apply Hcolon. now right.
Qed.

Lemma cpu_scan_no_colon (before after : list string) (line : string) (cores : Z) :
  (forall l, In l before -> startswith "model name" l = false) ->
  startswith "model name" line = true -> ~ occurs_in ":" line ->
  cpu_scan (NA, cores) (before ++ line :: after) = Raises IndexError.
Proof.
  revert cores. induction before as [|l before IH]; intros cores Hb Hm Hno;
    cbn [app cpu_scan].
  - unfold cpu_line. rewrite Hm. cbn [andb String.eqb NA].
    unfold split1. rewrite (cut_none _ _ Hno). reflexivity.
  - unfold cpu_line at 1. rewrite (Hb l (or_introl eq_refl)). cbn [andb obind].
    apply IH; [|exact Hm | exact Hno]. intros l' Hl'. apply Hb. now right.
Qed.

(** X8: [get_cpu_info] counts the lines of [/proc/cpuinfo] that start
    with "processor": when every line that starts with "model name"
    holds a colon it returns, and the count it returns is the number of
    those lines; when the file cannot be read it returns "N/A" and 0. *)
Theorem cpu_info_counts_processors {W : Type}
    (handle : forall X : Type, event X -> W -> X * W) (w w1 : W) (r : result string) :
  handle _ (ReadText "/proc/cpuinfo") w = (r, w1) ->
  (forall e, r = Raise e -> derives_from_Exception e = true ->
     exec_sys handle get_cpu_info w = (Returns ("N/A", 0), w1, [Called (ReadText "/proc/cpuinfo")])) /\
  (forall text, r = Ok text ->
     (forall l, In l (splitlines (strip text)) ->
        startswith "model name" l = true -> occurs_in ":" l) ->
     exists model,
       exec_sys handle get_cpu_info w =
         (Returns (model,
                   Z.of_nat (length (List.filter (startswith "processor")
                                       (splitlines (strip text))))),
          w1, [Called (ReadText "/proc/cpuinfo")])).
Proof.
  intros H. split.
  - intros e -> He. unfold get_cpu_info.
    rewrite exec_sys_bind, (exec_sys_read_file _ _ _ _ _ H), He. reflexivity.
  - intros text -> Hcolon.
    destruct (cpu_scan_total _ Hcolon (NA, 0)) as [[model cores] Hscan].
    pose proof (cpu_scan_cores _ _ _ _ Hscan) as Hc. simpl in Hc. subst cores.
    exists model. unfold get_cpu_info.
    rewrite exec_sys_bind, (exec_sys_read_file _ _ _ _ _ H). cbn iota.
    now rewrite exec_sys_of_outcome, Hscan.
Qed.

Lemma cpu_info_counts_processors_witness :
  exists model,
    exec_sys handle_machine get_cpu_info laptop =
      (Returns (model, 2), laptop, [Called (ReadText "/proc/cpuinfo")]).
Proof.
  destruct (proj2 (cpu_info_counts_processors handle_machine laptop laptop _ eq_refl)
              _ eq_refl) as [model H].
  - intros l Hl Hm. apply contains_spec.
    simpl in Hl. repeat (destruct Hl as [<- | Hl]; [try discriminate Hm; reflexivity|]).
    contradiction.
  - exists model. exact H.
Defined.

(** X9: a line that starts with "model name" and holds no colon, met
    before any model was read, makes [get_cpu_info] raise [IndexError]:
    the split gives one piece and the code takes the second. *)
Theorem cpu_info_needs_colon {W : Type}
    (handle : forall X : Type, event X -> W -> X * W) (w w1 : W) (text : string)
    (before after : list string) (line : string) :
  handle _ (ReadText "/proc/cpuinfo") w = (Ok text, w1) ->
  splitlines (strip text) = (before ++ line :: after)%list ->
  (forall l, In l before -> startswith "model name" l = false) ->
  startswith "model name" line = true ->
  ~ occurs_in ":" line ->
  exec_sys handle get_cpu_info w = (Raises IndexError, w1, [Called (ReadText "/proc/cpuinfo")]).
Proof.
  intros H Hlines Hb Hm Hno. unfold get_cpu_info.
  rewrite exec_sys_bind, (exec_sys_read_file _ _ _ _ _ H). cbn iota.
  rewrite exec_sys_of_outcome, Hlines, (cpu_scan_no_colon _ _ _ _ Hb Hm Hno).
  reflexivity.
Qed.

Lemma cpu_info_needs_colon_witness :
  exec_sys handle_machine get_cpu_info cut_cpuinfo
    = (Raises IndexError, cut_cpuinfo, [Called (ReadText "/proc/cpuinfo")]).
Proof.
  apply (cpu_info_needs_colon handle_machine cut_cpuinfo cut_cpuinfo _
           ["processor : 0"] [] "model name" eq_refl eq_refl).
  - intros l [<- | []]. reflexivity.
  - reflexivity.
  - intros H. apply contains_spec in H. discriminate H.
Defined.

(** ** The display *)

Lemma resolution_groups (line : string) (gs : list string) :
  re_search resolution_re line = Some gs ->
  exists g1 g2, gs = [g1; g2] /\
    all_chars py_isdigit g1 = true /\ g1 <> EmptyString /\
    all_chars py_isdigit g2 = true /\ g2 <> EmptyString.
Proof.
  intros H. apply re_search_sound in H as (pre & suf & _ & H).
  unfold resolution_re in H.
  apply match_here_cons in H as (g1 & tail1 & gs1 & _ & Hall1 & Hlo1 & _ & H & ->).
  skip_item H.
  apply match_here_cons in H as (g2 & tail2 & gs2 & _ & Hall2 & Hlo2 & _ & H & ->).
  cbn in H. injection H as <-. cbn in *.
  exists g1, g2. repeat split; auto.
  - intros ->. simpl in Hlo1. lia.
  - intros ->. simpl in Hlo2. lia.
Qed.

(** One line keeps the pair or replaces it by a mode of a larger area. *)
Lemma mode_line_step (best : Z * Z) (line : string) :
  no_mode_or_positive best ->
  exists best',
    mode_line best line = Returns best' /\
    no_mode_or_positive best' /\
    area best <= area best' /\
    (forall w h, mode_of line w h -> w * h <= area best') /\
    (best' = best \/ mode_of line (fst best') (snd best')).
Proof.
  intros Hbest. unfold mode_line.
  destruct (re_search resolution_re line) as [gs|] eqn:Hre.
  - destruct (resolution_groups line gs Hre) as (g1 & g2 & -> & Hd1 & Hn1 & Hd2 & Hn2).
    destruct (int_of_digits g1 Hn1 Hd1) as (w & Hw & Hw0).
    destruct (int_of_digits g2 Hn2 Hd2) as (h & Hh & Hh0).
    rewrite Hw, Hh. cbn [of_result obind].
    assert (Hmode : forall w' h', mode_of line w' h' -> w' = w /\ h' = h).
    { intros w' h' (g1' & g2' & Hre' & Hw' & Hh'). rewrite Hre in Hre'.
      injection Hre' as <- <-. split; congruence. }
    destruct (Z.ltb_spec (fst best * snd best) (w * h)) as [Hlt | Hge].
    + exists (w, h). repeat split.
      * right. unfold area in *. simpl.
        destruct Hbest as [-> | [? ?]]; simpl in Hlt; nia.
      * unfold area. simpl. lia.
      * intros w' h' Hm. destruct (Hmode w' h' Hm) as [-> ->]. unfold area. simpl. lia.
      * right. simpl. now exists g1, g2.
    + exists best. repeat split; auto.
      * lia.
      * intros w' h' Hm. destruct (Hmode w' h' Hm) as [-> ->]. unfold area. lia.
  - exists best. repeat split; auto.
    + lia.
    + intros w h (g1 & g2 & Hre' & _). congruence.
Qed.

(** X10: the loop of [get_screen_resolution] over the lines of a text
    never raises and keeps the largest mode: it ends on the start pair
    or on the mode of one of the lines, the pair is never of a zero width
    with a height or the reverse, and no line holds a mode of a larger
    area than the pair it ends on. *)
Theorem mode_scan_keeps_largest (lines : list string) :
  forall best0, no_mode_or_positive best0 ->
  exists best,
    mode_scan best0 lines = Returns best /\
    no_mode_or_positive best /\
    area best0 <= area best /\
    (forall line w h, In line lines -> mode_of line w h -> w * h <= area best) /\
    (best = best0 \/ exists line, In line lines /\ mode_of line (fst best) (snd best)).
Proof.
  induction lines as [|line rest IH]; intros best0 H0; cbn [mode_scan].
  - exists best0. repeat split; auto; [lia | intros ? ? ? []].
  - destruct (mode_line_step best0 line H0) as (best1 & -> & H1 & Ha1 & Hmax1 & Hfrom1).
    cbn [obind].
    destruct (IH best1 H1) as (best & Hscan & Hb & Ha & Hmax & Hfrom).
    exists best. repeat split; auto.
    + lia.
    + intros l w h [<- | Hl] Hm; [|now apply (Hmax l)].
      specialize (Hmax1 w h Hm). lia.
    + destruct Hfrom as [-> | (l & Hl & Hm)].
      * destruct Hfrom1 as [-> | Hm]; [now left|].
        right. exists line. split; [now left | exact Hm].
      * right. exists l. split; [now right | exact Hm].
Qed.

Lemma mode_scan_keeps_largest_witness :
  exists best,
    mode_scan (0, 0) ["1920x1080 60.00"; "3840x2160 30.00"; "no mode"] = Returns best /\
    1920 * 1080 <= area best.
Proof.
  destruct (mode_scan_keeps_largest ["1920x1080 60.00"; "3840x2160 30.00"; "no mode"]
              (0, 0) (or_introl eq_refl)) as (best & Hscan & _ & _ & Hmax & _).
  exists best. split; [exact Hscan|].
  apply (Hmax "1920x1080 60.00"); [now left|].
  exists "1920", "1080". repeat split.
Defined.

Section Display.
Context {W : Type}.
Variable handle : forall X : Type, event X -> W -> X * W.

Lemma drm_scan_returns (files : list string) :
  tame handle ->
  forall best w, no_mode_or_positive best ->
  exists best' w' calls,
    exec_sys handle (drm_scan best files) w = (Returns best', w', calls) /\
    no_mode_or_positive best' /\ acts calls = [].
Proof.
  intros [_ Hread]. induction files as [|f rest IH]; intros best w Hb; cbn [drm_scan].
  - exists best, w, []. now repeat split.
  - rewrite exec_sys_bind.
    destruct (handle _ (ReadText f) w) as [r w1] eqn:Hr.
    rewrite (exec_sys_read_file _ _ _ _ _ Hr).
    assert (Hcontent : exists content,
              match r with
              | Ok text => Returns (strip text)
              | Raise e => if derives_from_Exception e then Returns empty_str
                           else Raises (Builtin e)
              end = Returns content).
    { destruct r as [text | e]; [eauto|].
      specialize (Hread f w e). rewrite Hr in Hread. rewrite (Hread eq_refl). eauto. }
    destruct Hcontent as [content ->].
    destruct (mode_scan_keeps_largest (splitlines content) best Hb)
      as (best1 & Hscan & Hb1 & _).
    rewrite exec_sys_bind, exec_sys_of_outcome, Hscan.
    destruct (IH best1 w1 Hb1) as (best' & w' & calls & -> & Hb' & Hacts).
    exists best', w', (Called (ReadText f) :: calls). now repeat split.
Qed.

(** X11: in a world where probes and reads end as [run] and [read_file]
    expect, [get_screen_resolution] returns: either "N/A" twice, or a
    positive width and height as "WxH" with the class "4K/Retina Class"
    when the width is above 2500 and "Standard" otherwise.  It looks at
    the graphics cards only when [xrandr] gave no mode, and runs nothing
    but probes and reads. *)
Theorem screen_resolution_classes (w : W) :
  tame handle ->
  exists res cls w' calls,
    exec_sys handle get_screen_resolution w = (Returns (res, cls), w', calls) /\
    acts calls = [] /\
    ((res = "N/A" /\ cls = "N/A") \/
     exists width height,
       0 < width /\ 0 < height /\
       res = str_of_int width ++ "x" ++ str_of_int height /\
       cls = (if 2500 <? width then "4K/Retina Class" else "Standard")) /\
    (forall o w1 out best,
       handle _ (SubprocessRun "xrandr 2>/dev/null" default_timeout) w = (o, w1) ->
       run_result o = Ok out ->
       mode_scan (0, 0) (splitlines out) = Returns best -> fst best <> 0 ->
       calls = [Called (SubprocessRun "xrandr 2>/dev/null" default_timeout)]).
Proof.
  intros Htame. pose proof Htame as [Hrun Hread].
  destruct (handle _ (SubprocessRun "xrandr 2>/dev/null" default_timeout) w)
    as [o w1] eqn:Ho.
  pose proof (Hrun "xrandr 2>/dev/null" default_timeout w) as Hord.
  rewrite Ho in Hord. destruct (run_result_ordinary o Hord) as [out Hout].
  destruct (mode_scan_keeps_largest (splitlines out) (0, 0) (or_introl eq_refl))
    as (best & Hscan & Hb & _).
  assert (Hres : forall b, no_mode_or_positive b ->
            (fst (resolution_of b) = "N/A" /\ snd (resolution_of b) = "N/A") \/
            exists width height,
              0 < width /\ 0 < height /\
              fst (resolution_of b) = str_of_int width ++ "x" ++ str_of_int height /\
              snd (resolution_of b)
                = (if 2500 <? width then "4K/Retina Class" else "Standard")).
  { intros b [-> | [Hw Hh]]; [now left|]. right. exists (fst b), (snd b).
    unfold resolution_of. destruct (Z.eqb_spec (fst b) 0); [lia|]. now repeat split. }
  unfold get_screen_resolution.
  rewrite exec_sys_bind, (exec_sys_run _ _ _ _ _ Ho), Hout. cbn [of_result].
  rewrite exec_sys_bind, exec_sys_of_outcome, Hscan. rewrite exec_sys_bind.
  destruct (Z.eqb_spec (fst best) 0) as [Hzero | Hfound].
  - cbn [trigger sbind exec_sys].
    destruct (handle _ (PathExists "/sys/class/drm") w1) as [found w2] eqn:Hf.
    destruct found.
    + cbn [sbind exec_sys].
      destruct (handle _ (Glob "/sys/class/drm" "*/modes") w2) as [files w3] eqn:Hg.
      destruct (drm_scan_returns files Htame best w3 Hb)
        as (best' & w' & calls & Hdrm & Hb' & Hacts).
      replace (sbind (Done files) (fun files0 => drm_scan best files0))
        with (drm_scan best files) by reflexivity.
      rewrite Hdrm. cbn [exec_sys].
      destruct (resolution_of best') as [res cls] eqn:Hr.
      exists res, cls, w'. eexists. split; [reflexivity|]. split; [|split].
      * cbn. rewrite !app_nil_r. exact Hacts.
      * specialize (Hres best' Hb'). now rewrite Hr in Hres.
      * intros o' w1' out' best0 [= <- <-] Hout'. rewrite Hout in Hout'.
        injection Hout' as <-. rewrite Hscan. intros [= <-]. contradiction.
    + cbn [sbind exec_sys].
      destruct (resolution_of best) as [res cls] eqn:Hr.
      exists res, cls, w2. eexists. split; [reflexivity|]. split; [|split].
      * reflexivity.
      * specialize (Hres best Hb). now rewrite Hr in Hres.
      * intros o' w1' out' best0 [= <- <-] Hout'. rewrite Hout in Hout'.
        injection Hout' as <-. rewrite Hscan. intros [= <-]. contradiction.
  - cbn [exec_sys].
    destruct (resolution_of best) as [res cls] eqn:Hr.
    exists res, cls, w1. eexists. split; [reflexivity|]. split; [|split].
    + reflexivity.
    + specialize (Hres best Hb). now rewrite Hr in Hres.
    + intros. reflexivity.
Qed.
End Display.

Lemma handle_machine_tame : tame handle_machine.
Proof.
  split.
  - intros cmd t m. simpl. now destruct (assoc cmd (outputs m)).
  - intros path m e. simpl. destruct (assoc path (files m)); [discriminate|].
    now intros [= <-].
Qed.

Lemma screen_resolution_classes_witness :
  exists res cls w' calls,
    exec_sys handle_machine get_screen_resolution laptop = (Returns (res, cls), w', calls) /\
    calls = [Called (SubprocessRun "xrandr 2>/dev/null" default_timeout)].
Proof.
  destruct (screen_resolution_classes handle_machine laptop handle_machine_tame)
    as (res & cls & w' & calls & Hexec & _ & _ & Hxrandr).
  exists res, cls, w', calls. split; [exact Hexec|].
  apply (Hxrandr _ laptop _ (1920, 1080) eq_refl eq_refl eq_refl). discriminate.
Defined.

(** ** The boot medium and the primary disk *)

(** A run of digits up to [$]: the item takes the whole run, and shorter
    takes leave a digit before the end. *)
Lemma rep_digits_to_end (s : string) :
  forall lo,
  rep_greedy py_isdigit lo None s (fun _ rest => to_end rest) =
    if (lo <=? run_length py_isdigit s)%nat && at_end (drop_while py_isdigit s)
    then Some (drop_while py_isdigit s) else None.
Proof.
  induction s as [|c s IH]; intros lo; cbn [rep_greedy run_length drop_while].
  - destruct lo; reflexivity.
  - destruct (py_isdigit c) eqn:Hc; cbn [andb may_take].
    + rewrite IH. change (Nat.pred <$> None) with (@None nat).
      destruct (at_end (drop_while py_isdigit s)) eqn:He.
      * rewrite !andb_true_r.
        destruct (Nat.leb_spec (Nat.pred lo) (run_length py_isdigit s)) as [Hle | Hgt].
        -- destruct (Nat.leb_spec lo (S (run_length py_isdigit s))); [reflexivity | lia].
        -- destruct (Nat.leb_spec lo (S (run_length py_isdigit s))); [lia|].
           destruct lo; [lia | reflexivity].
      * rewrite !andb_false_r. destruct lo; [|reflexivity].
        unfold to_end, at_end. cbn [String.eqb]. unfold LF.
        destruct s; cbn [String.eqb];
          destruct (Ascii.eqb_spec c (chr 10)); try reflexivity.
        subst c. discriminate Hc.
    + destruct lo; [|reflexivity]. reflexivity.
Qed.

(** The pattern [p?\d+$] at the start of a text. *)
Lemma match_partition (s : string) :
  match_then partition_re s to_end =
    match s with
    | String c s' =>
        if Ascii.eqb "p" c then
          match rep_greedy py_isdigit 1 None s' (fun _ rest => to_end rest) with
          | Some r => Some r
          | None => rep_greedy py_isdigit 1 None s (fun _ rest => to_end rest)
          end
        else rep_greedy py_isdigit 1 None s (fun _ rest => to_end rest)
    | EmptyString => None
    end.
Proof.
  unfold partition_re. cbn [match_then item_class item_min item_max].
  destruct s as [|c s]; [reflexivity|].
  cbn [rep_greedy]. destruct (Ascii.eqb "p" c); cbn [andb may_take]; [|reflexivity].
  destruct s as [|c' s]; cbn [rep_greedy fmap option_fmap option_map Nat.pred];
    [reflexivity|].
  rewrite andb_false_r. reflexivity.
Qed.

Lemma strip_partition_unfold (s : string) :
  strip_partition s =
    match match_then partition_re s to_end with
    | Some rest => rest
    | None =>
        match s with
        | EmptyString => EmptyString
        | String c s' => String c (strip_partition s')
        end
    end.
Proof. destruct s; reflexivity. Qed.

Lemma digits_reach_end (digits : string) :
  digits <> EmptyString -> all_chars py_isdigit digits = true ->
  rep_greedy py_isdigit 1 None digits (fun _ rest => to_end rest) = Some EmptyString.
Proof.
  intros Hne Hall. rewrite rep_digits_to_end.
  assert (Hdrop : forall t, all_chars py_isdigit t = true ->
            drop_while py_isdigit t = EmptyString).
  { induction t as [|c t IH]; simpl; [reflexivity|].
    intros H. apply andb_true_iff in H as [-> H]. now apply IH. }
  rewrite (Hdrop _ Hall). destruct digits as [|c d]; [congruence|].
  simpl in Hall. apply andb_true_iff in Hall as [Hc _].
  cbn [run_length]. now rewrite Hc.
Qed.

Lemma at_end_two (a b : ascii) (s : string) : at_end (String a (String b s)) = false.
Proof.
  unfold at_end, LF.
  destruct (String.eqb_spec (String a (String b s)) EmptyString) as [H | _];
    [discriminate H|].
  destruct (String.eqb_spec (String a (String b s)) (String (chr 10) EmptyString))
    as [H | _]; [discriminate H | reflexivity].
Qed.

(** After a text that ends on a character that is no digit, digits do
    not make the whole a run of digits up to the end. *)
Lemma digits_blocked (x digits : string) :
  x <> EmptyString ->
  (forall c, last_char x = Some c -> py_isdigit c = false) ->
  digits <> EmptyString ->
  rep_greedy py_isdigit 1 None (x ++ digits) (fun _ rest => to_end rest) = None.
Proof.
  intros Hx Hlast Hd. rewrite rep_digits_to_end.
  enough (He : at_end (drop_while py_isdigit (x ++ digits)) = false)
    by (now rewrite He, andb_false_r).
  induction x as [|a x IH]; [congruence|].
  destruct x as [|b x].
  - cbn [String.append drop_while]. rewrite (Hlast a eq_refl).
    destruct digits as [|d ds]; [congruence|]. apply at_end_two.
  - cbn [String.append drop_while]. destruct (py_isdigit a).
    + apply IH; [discriminate|]. intros c Hc. apply Hlast. exact Hc.
    + apply at_end_two.
Qed.

Lemma not_digit_p : py_isdigit "p" = false.
Proof. reflexivity. Qed.

(** X12: the parent of a partition path.  For a text that ends with a
    run of digits after a character that is no digit, [strip_partition],
    the [re.sub] of [get_primary_disk], gives the text before the digits
    without a final letter p: [/dev/sdb1] gives [/dev/sdb] and
    [/dev/nvme0n1p1] gives [/dev/nvme0n1]. *)
Theorem strip_partition_removes_number (base digits : string) :
  digits <> EmptyString ->
  all_chars py_isdigit digits = true ->
  (forall c, last_char base = Some c -> py_isdigit c = false) ->
  strip_partition (base ++ digits) = chop_p base.
Proof.
  intros Hd Hall. induction base as [|c base IH]; intros Hlast.
  - cbn [String.append chop_p]. rewrite strip_partition_unfold, match_partition.
    destruct digits as [|d ds]; [congruence|].
    assert (Hdig : py_isdigit d = true)
      by (simpl in Hall; now apply andb_true_iff in Hall as [? _]).
    destruct (Ascii.eqb_spec "p" d) as [<- | _]; [discriminate Hdig|].
    now rewrite (digits_reach_end _ Hd Hall).
  - cbn [String.append]. rewrite strip_partition_unfold, match_partition.
    destruct base as [|b base].
    + cbn [String.append chop_p]. cbn [last_char] in Hlast.
      specialize (Hlast c eq_refl).
      rewrite (digits_reach_end _ Hd Hall).
      destruct (Ascii.eqb_spec "p" c) as [<- | Hp].
      * reflexivity.
      * pose proof (digits_blocked (String c EmptyString) digits ltac:(discriminate)) as Hb.
        cbn [String.append] in Hb. rewrite Hb; [|intros c' [= <-]; exact Hlast | exact Hd].
        specialize (IH ltac:(intros ? [=])). cbn [String.append chop_p] in IH.
        rewrite IH. destruct (Ascii.eqb_spec c "p"); [congruence | reflexivity].
    + assert (Hlast' : forall c', last_char (String b base) = Some c' ->
                py_isdigit c' = false) by (intros c' Hc'; apply Hlast; exact Hc').
      pose proof (digits_blocked (String c (String b base)) digits
                    ltac:(discriminate) Hlast Hd) as Hb1.
      pose proof (digits_blocked (String b base) digits
                    ltac:(discriminate) Hlast' Hd) as Hb2.
      cbn [String.append] in Hb1, Hb2 |- *. rewrite Hb1, Hb2.
      specialize (IH Hlast'). cbn [String.append] in IH. rewrite IH.
      destruct (Ascii.eqb "p" c); reflexivity.
Qed.

Lemma strip_partition_removes_number_witness :
  strip_partition "/dev/sdb1" = "/dev/sdb" /\
  strip_partition "/dev/nvme0n1p12" = "/dev/nvme0n1".
Proof.
  split.
  - apply (strip_partition_removes_number "/dev/sdb" "1"); [discriminate | reflexivity|].
    intros c [= <-]. reflexivity.
  - apply (strip_partition_removes_number "/dev/nvme0n1p" "12");
      [discriminate | reflexivity|].
    intros c [= <-]. reflexivity.
Defined.

Lemma split_ws_words (s : string) : Forall (fun word => word <> EmptyString) (split_ws s).
Proof.
  induction s as [|c s IH]; cbn [split_ws]; [constructor|].
  destruct (py_isspace c); [exact IH|].
  destruct s as [|d s]; [repeat constructor; discriminate|].
  destruct (py_isspace d).
  - constructor; [discriminate | exact IH].
  - destruct (split_ws (String d s)) as [|word words].
    + repeat constructor. discriminate.
    + inversion IH; subst. constructor; [discriminate | assumption].
Qed.

Lemma live_device_spec (lines : list string) (dev : string) :
  live_device lines = Some dev ->
  dev <> EmptyString /\
  exists line mnt more,
    In line lines /\ split_ws line = dev :: mnt :: more /\ In mnt live_mounts.
Proof.
  induction lines as [|line rest IH]; cbn [live_device]; [discriminate|].
  destruct (split_ws line) as [|d [|mnt more]] eqn:Hs.
  - intros H. destruct (IH H) as (Hd & l & m & mo & Hin & Hl & Hm).
    split; [exact Hd|]. exists l, m, mo. auto using in_cons.
  - intros H. destruct (IH H) as (Hd & l & m & mo & Hin & Hl & Hm).
    split; [exact Hd|]. exists l, m, mo. auto using in_cons.
  - destruct (existsb (String.eqb mnt) live_mounts) eqn:He.
    + intros [= <-]. split.
      * pose proof (split_ws_words line) as Hw. rewrite Hs in Hw. now inversion Hw.
      * exists line, mnt, more. repeat split; auto using in_eq.
        apply existsb_exists in He as (x & Hx & Heq).
        apply String.eqb_eq in Heq. now subst.
    + intros H. destruct (IH H) as (Hd & l & m & mo & Hin & Hl & Hm).
      split; [exact Hd|]. exists l, m, mo. auto using in_cons.
Qed.

(** The first line that names a live mount point decides. *)
Lemma live_device_first (before after more : list string) (line dev mnt : string) :
  (forall l d m rest,
     In l before -> split_ws l = d :: m :: rest ->
     ~ In m ["/run/archiso/bootmnt"; "/run/initramfs/live"; "/cdrom"; "/live/image"]) ->
  split_ws line = dev :: mnt :: more ->
  In mnt ["/run/archiso/bootmnt"; "/run/initramfs/live"; "/cdrom"; "/live/image"] ->
  live_device (before ++ line :: after) = Some dev.
Proof.
  intros Hbefore Hline Hmnt.
  induction before as [|l before IH]; cbn [app live_device].
  - rewrite Hline.
    assert (He : existsb (String.eqb mnt) live_mounts = true).
    { apply existsb_exists. exists mnt. split; [exact Hmnt | apply String.eqb_refl]. }
    now rewrite He.
  - assert (IH' : live_device (before ++ line :: after) = Some dev).
    { apply IH. intros l' d m rest Hin. apply Hbefore. now right. }
    destruct (split_ws l) as [|d [|m rest]] eqn:Hs; try exact IH'.
    destruct (existsb (String.eqb m) live_mounts) eqn:He; [|exact IH'].
    exfalso. apply existsb_exists in He as (x & Hx & Heq).
    apply String.eqb_eq in Heq. subst x.
    exact (Hbefore l d m rest (or_introl eq_refl) Hs Hx).
Qed.

Lemma disk_scan_spec (boot_parent : string) (lines : list string) (name : string) :
  disk_scan boot_parent lines = Some name ->
  name <> boot_parent /\ name <> EmptyString /\
  exists line more,
    In line lines /\ split_ws line = name :: "disk" :: "0" :: more.
Proof.
  induction lines as [|line rest IH]; cbn [disk_scan]; [discriminate|].
  assert (Hrest : disk_scan boot_parent rest = Some name ->
            name <> boot_parent /\ name <> EmptyString /\
            exists l more, In l (line :: rest) /\ split_ws l = name :: "disk" :: "0" :: more).
  { intros H. destruct (IH H) as (H1 & H2 & l & more & Hin & Hl).
    repeat split; auto. exists l, more. auto using in_cons. }
  destruct (split_ws line) as [|n [|type [|rm more]]] eqn:Hs; try exact Hrest.
  destruct (String.eqb type "disk" && String.eqb rm "0"
            && negb (String.eqb n boot_parent)) eqn:Hc; [|exact Hrest].
  apply andb_true_iff in Hc as [Hc Hne]. apply andb_true_iff in Hc as [Ht Hr].
  apply String.eqb_eq in Ht, Hr. apply negb_true_iff, String.eqb_neq in Hne.
  intros [= <-]. subst. repeat split; [exact Hne | |].
  - pose proof (split_ws_words line) as Hw. rewrite Hs in Hw. now inversion Hw.
  - exists line, more. auto using in_eq.
Qed.

Section Disks.
Context {W : Type}.
Variable handle : forall X : Type, event X -> W -> X * W.

(** X13: the first strategy of [find_boot_usb_partition] decides alone,
    and on the first line that qualifies.  When a line of [/proc/mounts]
    has one of the four live mount points as its second word and no line
    before it has, the function returns the first word of that line, which
    is not empty, after reading that file only: later lines do not count
    and [lsblk] is not run. *)
Theorem boot_partition_from_mounts (w w1 : W) (text : string)
    (before after more : list string) (line dev mnt : string) :
  handle _ (ReadText "/proc/mounts") w = (Ok text, w1) ->
  splitlines (strip text) = (before ++ line :: after)%list ->
  (forall l d m rest,
     In l before -> split_ws l = d :: m :: rest ->
     ~ In m ["/run/archiso/bootmnt"; "/run/initramfs/live"; "/cdrom"; "/live/image"]) ->
  split_ws line = dev :: mnt :: more ->
  In mnt ["/run/archiso/bootmnt"; "/run/initramfs/live"; "/cdrom"; "/live/image"] ->
  exec_sys handle find_boot_usb_partition w =
    (Returns dev, w1, [Called (ReadText "/proc/mounts")]) /\
  dev <> EmptyString.
Proof.
  intros H Hlines Hbefore Hline Hmnt.
  assert (Hlive : live_device (splitlines (strip text)) = Some dev).
  { rewrite Hlines. now apply (live_device_first before after more line dev mnt). }
  split; [|now apply (live_device_spec _ _ Hlive)].
  unfold find_boot_usb_partition.
  rewrite exec_sys_bind, (exec_sys_read_file _ _ _ _ _ H). cbn iota.
  now rewrite Hlive.
Qed.

(** X14: the disk that [get_primary_disk] takes from the listing of
    [lsblk] is the name on a line of the listing whose type is "disk" and
    whose removable flag is "0"; it is not empty and it differs from the
    parent of the boot partition.  No path is tested in that case. *)
Theorem primary_disk_from_listing (w w1 w2 : W) (boot_usb out name : string)
    (calls : list call) (o : proc_outcome) :
  exec_sys handle find_boot_usb_partition w = (Returns boot_usb, w1, calls) ->
  handle _ (SubprocessRun disks_cmd default_timeout) w1 = (o, w2) ->
  run_result o = Ok out ->
  disk_scan (match boot_usb with
             | EmptyString => EmptyString
             | _ => strip_partition boot_usb
             end) (splitlines out) = Some name ->
  exec_sys handle get_primary_disk w =
    (Returns name, w2,
     (calls ++ [Called (SubprocessRun disks_cmd default_timeout)])%list) /\
  name <> EmptyString /\
  (boot_usb <> EmptyString -> name <> strip_partition boot_usb) /\
  exists line more,
    In line (splitlines out) /\ split_ws line = name :: "disk" :: "0" :: more.
Proof.
  intros Hboot Ho Hout Hscan.
  destruct (disk_scan_spec _ _ _ Hscan) as (Hne & Hname & Hline).
  repeat split; auto.
  - unfold get_primary_disk.
    rewrite exec_sys_bind, Hboot, exec_sys_bind, (exec_sys_run _ _ _ _ _ Ho), Hout.
    cbn [of_result]. now rewrite Hscan.
  - intros Hb. destruct boot_usb; [congruence | exact Hne].
Qed.

(** X15: what [get_primary_disk] returns when the listing gives no
    disk: [/dev/nvme0n1] when that path exists, else [/dev/sda] when that
    one exists, else the empty string.  The result of the function is so
    a name of the listing, one of these two paths, or empty. *)
Theorem primary_disk_fallback (w w1 w2 w3 : W) (boot_usb out : string)
    (calls : list call) (o : proc_outcome) (nvme : bool) :
  exec_sys handle find_boot_usb_partition w = (Returns boot_usb, w1, calls) ->
  handle _ (SubprocessRun disks_cmd default_timeout) w1 = (o, w2) ->
  run_result o = Ok out ->
  disk_scan (match boot_usb with
             | EmptyString => EmptyString
             | _ => strip_partition boot_usb
             end) (splitlines out) = None ->
  handle _ (PathExists "/dev/nvme0n1") w2 = (nvme, w3) ->
  exists name w' calls',
    exec_sys handle get_primary_disk w = (Returns name, w', calls') /\
    (nvme = true -> name = "/dev/nvme0n1") /\
    (nvme = false ->
     forall sda w4, handle _ (PathExists "/dev/sda") w3 = (sda, w4) ->
       name = if sda then "/dev/sda" else EmptyString).
Proof.
  intros Hboot Ho Hout Hscan Hnvme. unfold get_primary_disk.
  rewrite exec_sys_bind, Hboot, exec_sys_bind, (exec_sys_run _ _ _ _ _ Ho), Hout.
  cbn [of_result]. rewrite Hscan. cbn [trigger sbind exec_sys]. rewrite Hnvme.
  destruct nvme.
  - cbn [exec_sys]. do 3 eexists. split; [reflexivity|]. split; [reflexivity | discriminate].
  - cbn [sbind exec_sys].
    destruct (handle _ (PathExists "/dev/sda") w3) as [sda w4] eqn:Hsda.
    destruct sda; cbn [exec_sys]; do 3 eexists;
      (split; [reflexivity|]); (split; [discriminate|]);
      intros _ sda' w4' [= <- <-]; reflexivity.
Qed.
End Disks.

Lemma boot_partition_from_mounts_witness :
  exec_sys handle_machine find_boot_usb_partition two_sticks =
    (Returns "/dev/sdb1", two_sticks, [Called (ReadText "/proc/mounts")]).
Proof.
  apply (proj1 (boot_partition_from_mounts handle_machine two_sticks two_sticks _
                  ["proc /proc proc rw 0 0"] ["/dev/sdc1 /cdrom iso9660 ro 0 0"]
                  ["vfat"; "ro"; "0"; "0"]
                  "/dev/sdb1 /run/archiso/bootmnt vfat ro 0 0"
                  "/dev/sdb1" "/run/archiso/bootmnt" eq_refl eq_refl
                  ltac:(intros l d m rest [<- | []] [= <- <- <-] Hin;
                        cbn [In] in Hin; intuition discriminate)
                  eq_refl (or_introl eq_refl))).
Defined.

Lemma primary_disk_from_listing_witness :
  exec_sys handle_machine get_primary_disk laptop =
    (Returns "/dev/nvme0n1", laptop,
     [Called (ReadText "/proc/mounts");
      Called (SubprocessRun disks_cmd default_timeout)]).
Proof.
  apply (proj1 (primary_disk_from_listing handle_machine laptop laptop laptop
                  "/dev/sdb1" _ "/dev/nvme0n1" _ _ eq_refl eq_refl eq_refl eq_refl)).
Defined.

Lemma primary_disk_fallback_witness :
  exists name w' calls',
    exec_sys handle_machine get_primary_disk bare_machine = (Returns name, w', calls') /\
    name = "/dev/sda".
Proof.
  destruct (primary_disk_fallback handle_machine bare_machine bare_machine bare_machine
              bare_machine "/dev/sda1" _ _ _ false eq_refl eq_refl eq_refl eq_refl eq_refl)
    as (name & w' & calls' & Hexec & _ & Hsda).
  exists name, w', calls'. split; [exact Hexec|].
  apply (Hsda eq_refl true bare_machine). reflexivity.
Defined.

(** ** The prompts *)

Lemma codes_inj (a b : string) : codes a = codes b -> a = b.
Proof.
  revert b. induction a as [|c a IH]; intros [|d b]; simpl; try discriminate.
  - reflexivity.
  - intros [= Hc Hrest]. f_equal; [|now apply IH].
    unfold ord in Hc. apply N2Z.inj in Hc.
    rewrite <- (ascii_N_embedding c), <- (ascii_N_embedding d). now rewrite Hc.
Qed.

Lemma find_key_spec (options : list (string * string)) (answer : list Z) :
  match List.find (fun kv => bool_decide (codes (fst kv) = answer)) options with
  | Some (key, _) => In key (map fst options) /\ codes key = answer
  | None => forall key, In key (map fst options) -> codes key <> answer
  end.
Proof.
  induction options as [|[k v] rest IH]; cbn [List.find map fst].
  - intros key [].
  - destruct (bool_decide_reflect (codes k = answer)) as [Heq | Hne].
    + split; [now left | exact Heq].
    + destruct (List.find _ rest) as [[key label]|].
      * destruct IH as [Hin Hc]. split; [now right | exact Hc].
      * intros key [<- | Hin]; [exact Hne | now apply IH].
Qed.

(** X16: [prompt_choice] returns a key of its options, never anything
    else: the answer it returns is the first line typed that, stripped and
    in upper case, is a key, the lines before it are invalid and are
    used up, and the lines after it are left for the next prompt.  When a
    valid line is typed it does return; when none is, it ends on the
    [EOFError] of [input]. *)
Theorem prompt_choice_validates (options : list (string * string)) (stdin : list string) :
  (forall key rest,
     prompt_choice options stdin = (Returns key, rest) ->
     In key (map fst options) /\
     exists skipped line,
       stdin = (skipped ++ line :: rest)%list /\
       upper (strip line) = codes key /\
       forall l, In l skipped -> ~ valid_answer options l) /\
  ((exists line, In line stdin /\ valid_answer options line) ->
   exists key rest, prompt_choice options stdin = (Returns key, rest)) /\
  ((forall line, In line stdin -> ~ valid_answer options line) ->
   prompt_choice options stdin = (Raises EOFError, [])).
Proof.
  induction stdin as [|line rest IH]; cbn [prompt_choice].
  - split; [|split].
    + discriminate.
    + intros (line & [] & _).
    + reflexivity.
  - pose proof (find_key_spec options (upper (strip line))) as Hfind.
    destruct (List.find _ options) as [[k label]|].
    + destruct Hfind as [Hin Hcodes]. split; [|split].
      * intros key rest' [= <- <-]. split; [exact Hin|].
        exists [], line. split; [reflexivity|]. split; [now symmetry|]. intros l [].
      * intros _. eauto.
      * intros Hnone. exfalso. apply (Hnone line (or_introl eq_refl)).
        exists k. auto.
    + destruct IH as (IH1 & IH2 & IH3). split; [|split].
      * intros key rest' H.
        destruct (IH1 key rest' H) as (Hin & skipped & l & -> & Hl & Hsk).
        split; [exact Hin|]. exists (line :: skipped), l.
        split; [reflexivity|]. split; [exact Hl|].
        intros l' [<- | Hl']; [|now apply Hsk].
        intros (key' & Hin' & Hc'). now apply (Hfind key' Hin').
      * intros (l & [<- | Hl] & Hvalid).
        -- exfalso. destruct Hvalid as (key' & Hin' & Hc').
           now apply (Hfind key' Hin').
        -- apply IH2. eauto.
      * intros Hnone. apply IH3. intros l Hl. apply Hnone. now right.
Qed.

Lemma prompt_choice_validates_witness :
  exists key rest,
    prompt_choice screen_options ["maybe"; " b "; "c"] = (Returns key, rest) /\
    In key (map fst screen_options).
Proof.
  destruct (prompt_choice_validates screen_options ["maybe"; " b "; "c"])
    as (Hkey & Hreturns & _).
  destruct Hreturns as (key & rest & H).
  - exists " b ". split; [right; left; reflexivity|].
    exists "B". split; [right; left; reflexivity | reflexivity].
  - exists key, rest. split; [exact H|]. apply (Hkey key rest H).
Defined.

(** ** The wipe *)

Section Wipe.
Context {W : Type}.
Variable handle : forall X : Type, event X -> W -> X * W.

Lemma exec_sys_ask (prompt : string) (w w1 : W) (line : option string) :
  handle _ (Input prompt) w = (line, w1) ->
  exec_sys handle (ask prompt) w =
    (match line with
     | Some text => Returns (upper (strip text))
     | None => Raises EOFError
     end, w1, [Called (Input prompt)]).
Proof.
  intros H. unfold ask, trigger. cbn [sbind exec_sys]. rewrite H.
  now destruct line.
Qed.

(** X17: [offer_wipe] gives the shell one command at most, and only
    after both confirmations: whenever a run of it gave a command to
    [os.system], the [_disk] field was a string that is not empty, the
    first answer was Y and the second CONFIRM once stripped and put in
    upper case, the command is the only one, and it is [blkdiscard] on
    that disk when its name holds "nvme", [nwipe] on it otherwise.  No
    other answer, and no empty or missing disk, lets a command through. *)
Theorem wipe_needs_both_confirmations (data : gmap string pyval) (w w' : W)
    (r : outcome unit) (calls : list call) (cmd : string) :
  exec_sys handle (offer_wipe data) w = (r, w', calls) ->
  In cmd (system_commands calls) ->
  exists disk line1 w1 line2 w2,
    data !! "_disk" = Some (VStr disk) /\ disk <> EmptyString /\
    handle _ (Input wipe_prompt) w = (Some line1, w1) /\
    upper (strip line1) = codes "Y" /\
    handle _ (Input confirm_prompt) w1 = (Some line2, w2) /\
    upper (strip line2) = codes "CONFIRM" /\
    system_commands calls = [cmd] /\
    cmd = wipe_command disk /\
    spawned_commands calls = [].
Proof.
  unfold offer_wipe.
  destruct (truthy (dict_get data "_disk" (VStr empty_str))) eqn:Htruthy; cbn [negb].
  2: { cbn [exec_sys]. intros [= <- <- <-] []. }
  rewrite exec_sys_bind.
  destruct (handle _ (Input wipe_prompt) w) as [line1 w1] eqn:H1.
  rewrite (exec_sys_ask _ _ _ _ H1).
  destruct line1 as [line1|]; [|intros [= <- <- <-] []].
  destruct (bool_decide_reflect (upper (strip line1) = codes "Y")) as [Hy | Hn]; cbn [negb].
  2: { cbn [exec_sys]. intros [= <- <- <-] []. }
  rewrite exec_sys_bind.
  destruct (handle _ (Input confirm_prompt) w1) as [line2 w2] eqn:H2.
  rewrite (exec_sys_ask _ _ _ _ H2).
  destruct line2 as [line2|]; [|intros [= <- <- <-] []].
  destruct (bool_decide_reflect (upper (strip line2) = codes "CONFIRM")) as [Hc | Hn];
    cbn [negb].
  2: { cbn [exec_sys]. intros [= <- <- <-] []. }
  unfold dict_get in *.
  destruct (data !! "_disk") as [[| n | disk]|] eqn:Hdisk;
    try discriminate Htruthy;
    try (cbn [contains_in of_result of_outcome sbind exec_sys];
         intros [= <- <- <-] []).
  cbn [contains_in of_result of_outcome sbind trigger exec_sys str_of].
  destruct (handle _ (OsSystem _) w2) as [ret w3] eqn:H3.
  cbn [exec_sys]. intros [= <- <- <-] Hin.
  cbn [app system_commands] in Hin. destruct Hin as [<- | []].
  exists disk, line1, w1, line2, w2.
  split; [reflexivity|]. split; [intros ->; discriminate Htruthy|].
  split; [first [exact H1 | reflexivity]|]. split; [exact Hy|].
  split; [exact H2|]. split; [exact Hc|].
  split; [reflexivity|]. split; [|reflexivity].
  unfold wipe_command. now destruct (contains "nvme" disk).
Qed.

(** X18: with a disk that is a string and not empty, an answer Y and
    an answer CONFIRM, [offer_wipe] does give the shell the command of the
    disk, and returns whatever the exit status is. *)
Theorem wipe_runs_when_confirmed (data : gmap string pyval) (disk line1 line2 : string)
    (w w1 w2 w3 : W) (ret : Z) :
  data !! "_disk" = Some (VStr disk) -> disk <> EmptyString ->
  handle _ (Input wipe_prompt) w = (Some line1, w1) ->
  upper (strip line1) = codes "Y" ->
  handle _ (Input confirm_prompt) w1 = (Some line2, w2) ->
  upper (strip line2) = codes "CONFIRM" ->
  handle _ (OsSystem (wipe_command disk)) w2 = (ret, w3) ->
  exec_sys handle (offer_wipe data) w =
    (Returns tt, w3,
     [Called (Input wipe_prompt); Called (Input confirm_prompt);
      Called (OsSystem (wipe_command disk))]).
Proof.
  intros Hdisk Hne H1 Hy H2 Hc H3. unfold offer_wipe, dict_get. rewrite Hdisk.
  cbn [truthy]. destruct (String.eqb_spec disk EmptyString) as [-> | _]; [congruence|].
  cbn [negb]. rewrite exec_sys_bind, (exec_sys_ask _ _ _ _ H1), Hy.
  rewrite bool_decide_eq_true_2 by reflexivity. cbn [negb].
  rewrite exec_sys_bind, (exec_sys_ask _ _ _ _ H2), Hc.
  rewrite bool_decide_eq_true_2 by reflexivity. cbn [negb].
  cbn [contains_in of_result of_outcome sbind trigger exec_sys str_of].
  unfold wipe_command in H3 |- *.
  destruct (contains "nvme" disk); rewrite H3; reflexivity.
Qed.
End Wipe.

Lemma wipe_needs_both_confirmations_witness :
  exists disk, nvme_only !! "_disk" = Some (VStr disk) /\
               wipe_command disk = "blkdiscard -f /dev/nvme0n1".
Proof.
  destruct (wipe_needs_both_confirmations handle_machine nvme_only laptop _ _ _
              "blkdiscard -f /dev/nvme0n1" eq_refl (or_introl eq_refl))
    as (disk & line1 & w1 & line2 & w2 & Hdisk & _ & _ & _ & _ & _ & _ & Hcmd & _).
  exists disk. split; [exact Hdisk | now rewrite <- Hcmd].
Defined.

Lemma wipe_runs_when_confirmed_witness :
  system_commands (snd (exec_sys handle_machine (offer_wipe sata_only) laptop))
    = ["nwipe --autonuke --method=zero /dev/sda"].
Proof.
  rewrite (wipe_runs_when_confirmed handle_machine sata_only
             "/dev/sda" " y " "confirm" laptop _ _ _ _
             eq_refl ltac:(discriminate) eq_refl eq_refl eq_refl eq_refl eq_refl).
  reflexivity.
Defined.

(** ** Looking without acting *)

Lemma looks_only_bind {A B : Type} (p : Sys A) (f : A -> Sys B) :
  looks_only p -> (forall a, looks_only (f a)) -> looks_only (sbind p f).
Proof.
  intros Hp Hf. induction Hp; cbn [sbind]; auto; constructor; auto.
Qed.

Lemma looks_only_of_probe {A : Type} (p : Probe A) : looks_only (of_probe p).
Proof. induction p; cbn [of_probe]; constructor; auto. Qed.

Lemma looks_only_of_outcome {A : Type} (o : outcome A) : looks_only (of_outcome o).
Proof. destruct o; constructor. Qed.

Lemma looks_only_read_file (path : string) : looks_only (read_file path).
Proof.
  unfold read_file, trigger. cbn [sbind]. constructor.
  intros [text | e]; [constructor|]. destruct (derives_from_Exception e); constructor.
Qed.

Lemma looks_only_run_sys (cmd : string) : looks_only (run_sys cmd).
Proof. apply looks_only_of_probe. Qed.

Lemma looks_only_find_boot : looks_only find_boot_usb_partition.
Proof.
  unfold find_boot_usb_partition. apply looks_only_bind; [apply looks_only_read_file|].
  intros mounts. destruct (live_device _); [constructor|].
  apply looks_only_bind; [apply looks_only_run_sys|].
  intros out. destruct (first_column _); constructor.
Qed.

Lemma looks_only_drm_scan (files : list string) :
  forall best, looks_only (drm_scan best files).
Proof.
  induction files as [|f rest IH]; intros best; cbn [drm_scan]; [constructor|].
  apply looks_only_bind; [apply looks_only_read_file|]. intros content.
  apply looks_only_bind; [apply looks_only_of_outcome|]. intros best'. apply IH.
Qed.

Create HintDb looks.
#[local] Hint Resolve looks_only_read_file looks_only_run_sys looks_only_of_probe
  looks_only_of_outcome looks_only_find_boot looks_only_drm_scan : looks.
#[local] Hint Constructors looks_only : looks.

Lemma looks_only_get_primary_disk : looks_only get_primary_disk.
Proof.
  unfold get_primary_disk.
  apply looks_only_bind; [apply looks_only_find_boot|]. intros boot_usb.
  apply looks_only_bind; [apply looks_only_run_sys|]. intros out.
  destruct (disk_scan _ _); [constructor|].
  unfold trigger. cbn [sbind]. constructor. intros nvme.
  destruct nvme; cbn [sbind]; constructor.
  intros sda. destruct sda; constructor.
Qed.

Lemma looks_only_get_screen_resolution : looks_only get_screen_resolution.
Proof.
  unfold get_screen_resolution.
  apply looks_only_bind; [apply looks_only_run_sys|]. intros out.
  apply looks_only_bind; [apply looks_only_of_outcome|]. intros best.
  apply looks_only_bind; [|constructor].
  destruct (fst best =? 0); [|constructor].
  unfold trigger. cbn [sbind]. constructor. intros found.
  destruct found; cbn [sbind]; constructor.
  intros files. cbn [sbind]. apply looks_only_drm_scan.
Qed.

Lemma looks_only_probe_then {A : Type} (cmd : string) (f : string -> Sys A) :
  (forall t, looks_only (f t)) -> looks_only (sbind (run_sys cmd) f).
Proof. intros H. apply looks_only_bind; [apply looks_only_run_sys | exact H]. Qed.

Lemma looks_only_read_then {A : Type} (path : string) (f : string -> Sys A) :
  (forall t, looks_only (f t)) -> looks_only (sbind (read_file path) f).
Proof. intros H. apply looks_only_bind; [apply looks_only_read_file | exact H]. Qed.

#[local] Hint Resolve looks_only_get_primary_disk looks_only_get_screen_resolution : looks.

Ltac looks_step :=
  cbv zeta; apply looks_only_bind;
  [first [ solve [auto with looks]
         | solve [apply looks_only_probe_then; intros ?; auto with looks]
         | solve [apply looks_only_read_then; intros ?; auto with looks] ]
  | intros ? ].

Lemma looks_only_scan : looks_only run_hardware_scan.
Proof.
  unfold run_hardware_scan, get_service_tag, get_model_name, get_cpu_info,
    get_ram_total_gb, get_ram_type, get_discrete_gpu.
  do 7 looks_step. destruct a5 as [[storage_type storage_gb] smart].
  do 4 looks_step. constructor.
Qed.

Lemma acts_app (a b : list call) : acts (a ++ b) = (acts a ++ acts b)%list.
Proof.
  induction a as [|[X ev] a IH]; cbn [app acts]; [reflexivity|].
  destruct ev; cbn [app]; now rewrite IH.
Qed.


Lemma no_acts_no_commands (calls : list call) :
  acts calls = [] -> system_commands calls = [].
Proof.
  induction calls as [|[X ev] calls IH]; cbn [acts system_commands]; [reflexivity|].
  destruct ev; auto; discriminate.
Qed.

Section Looks.
Context {W : Type}.
Variable handle : forall X : Type, event X -> W -> X * W.

Lemma looks_only_trace {A : Type} (p : Sys A) :
  looks_only p ->
  forall w, acts (snd (exec_sys handle p w)) = [].
Proof.
  intros Hp. induction Hp as [a | e | cmd t k Hk IH | path k Hk IH | path k Hk IH
                              | dir pat k Hk IH]; intros w; cbn [exec_sys];
    try reflexivity.
  all: destruct (handle _ _ w) as [x w1]; specialize (IH x w1);
    destruct (exec_sys handle (k x) w1) as [[r w2] calls]; exact IH.
Qed.

(** X19: the hardware scan only looks.  In every world, whether it
    returns or raises, [run_hardware_scan] spawns probes, reads files and
    tests or lists paths, and makes no other request: it gives no command
    to [os.system], so that it wipes and mounts nothing, it makes no
    directory and it reads nothing from the keyboard. *)
Theorem scan_only_looks (w : W) :
  acts (snd (exec_sys handle run_hardware_scan w)) = [] /\
  system_commands (snd (exec_sys handle run_hardware_scan w)) = [].
Proof.
  pose proof (looks_only_trace run_hardware_scan looks_only_scan w) as H.
  split; [exact H | now apply no_acts_no_commands].
Qed.

(** ** Mounting the stick *)

End Looks.


(** ** The battery text *)

Lemma pretty_N_char_digit (k : N) :
  (k < 10)%N ->
  py_isdigit (pretty_N_char k) = true /\ digit_value (pretty_N_char k) = Z.of_N k.
Proof.
  intros H.
  assert (Hk : In k [0; 1; 2; 3; 4; 5; 6; 7; 8; 9]%N) by (cbn [In]; lia).
  cbn [In] in Hk.
  repeat (destruct Hk as [<- | Hk]; [split; reflexivity|]). contradiction.
Qed.

(** The digits that [str] writes for a positive number: [int] reads them
    back to the same number. *)
Lemma pretty_N_go_digits (x : N) :
  (0 < x)%N ->
  forall s, exists c d,
    pretty_N_go x s = String c (d ++ s) /\ py_isdigit c = true /\
    forall rest, int_digits (digit_value c) (d ++ rest) = int_digits (Z.of_N x) rest.
Proof.
  induction (N.lt_wf_0 x) as [x _ IH]. intros Hpos s.
  rewrite pretty_N_go_step by exact Hpos.
  destruct (pretty_N_char_digit (x mod 10)%N) as [Hd Hv]; [apply N.mod_lt; lia|].
  destruct (N.eq_dec (x / 10)%N 0%N) as [Hz | Hnz].
  - rewrite Hz, pretty_N_go_0.
    exists (pretty_N_char (x mod 10)), EmptyString. cbn [String.append].
    split; [reflexivity|]. split; [exact Hd|].
    intros rest. rewrite Hv. f_equal.
    pose proof (N.div_mod x 10 ltac:(discriminate)) as H.
    rewrite Hz, N.mul_0_r, N.add_0_l in H. now rewrite <- H.
  - destruct (IH (x / 10)%N) with (s := String (pretty_N_char (x mod 10)) s)
      as (c & d & Hgo & Hc & Hread).
    { apply N.div_lt; [exact Hpos | reflexivity]. }
    { destruct (x / 10)%N; [congruence | reflexivity]. }
    exists c, (d ++ String (pretty_N_char (x mod 10)) EmptyString).
    rewrite Hgo. split; [|split; [exact Hc|]].
    + f_equal. now rewrite append_assoc.
    + intros rest. rewrite append_assoc. cbn [String.append].
      rewrite Hread. cbn [int_digits]. rewrite Hd, Hv. f_equal.
      pose proof (f_equal Z.of_N (N.div_mod x 10 ltac:(discriminate))) as H.
      rewrite N2Z.inj_add, N2Z.inj_mul in H. cbn [Z.of_N] in H.
      revert H. generalize (Z.of_N (x `div` 10)%N) (Z.of_N (x `mod` 10)%N). lia.
Qed.

Lemma int_of_str_positive (p : positive) :
  int_magnitude (pretty (Npos p)) = Some (Zpos p) /\
  exists c t, pretty (Npos p) = String c t /\ py_isdigit c = true.
Proof.
  unfold pretty, pretty_N. destruct (decide (N.pos p = 0%N)) as [H|_]; [discriminate H|].
  destruct (pretty_N_go_digits (Npos p) ltac:(lia) EmptyString) as (c & d & -> & Hc & Hread).
  split; [|now exists c, (d ++ EmptyString)].
  unfold int_magnitude. rewrite Hc, Hread. reflexivity.
Qed.

(** [int(str(n)) == n] *)
Lemma int_of_str_of_int (n : Z) : int_of_str (str_of_int n) = Some n.
Proof.
  unfold str_of_int, pretty, pretty_Z. destruct n as [|p|p]; [reflexivity| |].
  - unfold pretty, pretty_positive.
    destruct (int_of_str_positive p) as (Hm & c & t & Hs & Hc).
    rewrite Hs in Hm |- *.
    destruct (digit_facts c Hc) as (Hsp & Hminus & Hplus & _).
    unfold int_of_str. cbn [drop_while]. now rewrite Hsp, Hminus, Hplus.
  - unfold pretty, pretty_positive.
    destruct (int_of_str_positive p) as (Hm & _).
    unfold int_of_str. cbn [String.append drop_while].
    change (int_isspace "-") with false. cbn [Ascii.eqb Bool.eqb].
    rewrite Hm. reflexivity.
Qed.

(** *** Signs *)

Lemma binary_round_aux_sign (s : bool) (m e : Z) (l : location) :
  match binary_round_aux prec emax s m e l with
  | S754_zero s' | S754_infinity s' | S754_finite s' _ _ => s' = s
  | S754_nan => True
  end.
Proof.
  unfold binary_round_aux.
  destruct (shr_fexp prec emax m e l) as [mrs1 e1].
  destruct (shr_fexp prec emax _ e1 loc_Exact) as [mrs2 e2].
  destruct (shr_m mrs2); [reflexivity | | exact I].
  destruct (e2 <=? emax - prec); reflexivity.
Qed.

Lemma fdiv_not_negative (x y : spec_float) :
  not_negative x -> not_negative y -> not_negative (fdiv x y).
Proof.
  unfold fdiv.
  destruct x as [sx | sx | | sx mx ex], y as [sy | sy | | sy my ey];
    cbn [not_negative SFdiv]; try (intros -> ->; reflexivity); try (intros; exact I).
  intros -> ->. destruct (SFdiv_core_binary prec emax (Z.pos mx) ex (Z.pos my) ey)
    as [[mz ez] lz].
  pose proof (binary_round_aux_sign (xorb false false) mz ez lz) as H.
  now destruct (binary_round_aux prec emax (xorb false false) mz ez lz).
Qed.

Lemma fmul_not_negative (x y : spec_float) :
  not_negative x -> not_negative y -> not_negative (fmul x y).
Proof.
  unfold fmul.
  destruct x as [sx | sx | | sx mx ex], y as [sy | sy | | sy my ey];
    cbn [not_negative SFmul]; try (intros -> ->; reflexivity); try (intros; exact I).
  intros -> ->.
  pose proof (binary_round_aux_sign (xorb false false) (Z.pos (mx * my)) (ex + ey) loc_Exact)
    as H.
  now destruct (binary_round_aux prec emax (xorb false false) (Z.pos (mx * my)) (ex + ey)
                  loc_Exact).
Qed.

Lemma numeral_not_negative (t : string) :
  forall mant frac dot seen m f,
  numeral t mant frac dot seen = Some (m, f) -> 0 <= mant -> 0 <= m.
Proof.
  induction t as [|c t IH]; intros mant frac dot seen m f; cbn [numeral].
  - destruct seen; [|discriminate]. now intros [= <- _].
  - destruct (py_isdigit c) eqn:Hc.
    + intros H Hm. apply IH in H; [exact H|].
      destruct (digit_facts c Hc) as (_ & _ & _ & Hd). lia.
    + destruct (Ascii.eqb c "."); [|discriminate].
      destruct dot; [discriminate|]. apply IH.
Qed.

Lemma float_of_str_not_negative (t : string) (x : spec_float) :
  float_of_str t = Ok x -> not_negative x.
Proof.
  unfold float_of_str.
  destruct (numeral t 0 0 false false) as [[mant frac]|] eqn:H; [|discriminate].
  intros [= <-]. apply numeral_not_negative in H; [|lia].
  unfold float_of_ratio. apply fdiv_not_negative; [|reflexivity].
  destruct mant as [|p|p]; [reflexivity | reflexivity | lia].
Qed.

Lemma round_half_even_shift_not_negative (m k : Z) :
  0 <= m -> 0 <= round_half_even_shift m k.
Proof.
  intros Hm. unfold round_half_even_shift.
  assert (Hq : 0 <= Z.shiftr m k) by (now apply Z.shiftr_nonneg).
  destruct (2 * (m - Z.shiftl (Z.shiftr m k) k) ?= Z.shiftl 1 k); [|lia|lia].
  destruct (Z.even (Z.shiftr m k)); lia.
Qed.

Lemma py_round_not_negative (x : spec_float) (n : Z) :
  not_negative x -> py_round x = Ok n -> 0 <= n.
Proof.
  destruct x as [s | s | | s m e]; cbn [not_negative py_round]; try discriminate.
  - now intros _ [= <-].
  - intros -> [= <-]. destruct (0 <=? e).
    + apply Z.shiftl_nonneg. lia.
    + apply round_half_even_shift_not_negative. lia.
Qed.

Lemma first_number_not_negative (line : string) (old new : option spec_float) :
  (forall x, old = Some x -> not_negative x) ->
  first_number line old = Ok new ->
  forall x, new = Some x -> not_negative x.
Proof.
  intros Hold. unfold first_number.
  destruct (re_search number_re line) as [[|t gs]|]; try (intros [= <-]; exact Hold).
  destruct (float_of_str t) as [y|e] eqn:Hy; [|discriminate].
  cbn [rbind]. intros [= <-] x [= <-]. now apply float_of_str_not_negative in Hy.
Qed.

Lemma battery_scan_not_negative (lines : list string) :
  forall st st', readings_not_negative st ->
  battery_scan st lines = Ok st' -> readings_not_negative st'.
Proof.
  induction lines as [|line rest IH]; intros st st' Hst; cbn [battery_scan].
  - now intros [= <-].
  - destruct (battery_line st line) as [st1|e] eqn:Hline; [|discriminate].
    cbn [rbind]. apply IH.
    destruct st as [full design]. destruct Hst as [Hf Hd]. cbn [fst snd] in Hf, Hd.
    unfold battery_line in Hline.
    destruct (if contains "energy-full:" (strip line) && negb (contains "design" (strip line))
              then first_number (strip line) full else Ok full) as [full'|] eqn:H1;
      [|discriminate].
    cbn [rbind] in Hline.
    destruct (if contains "energy-full-design:" (strip line)
              then first_number (strip line) design else Ok design) as [design'|] eqn:H2;
      [|discriminate].
    cbn [rbind] in Hline. injection Hline as <-. split; cbn [fst snd].
    + destruct (_ && _) in H1.
      * now apply (first_number_not_negative _ _ _ Hf H1).
      * now injection H1 as <-.
    + destruct (contains _ _) in H2.
      * now apply (first_number_not_negative _ _ _ Hd H2).
      * now injection H2 as <-.
Qed.

(** X21: the battery text reads back.  Whatever [upower] printed, when
    [get_battery_health] returns a text, that text is "N/A" or the
    decimal text of an integer that is not negative, and [int] reads the
    text of that integer back to the same number: so the battery number of
    [compute_recommendation] on a record that holds the text is 0 for
    "N/A" and the rounded percentage otherwise, and its [except
    ValueError] is taken for "N/A" only. *)
Theorem battery_text_reads_back (out s : string) :
  battery_health_of out = Ok s ->
  exists n, 0 <= n /\
    (s = "N/A" /\ n = 0 \/ s = str_of_int n /\ int_of_str s = Some n) /\
    forall data, battery_pct data = VStr s -> battery_number data = Ok n.
Proof.
  unfold battery_health_of.
  destruct (battery_scan (None, None) (splitlines out)) as [[full design]|e] eqn:Hscan;
    [|discriminate].
  cbn [rbind].
  assert (Hna : Ok NA = Ok s ->
            exists n, 0 <= n /\
              (s = "N/A" /\ n = 0 \/ s = str_of_int n /\ int_of_str s = Some n) /\
              forall data, battery_pct data = VStr s -> battery_number data = Ok n).
  { intros [= <-]. exists 0. split; [lia|]. split; [now left|].
    intros data Hb. now rewrite (battery_number_str _ _ Hb). }
  apply battery_scan_not_negative in Hscan as [Hf Hd];
    [|split; intros x; discriminate].
  destruct full as [f|], design as [d|]; try exact Hna.
  destruct (float_truthy f && float_truthy d && float_gt_zero d) eqn:Hcond; [|exact Hna].
  apply andb_true_iff in Hcond as [Hcond _]. apply andb_true_iff in Hcond as [_ Hdt].
  unfold float_truediv. rewrite Hdt. cbn [rbind].
  destruct (py_round (fmul (fdiv f d) (float_of_int 100))) as [n|e] eqn:Hn; [|discriminate].
  cbn [rbind]. intros [= <-].
  assert (Hpos : 0 <= n).
  { apply (py_round_not_negative _ _) in Hn; [exact Hn|].
    apply fmul_not_negative; [|reflexivity].
    apply fdiv_not_negative; [now apply Hf | now apply Hd]. }
  exists n. split; [exact Hpos|]. split.
  - right. split; [reflexivity | apply int_of_str_of_int].
  - intros data Hb. now rewrite (battery_number_str _ _ Hb), int_of_str_of_int.
Qed.

Lemma battery_text_reads_back_witness :
  exists n, battery_health_of worn_battery = Ok (str_of_int n) /\
            int_of_str (str_of_int n) = Some n.
Proof.
  destruct (battery_text_reads_back worn_battery "82" eq_refl)
    as (n & _ & [[H _] | [H1 H2]] & _); [discriminate H|].
  exists n. rewrite <- H1. split; [reflexivity | exact H2].
Defined.

(** ** The audited unit *)

Lemma prompt_choice_key (options : list (string * string)) (stdin : list string) :
  forall key rest,
  prompt_choice options stdin = (Returns key, rest) -> In key (map fst options).
Proof.
  induction stdin as [|line more IH]; intros key rest; cbn [prompt_choice]; [discriminate|].
  pose proof (find_key_spec options (upper (strip line))) as Hfind.
  destruct (List.find _ options) as [[k label]|]; [|apply IH].
  intros [= <- _]. apply Hfind.
Qed.

Lemma grading_prompts_shape (stdin rest : list string) (grades : gmap string pyval) :
  grading_prompts stdin = (Returns grades, rest) ->
  exists screen chassis charger,
    grades = <["charger" := VStr charger]>
               (<["chassis_grade" := VStr chassis]> (<["screen_grade" := VStr screen]> ∅)) /\
    In screen ["A"; "B"; "C"] /\ In chassis ["A"; "B"; "C"] /\ In charger ["Y"; "N"].
Proof.
  unfold grading_prompts.
  destruct (prompt_choice screen_options stdin) as [[screen | e] r1] eqn:H1; [|discriminate].
  destruct (prompt_choice chassis_options r1) as [[chassis | e] r2] eqn:H2; [|discriminate].
  destruct (prompt_choice charger_options r2) as [[charger | e] r3] eqn:H3; [|discriminate].
  intros [= <- _]. exists screen, chassis, charger. split; [reflexivity|].
  apply prompt_choice_key in H1, H2, H3. auto.
Qed.

Section Unit.
Context {W : Type}.
Variable handle : forall X : Type, event X -> W -> X * W.

Lemma run_hardware_scan_shape (w w' : W) (data : gmap string pyval) (calls : list call) :
  exec_sys handle run_hardware_scan w = (Returns data, w', calls) ->
  exists service_tag model cpu cores ram_gb ram_type disk storage_type storage_gb smart
         battery gpu_name resolution class generation,
    data =
      <["_cpu_gen" := VInt generation]>
        (<["resolution_class" := VStr class]>
           (<["resolution" := VStr resolution]>
              (<["gpu" := VStr gpu_name]>
                 (<["battery_pct" := VStr battery]>
                    (<["_disk" := VStr disk]>
                       (<["smart_status" := VStr smart]>
                          (<["storage_gb" := VInt storage_gb]>
                             (<["storage_type" := VStr storage_type]>
                                (<["ram_type" := VStr ram_type]>
                                   (<["ram_gb" := VInt ram_gb]>
                                      (<["cores" := VInt cores]>
                                         (<["cpu" := VStr cpu]>
                                            (<["model" := VStr model]>
                                               (<["service_tag" := VStr service_tag]> ∅)))))))))))))).
Proof.
  intros H. unfold run_hardware_scan in H. cbv zeta in H.
  apply exec_sys_bind_returns in H as (service_tag & w1 & c1 & c1' & _ & H & _).
  apply exec_sys_bind_returns in H as (model & w2 & c2 & c2' & _ & H & _).
  apply exec_sys_bind_returns in H as ([cpu cores] & w3 & c3 & c3' & _ & H & _).
  apply exec_sys_bind_returns in H as (ram_gb & w4 & c4 & c4' & _ & H & _).
  apply exec_sys_bind_returns in H as (ram_type & w5 & c5 & c5' & _ & H & _).
  apply exec_sys_bind_returns in H as (disk & w6 & c6 & c6' & _ & H & _).
  apply exec_sys_bind_returns in H
    as ([[storage_type storage_gb] smart] & w7 & c7 & c7' & _ & H & _).
  apply exec_sys_bind_returns in H as (battery & w8 & c8 & c8' & _ & H & _).
  apply exec_sys_bind_returns in H as (gpu_name & w9 & c9 & c9' & _ & H & _).
  apply exec_sys_bind_returns in H as ([resolution class] & w10 & c10 & c10' & _ & H & _).
  apply exec_sys_bind_returns in H as (generation & w11 & c11 & c11' & _ & H & _).
  cbn [exec_sys fst snd] in H. injection H as <- _ _.
  now exists service_tag, model, cpu, cores, ram_gb, ram_type, disk, storage_type,
    storage_gb, smart, battery, gpu_name, resolution, class, generation.
Qed.

(** X22: the unit that [main] classifies.  When the scan returns a
    dictionary and the three prompts return the grades, the dictionary
    updated with the grades has exactly the fifteen keys of the scan and
    the three keys of the grades, its battery field is a string and its
    generation an integer, and [compute_recommendation] returns one of
    the four labels on it: it cannot raise there. *)
Theorem audited_unit_is_classified (w w' : W) (data grades : gmap string pyval)
    (calls : list call) (stdin rest : list string) :
  exec_sys handle run_hardware_scan w = (Returns data, w', calls) ->
  grading_prompts stdin = (Returns grades, rest) ->
  (forall k, is_Some (dict_update data grades !! k) <-> In k (scan_keys ++ grade_keys)) /\
  (exists s g, battery_pct (dict_update data grades) = VStr s /\
               cpu_gen (dict_update data grades) = VInt g) /\
  (exists label, compute_recommendation (dict_update data grades) = Ok label /\
                 In label recommendations).
Proof.
  intros Hscan Hgrades.
  apply run_hardware_scan_shape in Hscan
    as (service_tag & model & cpu & cores & ram_gb & ram_type & disk & storage_type &
        storage_gb & smart & battery & gpu_name & resolution & class & generation & Hdata).
  apply grading_prompts_shape in Hgrades as (screen & chassis & charger & Hgrades & _).
  assert (Hb : battery_pct (dict_update data grades) = VStr battery).
  { subst data grades. unfold battery_pct, dict_get, dict_update. now simplify_map_eq. }
  assert (Hg : cpu_gen (dict_update data grades) = VInt generation).
  { subst data grades. unfold cpu_gen, dict_get, dict_update. now simplify_map_eq. }
  split; [|split].
  - intros k. subst data grades. unfold dict_update.
    rewrite lookup_union_is_Some, !lookup_insert_is_Some'.
    pose proof (lookup_empty_is_Some (M := gmap string) (A := pyval) k) as Hempty.
    unfold scan_keys, grade_keys. cbn [In app]. tauto.
  - now exists battery, generation.
  - destruct (battery_number_total (dict_update data grades)) as [batt Hbatt].
    { left. now exists battery. }
    rewrite (compute_recommendation_typed _ _ _ Hbatt Hg). unfold recommendations.
    repeat match goal with |- context [if ?b then _ else _] => destruct b end;
      eexists; (split; [reflexivity | cbn [In]; tauto]).
Qed.
End Unit.

Lemma audited_unit_is_classified_witness :
  exists data grades label,
    fst (fst (exec_sys handle_machine run_hardware_scan bare_machine)) = Returns data /\
    fst (grading_prompts ["a"; "x"; "b"; "y"]) = Returns grades /\
    compute_recommendation (dict_update data grades) = Ok label /\
    In label recommendations.
Proof.
  destruct (audited_unit_is_classified handle_machine bare_machine _ _ _ _
              ["a"; "x"; "b"; "y"] _ eq_refl eq_refl)
    as (_ & _ & label & Hl & Hin).
  eexists _, _, label. split; [reflexivity|]. split; [reflexivity|].
  split; [exact Hl | exact Hin].
Defined.

(** ** What the export leaves alone *)




(** ** Memory size *)

Lemma rep_greedy_accepts {R : Type} (cls : ascii -> bool) (s : string) :
  forall (hi : option nat) (k : string -> string -> option R),
  (forall m rest, k m rest <> None) -> rep_greedy cls 0 hi s k <> None.
Proof.
  induction s as [|c s IH]; intros hi k Hk; cbn [rep_greedy]; [apply Hk|].
  destruct (cls c && may_take hi); [|apply Hk].
  destruct (rep_greedy cls (Nat.pred 0) (Nat.pred <$> hi) s
              (fun m rest => k (String c m) rest)) eqn:H; [discriminate | apply Hk].
Qed.

Lemma digits_search (line : string) :
  match re_search digits_re line with
  | Some gs => exists t, gs = [t] /\ t <> EmptyString /\ all_chars py_isdigit t = true /\
                         any_char py_isdigit line = true
  | None => any_char py_isdigit line = false
  end.
Proof.
  destruct (re_search digits_re line) as [gs|] eqn:H.
  - apply re_search_sound in H as (pre & suf & -> & H). unfold digits_re in H.
    apply match_here_cons in H as (t & tail & gs' & -> & Hall & Hlo & _ & H & ->).
    cbn in H. injection H as <-. cbn in Hall, Hlo |- *.
    exists t. split; [reflexivity|].
    destruct t as [|c t]; [cbn in Hlo; lia|].
    split; [discriminate|]. split; [exact Hall|].
    cbn [all_chars] in Hall. apply andb_true_iff in Hall as [Hc _].
    rewrite any_char_app. cbn [String.append any_char]. rewrite Hc.
    now rewrite orb_true_r.
  - induction line as [|c line IH]; [reflexivity|].
    cbn [re_search] in H. cbn [any_char].
    destruct (match_here digits_re (String c line)) as [gs|] eqn:Hm; [discriminate|].
    rewrite (IH H), orb_false_r.
    destruct (py_isdigit c) eqn:Hc; [|reflexivity]. exfalso.
    unfold digits_re in Hm. cbn [match_here item_class item_min item_max item_group] in Hm.
    cbn [rep_greedy] in Hm. rewrite Hc in Hm. cbn [andb may_take] in Hm.
    destruct (rep_greedy py_isdigit (Nat.pred 1) (Nat.pred <$> None) line _) eqn:Hr;
      [discriminate|].
    revert Hr. apply rep_greedy_accepts. discriminate.
Qed.

Lemma int_truediv_not_negative (a : Z) (b : positive) (q : spec_float) :
  0 <= a -> int_truediv a b = Ok q -> not_negative q.
Proof.
  intros Ha. unfold int_truediv.
  assert (H : not_negative (float_of_ratio a b)).
  { unfold float_of_ratio. apply fdiv_not_negative; [|reflexivity].
    destruct a as [|p|p]; [reflexivity | reflexivity | lia]. }
  destruct (float_of_ratio a b); try discriminate; now intros [= <-].
Qed.

(** The body of the loop of [get_ram_total_gb] on a line that starts with
    [MemTotal]. *)
Lemma ram_line_outcome (line : string) :
  match (try! t := first_match digits_re line in
         try! kb := of_result (int_of t) in
         try! q := of_result (int_truediv kb 1048576) in
         of_result (py_round q)) with
  | Returns n => 0 <= n /\ any_char py_isdigit line = true
  | Raises IndexError => any_char py_isdigit line = false
  | Raises _ => any_char py_isdigit line = true
  end.
Proof.
  unfold first_match. pose proof (digits_search line) as Hs.
  destruct (re_search digits_re line) as [gs|]; [|exact Hs].
  destruct Hs as (t & -> & Hne & Hall & Hd). cbn [obind].
  destruct (int_of_digits t Hne Hall) as (kb & -> & Hkb). cbn [of_result obind].
  destruct (int_truediv kb 1048576) as [q|e] eqn:Hq; cbn [of_result obind]; [|exact Hd].
  apply int_truediv_not_negative in Hq; [|exact Hkb].
  destruct (py_round q) as [n|e] eqn:Hn; cbn [of_result]; [|exact Hd].
  split; [|exact Hd]. now apply (py_round_not_negative q).
Qed.

(** X24: what [get_ram_total_gb] makes of the lines of [/proc/meminfo].
    Without a line that starts with [MemTotal] the size is 0; the first
    such line decides, and the lookup of its first number raises
    [IndexError] exactly when the line holds no digit; and a size that is
    returned is never negative. *)
Theorem ram_total_outcomes (lines : list string) :
  ((forall l, In l lines -> startswith "MemTotal" l = false) ->
   ram_scan lines = Returns 0) /\
  (forall before line rest,
     lines = (before ++ line :: rest)%list ->
     (forall l, In l before -> startswith "MemTotal" l = false) ->
     startswith "MemTotal" line = true ->
     (ram_scan lines = Raises IndexError <-> any_char py_isdigit line = false)) /\
  (forall n, ram_scan lines = Returns n -> 0 <= n).
Proof.
  split; [|split].
  - induction lines as [|l lines IH]; intros Hno; cbn [ram_scan]; [reflexivity|].
    rewrite (Hno l) by now left. apply IH. intros l' Hl'. apply Hno. now right.
  - intros before line rest -> Hbefore Hline.
    induction before as [|l before IH]; cbn [app ram_scan].
    + rewrite Hline. pose proof (ram_line_outcome line) as H.
      destruct (try! t := first_match digits_re line in _) as [n | [e | | ]].
      * destruct H as [_ H]. rewrite H. split; discriminate.
      * rewrite H. split; discriminate.
      * now rewrite H.
      * rewrite H. split; discriminate.
    + rewrite (Hbefore l) by now left. apply IH. intros l' Hl'. apply Hbefore. now right.
  - induction lines as [|l lines IH]; intros n; cbn [ram_scan].
    + intros [= <-]. lia.
    + destruct (startswith "MemTotal" l); [|apply IH].
      pose proof (ram_line_outcome l) as H.
      destruct (try! t := first_match digits_re l in _) as [m | e]; [|discriminate].
      intros [= <-]. apply H.
Qed.

Lemma ram_total_outcomes_witness :
  ram_scan ["MemFree: 1 kB"; "MemTotal: unknown"] = Raises IndexError /\
  ram_scan ["Buffers: 7 kB"] = Returns 0.
Proof.
  split.
  - apply (proj1 (proj2 (ram_total_outcomes ["MemFree: 1 kB"; "MemTotal: unknown"]))
             ["MemFree: 1 kB"] "MemTotal: unknown" [] eq_refl).
    + intros l [<- | []]. reflexivity.
    + reflexivity.
    + reflexivity.
  - apply (proj1 (ram_total_outcomes ["Buffers: 7 kB"])).
    intros l [<- | []]. reflexivity.
Defined.

(** *** The quotient by a power of two is exact *)

Lemma digits2_pos_lower (p : positive) :
  2 ^ (Z.pos (digits2_pos p) - 1) <= Z.pos p.
Proof.
  induction p as [p IH | p IH |]; cbn [digits2_pos]; [| |reflexivity].
  all: rewrite Pos2Z.inj_succ;
    replace (Z.succ (Z.pos (digits2_pos p)) - 1) with (Z.succ (Z.pos (digits2_pos p) - 1))
      by lia;
    rewrite Z.pow_succ_r by lia; lia.
Qed.

Lemma digits2_pos_shiftl_nat (p : positive) (n : nat) :
  Z.pos (digits2_pos (Pos.shiftl_nat p n)) = Z.pos (digits2_pos p) + Z.of_nat n.
Proof.
  induction n as [|n IH]; [cbn; lia|].
  change (Pos.shiftl_nat p (S n)) with (xO (Pos.shiftl_nat p n)).
  cbn [digits2_pos]. rewrite Pos2Z.inj_succ, IH. lia.
Qed.

Lemma shiftl_nat_value (p : positive) (n : nat) :
  Z.pos (Pos.shiftl_nat p n) = Z.pos p * 2 ^ Z.of_nat n.
Proof.
  induction n as [|n IH]; [cbn; lia|].
  change (Pos.shiftl_nat p (S n)) with (xO (Pos.shiftl_nat p n)).
  rewrite Pos2Z.inj_xO, IH, Nat2Z.inj_succ, Z.pow_succ_r by lia. lia.
Qed.

Lemma float_of_ratio_exact (p : positive) :
  Z.pos p < 2 ^ 53 ->
  float_of_ratio (Z.pos p) 1048576 =
    S754_finite false (Pos.shiftl_nat p (Z.to_nat (53 - Z.pos (digits2_pos p))))
      (Z.pos (digits2_pos p) - 73).
Proof.
  intros Hp.
  pose proof (digits2_pos_lower p) as Hlow.
  assert (Hd : Z.pos (digits2_pos p) <= 53).
  { destruct (Z_le_gt_dec (Z.pos (digits2_pos p)) 53) as [H | H]; [exact H|]. exfalso.
    assert (2 ^ 53 <= 2 ^ (Z.pos (digits2_pos p) - 1)) by (apply Z.pow_le_mono_r; lia).
    lia. }
  set (d := Z.pos (digits2_pos p)) in *.
  set (n1 := Z.to_nat (53 - d)).
  unfold float_of_ratio, fdiv. cbn [SFdiv].
  assert (Hcore : SFdiv_core_binary prec emax (Z.pos p) 0 1048576 0 =
                    (Z.pos (Pos.shiftl_nat p (S n1)), d - 74, loc_Exact)).
  { unfold SFdiv_core_binary. cbn [Zdigits2]. fold d.
    change (Z.pos (digits2_pos 1048576)) with 21.
    replace (Z.min (fexp prec emax (d + 0 - (21 + 0))) (0 - 0)) with (d - 74)
      by (unfold fexp, SpecFloat.emin, prec, emax; lia).
    replace (0 - 0 - (d - 74)) with (74 - d) by lia.
    assert (Hm : match 74 - d with
                 | 0 => Z.pos p
                 | Z.pos _ => Z.shiftl (Z.pos p) (74 - d)
                 | Z.neg _ => 0
                 end = Z.pos (Pos.shiftl_nat p (S n1)) * 1048576).
    { destruct (74 - d) as [|s|s] eqn:Hs; [lia | | lia].
      rewrite <- Hs, Z.shiftl_mul_pow2 by lia.
      rewrite shiftl_nat_value. unfold n1.
      rewrite Nat2Z.inj_succ, Z2Nat.id by lia.
      replace (74 - d) with (Z.succ (53 - d) + 20) by lia.
      rewrite Z.pow_add_r by lia. change (2 ^ 20) with 1048576. lia. }
    rewrite Hm.
    pose proof (Z.div_eucl_eq (Z.pos (Pos.shiftl_nat p (S n1)) * 1048576) 1048576
                  ltac:(discriminate)) as Heq.
    pose proof (Z.mod_pos_bound (Z.pos (Pos.shiftl_nat p (S n1)) * 1048576) 1048576
                  ltac:(reflexivity)) as Hbound.
    unfold Z.modulo in Hbound.
    destruct (Z.div_eucl (Z.pos (Pos.shiftl_nat p (S n1)) * 1048576) 1048576) as [q r].
    assert (q = Z.pos (Pos.shiftl_nat p (S n1)) /\ r = 0) as [-> ->] by nia.
    reflexivity. }
  rewrite Hcore. cbn [xorb].
  unfold binary_round_aux.
  assert (H1 : shr_fexp prec emax (Z.pos (Pos.shiftl_nat p (S n1))) (d - 74) loc_Exact =
               ({| shr_m := Z.pos (Pos.shiftl_nat p n1); shr_r := false; shr_s := false |},
                d - 73)).
  { unfold shr_fexp. cbn [Zdigits2]. rewrite digits2_pos_shiftl_nat. fold d.
    unfold n1. rewrite Nat2Z.inj_succ, Z2Nat.id by lia.
    replace (fexp prec emax (d + Z.succ (53 - d) + (d - 74)) - (d - 74)) with 1
      by (unfold fexp, SpecFloat.emin, prec, emax; lia).
    cbn [shr iter_pos shr_record_of_loc]. fold n1.
    change (Pos.shiftl_nat p (S n1)) with (xO (Pos.shiftl_nat p n1)).
    cbn [shr_1 orb]. f_equal. lia. }
  rewrite H1. cbn [shr_m loc_of_shr_record round_nearest_even].
  assert (H2 : shr_fexp prec emax (Z.pos (Pos.shiftl_nat p n1)) (d - 73) loc_Exact =
               ({| shr_m := Z.pos (Pos.shiftl_nat p n1); shr_r := false; shr_s := false |},
                d - 73)).
  { unfold shr_fexp. cbn [Zdigits2]. rewrite digits2_pos_shiftl_nat. fold d.
    unfold n1. rewrite Z2Nat.id by lia.
    replace (fexp prec emax (d + (53 - d) + (d - 73)) - (d - 73)) with 0
      by (unfold fexp, SpecFloat.emin, prec, emax; lia).
    reflexivity. }
  rewrite H2. cbn [shr_m].
  replace (d - 73 <=? emax - prec) with true
    by (symmetry; apply Z.leb_le; unfold emax, prec; lia).
  reflexivity.
Qed.

Lemma round_half_even_shift_scale (m k n : Z) :
  0 <= k -> 0 <= n ->
  round_half_even_shift (m * 2 ^ n) (k + n) = round_half_even_shift m k.
Proof.
  intros Hk Hn. unfold round_half_even_shift.
  assert (Hpn : 0 < 2 ^ n) by (apply Z.pow_pos_nonneg; lia).
  assert (Hpk : 0 < 2 ^ k) by (apply Z.pow_pos_nonneg; lia).
  assert (Hq : Z.shiftr (m * 2 ^ n) (k + n) = Z.shiftr m k).
  { rewrite !Z.shiftr_div_pow2 by lia. rewrite Z.pow_add_r by lia.
    apply Z.div_mul_cancel_r; lia. }
  rewrite Hq, !Z.shiftl_mul_pow2 by lia. rewrite Z.pow_add_r by lia.
  replace (2 * (m * 2 ^ n - Z.shiftr m k * (2 ^ k * 2 ^ n)))
    with (2 * (m - Z.shiftr m k * 2 ^ k) * 2 ^ n) by ring.
  replace (1 * (2 ^ k * 2 ^ n)) with (1 * 2 ^ k * 2 ^ n) by ring.
  now rewrite <- Zmult_compare_compat_r by lia.
Qed.

(** [round_half_even_shift m k] is the integer nearest to [m / 2^k], and
    the even one of the two when [m / 2^k] lies half way. *)
Lemma round_half_even_shift_nearest (m k : Z) :
  0 <= k ->
  2 * Z.abs (round_half_even_shift m k * 2 ^ k - m) <= 2 ^ k /\
  (2 * Z.abs (round_half_even_shift m k * 2 ^ k - m) = 2 ^ k ->
   Z.even (round_half_even_shift m k) = true).
Proof.
  intros Hk. unfold round_half_even_shift.
  assert (Hpk : 0 < 2 ^ k) by (apply Z.pow_pos_nonneg; lia).
  rewrite Z.shiftr_div_pow2, Z.shiftl_mul_pow2, Z.shiftl_mul_pow2 by lia.
  pose proof (Z.div_mod m (2 ^ k) ltac:(lia)) as Hdm.
  pose proof (Z.mod_pos_bound m (2 ^ k) Hpk) as Hb.
  set (q := m / 2 ^ k) in *. set (r := m mod 2 ^ k) in *.
  replace (m - q * 2 ^ k) with r by lia.
  destruct (Z.compare_spec (2 * r) (1 * 2 ^ k)) as [He | Hl | Hg].
  - destruct (Z.even q) eqn:Hev.
    + split; [lia | intros _; exact Hev].
    + split; [lia|]. intros _.
      rewrite Z.even_add, Hev. reflexivity.
  - split; lia.
  - split; lia.
Qed.

Lemma ram_of_kb (kb : Z) :
  0 <= kb < 2 ^ 53 ->
  (let! q := int_truediv kb 1048576 in py_round q) = Ok (round_half_even_shift kb 20).
Proof.
  intros [Hlo Hhi]. destruct kb as [|p|p]; [reflexivity | | lia].
  pose proof (digits2_pos_lower p) as Hlow.
  assert (Hd : Z.pos (digits2_pos p) <= 53).
  { destruct (Z_le_gt_dec (Z.pos (digits2_pos p)) 53) as [H | H]; [exact H|]. exfalso.
    assert (2 ^ 53 <= 2 ^ (Z.pos (digits2_pos p) - 1)) by (apply Z.pow_le_mono_r; lia).
    lia. }
  unfold int_truediv. rewrite (float_of_ratio_exact p Hhi). cbn [rbind py_round].
  replace (0 <=? Z.pos (digits2_pos p) - 73) with false by (symmetry; apply Z.leb_gt; lia).
  rewrite shiftl_nat_value, Z2Nat.id by lia.
  replace (- (Z.pos (digits2_pos p) - 73)) with (20 + (53 - Z.pos (digits2_pos p))) by lia.
  rewrite round_half_even_shift_scale by lia. reflexivity.
Qed.

(** The first number of a line: the first run of digits, whole. *)
Lemma first_match_digits (pre t post : string) :
  any_char py_isdigit pre = false ->
  t <> EmptyString -> all_chars py_isdigit t = true ->
  (forall c post', post = String c post' -> py_isdigit c = false) ->
  first_match digits_re (pre ++ t ++ post) = Returns t.
Proof.
  intros Hpre Hne Hall Hpost. unfold first_match.
  assert (Hhere : match_here digits_re (t ++ post) = Some [t]).
  { unfold digits_re. cbn [match_here item_class item_min item_max item_group].
    apply rep_greedy_run; [exact Hpost | exact Hall | | reflexivity].
    destruct t; [congruence | cbn [String.length]; lia]. }
  induction pre as [|c pre IH]; cbn [String.append].
  - destruct t as [|c t]; [congruence|]. cbn [String.append] in *.
    cbn [re_search]. now rewrite Hhere.
  - cbn [any_char] in Hpre. apply orb_false_iff in Hpre as [Hc Hpre].
    cbn [re_search]. unfold digits_re at 1.
    cbn [match_here item_class item_min item_max item_group rep_greedy].
    rewrite Hc. cbn [andb]. apply IH, Hpre.
Qed.

(** X25: the size that [get_ram_total_gb] returns is exact.  When the
    first line that starts with [MemTotal] holds a first run of digits
    that reads as [kb], below 2^53, the function returns the integer
    nearest to [kb / 1048576], the even one of the two when the quotient
    lies half way: the division in floating point loses nothing. *)
Theorem ram_total_is_nearest (before rest : list string) (pre t post : string) (kb : Z) :
  (forall l, In l before -> startswith "MemTotal" l = false) ->
  startswith "MemTotal" (pre ++ t ++ post) = true ->
  any_char py_isdigit pre = false ->
  t <> EmptyString -> all_chars py_isdigit t = true ->
  (forall c post', post = String c post' -> py_isdigit c = false) ->
  int_of_str t = Some kb -> kb < 2 ^ 53 ->
  exists n,
    ram_scan (before ++ (pre ++ t ++ post) :: rest) = Returns n /\
    2 * Z.abs (n * 1048576 - kb) <= 1048576 /\
    (2 * Z.abs (n * 1048576 - kb) = 1048576 -> Z.even n = true).
Proof.
  intros Hbefore Hline Hpre Hne Hall Hpost Hkb Hsmall.
  exists (round_half_even_shift kb 20). split.
  - induction before as [|l before IH]; cbn [app ram_scan].
    + rewrite Hline, (first_match_digits pre t post Hpre Hne Hall Hpost). cbn [obind].
      unfold int_of. rewrite Hkb. cbn [of_result obind].
      destruct (int_of_digits t Hne Hall) as (n & Hn & Hpos).
      unfold int_of in Hn. rewrite Hkb in Hn. injection Hn as <-.
      pose proof (ram_of_kb kb (conj Hpos Hsmall)) as Hr.
      destruct (int_truediv kb 1048576) as [q|e]; [|discriminate Hr].
      cbn [rbind] in Hr. cbn [of_result obind]. now rewrite Hr.
    + rewrite (Hbefore l) by now left. apply IH. intros l' Hl'. apply Hbefore. now right.
  - apply (round_half_even_shift_nearest kb 20). lia.
Qed.

Lemma ram_total_is_nearest_witness :
  ram_scan ["MemFree:  100 kB"; "MemTotal:       16303428 kB"] = Returns 16.
Proof.
  destruct (ram_total_is_nearest ["MemFree:  100 kB"] [] "MemTotal:       " "16303428" " kB"
              16303428)
    as (n & Hn & Hnear & _).
  - intros l [<- | []]. reflexivity.
  - reflexivity.
  - reflexivity.
  - discriminate.
  - reflexivity.
  - intros c post' [= <- _]. reflexivity.
  - reflexivity.
  - reflexivity.
  - cbn [app String.append] in Hn. rewrite Hn. f_equal. lia.
Defined.
